(** * cn_tester firmware: shallow embedding of the Target and Master programs

    Source: [mcu_firmwares/target_firmware/src/main.cpp], which holds the Target
    firmware ([setup]/[loop] at the top) followed by the Master firmware.

    Modelling conventions.
    - Every Arduino side effect is an [event] appended to an output trace:
      serial output, [pinMode], [digitalWrite], [delay].
    - [HIGH] is [true] and [LOW] is [false].
    - [millis()] values are [unsigned long] (32 bits); the difference
      [now - start] is computed with its wrap-around ([elapsed]).
    - One Master [loop()] call is a function [loop : Master -> Poll -> Master * list event].
      A [Poll] gathers everything the call reads from the outside world.
      The test lines are sampled once per call ([p_levels]), i.e. a line does
      not change level within one loop iteration.  The busy-wait
      [while (digitalRead(BUTTON_PIN) == LOW) delay(10);] is described by the
      number of LOW reads it makes ([p_held]). *)

From Stdlib Require Import ZArith List String Ascii Bool Lia.
Import ListNotations.
Open Scope string_scope.
Open Scope list_scope.
Open Scope Z_scope.

Definition HIGH : bool := true.
Definition LOW : bool := false.

Inductive pin_mode := INPUT | OUTPUT | INPUT_PULLUP.

Inductive event :=
| SerialBegin (baud : Z)
| Print (s : string)
| Println (s : string)
| PinMode (p : Z) (m : pin_mode)
| DigitalWrite (p : Z) (level : bool)
| Delay (ms : Z).

(** nRF52 pin names: [P0_n] is [n], [P1_n] is [32 + n]. *)
Definition P0 (n : Z) : Z := n.
Definition P1 (n : Z) : Z := 32 + n.

(** [unsigned long] subtraction [a - b]. *)
Definition elapsed (a b : Z) : Z := (a - b) mod 2 ^ 32.

(** The text a list of serial events puts on the line ([println] adds CR LF
    in Arduino; we write a single newline character for it). *)
Definition NL : string := String (ascii_of_nat 10) EmptyString.

Fixpoint serial_text (es : list event) : string :=
  match es with
  | [] => EmptyString
  | Print s :: r => String.append s (serial_text r)
  | Println s :: r => String.append s (String.append NL (serial_text r))
  | _ :: r => serial_text r
  end.

(** String joined with a separator. *)
Fixpoint join (sep : string) (l : list string) : string :=
  match l with
  | [] => EmptyString
  | [x] => x
  | x :: r => String.append x (String.append sep (join sep r))
  end.

(** ** Target firmware *)
Module Target.

Definition LED_STATUS_PIN := P0 15.
Definition VCC_CTRL_PIN := P0 13.

Definition TEST_PINS : list Z :=
  [VCC_CTRL_PIN; P0 31; P0 29; P0 2; P1 15; P1 13; P1 11; P0 10; P0 9; P1 6;
   P1 4; P0 11; P1 0; P0 24; P0 22; P0 20; P0 17; P0 8; P0 6].

Definition HOLD_ALL_HIGH_MS := 1000.
Definition HOLD_ALL_LOW_MS := 1000.
Definition SEQ_HIGH_MS := 150.
Definition SEQ_LOW_MS := 150.

Definition setAll (level : bool) : list event :=
  map (fun p => DigitalWrite p level) TEST_PINS.

(** [setup()].  [usb_waits] is the number of [delay(10)] iterations of the
    [USBCON] wait for the host to open the port (0 when it is open at once). *)
Definition setup (usb_waits : nat) : list event :=
  [SerialBegin 115200] ++ repeat (Delay 10) usb_waits ++
  [Println "Target: READY";
   PinMode LED_STATUS_PIN OUTPUT; DigitalWrite LED_STATUS_PIN LOW;
   PinMode VCC_CTRL_PIN OUTPUT; DigitalWrite VCC_CTRL_PIN LOW] ++
  flat_map (fun p => [PinMode p OUTPUT; DigitalWrite p LOW]) TEST_PINS ++
  (* Stage 1 -- all HIGH *)
  [Println "Target: STAGE — ALL_HIGH: BEGIN"] ++ setAll HIGH ++
  [DigitalWrite LED_STATUS_PIN HIGH; Delay HOLD_ALL_HIGH_MS;
   Println "Target: STAGE — ALL_HIGH: OK"] ++
  (* Stage 2 -- all LOW *)
  [Println "Target: STAGE — ALL_LOW: BEGIN"] ++ setAll LOW ++
  [DigitalWrite LED_STATUS_PIN LOW; Delay HOLD_ALL_LOW_MS;
   Println "Target: STAGE — ALL_LOW: OK"] ++
  (* Stage 3 -- per-pin sequence *)
  [Println "Target: STAGE — SEQUENCE: BEGIN"] ++
  flat_map (fun p => [DigitalWrite p HIGH; Delay SEQ_HIGH_MS;
                      DigitalWrite p LOW; Delay SEQ_LOW_MS]) TEST_PINS ++
  [Println "Target: STAGE — SEQUENCE: ALL OK"].

Definition loop : list event := [Println "Target: STAGE — IDLE: OK"].

(** The Arduino runtime: [setup()] once, then [loop()] forever; [run w k] is
    the trace up to the end of the [k]-th [loop()] call. *)
Definition run (usb_waits k : nat) : list event :=
  setup usb_waits ++ List.concat (repeat loop k).

End Target.

(** ** Master firmware *)
Module Master.

Definition LED_STATUS_PIN := P0 15.
Definition LED_PCB_PIN := P0 13.
Definition BUTTON_PIN := P1 2.
Definition RESET_SENDER_PIN := P1 1.
Definition VCC_PIN := P1 7.

Definition TEST_PINS : list Z :=
  [VCC_PIN; P0 31; P0 29; P0 2; P1 15; P1 13; P1 11; P0 10; P0 9; P1 6;
   P1 4; P0 11; P1 0; P0 24; P0 22; P0 20; P0 17; P0 8; P0 6].

Definition TEST_LABELS_19 : list string :=
  ["P1_07(VCC)"; "P0_31"; "P0_29"; "P0_02"; "P1_15"; "P1_13"; "P1_11";
   "P0_10"; "P0_09"; "P1_06"; "P1_04"; "P0_11"; "P1_00"; "P0_24"; "P0_22";
   "P0_20"; "P0_17"; "P0_08"; "P0_06"].

Inductive TestState :=
| STATE_WAIT_BUTTON
| STATE_WAIT_ALL_HIGH
| STATE_WAIT_ALL_LOW
| STATE_SEQUENCE
| STATE_SUCCESS
| STATE_FAIL.

Definition TestState_eqb (a b : TestState) : bool :=
  match a, b with
  | STATE_WAIT_BUTTON, STATE_WAIT_BUTTON | STATE_WAIT_ALL_HIGH, STATE_WAIT_ALL_HIGH
  | STATE_WAIT_ALL_LOW, STATE_WAIT_ALL_LOW | STATE_SEQUENCE, STATE_SEQUENCE
  | STATE_SUCCESS, STATE_SUCCESS | STATE_FAIL, STATE_FAIL => true
  | _, _ => false
  end.

Definition PRECHECK_TIMEOUT_MS := 3000.
Definition LOW_STAGE_TIMEOUT_MS := 3000.
Definition SEQUENCE_TIMEOUT_MS := 15000.
Definition DEBOUNCE_MS := 50.

(** The global variables of the Master, plus the output latch of
    [LED_STATUS_PIN] (read back by [digitalRead] when blinking). *)
Record Master := {
  state : TestState;
  stateStartMs : Z;
  lastBlinkMs : Z;
  lastButtonEdgeMs : Z;
  lastButtonState : bool;
  expectedIndex : Z;
  pinWasHigh : list bool;
  precheckAllHighOk : bool;
  precheckAllLowOk : bool;
  startRequested : bool;
  beginAllHighPrinted : bool;
  beginAllLowPrinted : bool;
  beginSequencePrinted : bool;
  beginFailPrinted : bool;
  ledStatus : bool }.

Definition set_lastBlinkMs (m : Master) v : Master :=
  {| state := state m; stateStartMs := stateStartMs m; lastBlinkMs := v;
     lastButtonEdgeMs := lastButtonEdgeMs m; lastButtonState := lastButtonState m; expectedIndex := expectedIndex m;
     pinWasHigh := pinWasHigh m; precheckAllHighOk := precheckAllHighOk m; precheckAllLowOk := precheckAllLowOk m;
     startRequested := startRequested m; beginAllHighPrinted := beginAllHighPrinted m; beginAllLowPrinted := beginAllLowPrinted m;
     beginSequencePrinted := beginSequencePrinted m; beginFailPrinted := beginFailPrinted m; ledStatus := ledStatus m |}.

Definition set_lastButtonEdgeMs (m : Master) v : Master :=
  {| state := state m; stateStartMs := stateStartMs m; lastBlinkMs := lastBlinkMs m;
     lastButtonEdgeMs := v; lastButtonState := lastButtonState m; expectedIndex := expectedIndex m;
     pinWasHigh := pinWasHigh m; precheckAllHighOk := precheckAllHighOk m; precheckAllLowOk := precheckAllLowOk m;
     startRequested := startRequested m; beginAllHighPrinted := beginAllHighPrinted m; beginAllLowPrinted := beginAllLowPrinted m;
     beginSequencePrinted := beginSequencePrinted m; beginFailPrinted := beginFailPrinted m; ledStatus := ledStatus m |}.

Definition set_lastButtonState (m : Master) v : Master :=
  {| state := state m; stateStartMs := stateStartMs m; lastBlinkMs := lastBlinkMs m;
     lastButtonEdgeMs := lastButtonEdgeMs m; lastButtonState := v; expectedIndex := expectedIndex m;
     pinWasHigh := pinWasHigh m; precheckAllHighOk := precheckAllHighOk m; precheckAllLowOk := precheckAllLowOk m;
     startRequested := startRequested m; beginAllHighPrinted := beginAllHighPrinted m; beginAllLowPrinted := beginAllLowPrinted m;
     beginSequencePrinted := beginSequencePrinted m; beginFailPrinted := beginFailPrinted m; ledStatus := ledStatus m |}.

Definition set_expectedIndex (m : Master) v : Master :=
  {| state := state m; stateStartMs := stateStartMs m; lastBlinkMs := lastBlinkMs m;
     lastButtonEdgeMs := lastButtonEdgeMs m; lastButtonState := lastButtonState m; expectedIndex := v;
     pinWasHigh := pinWasHigh m; precheckAllHighOk := precheckAllHighOk m; precheckAllLowOk := precheckAllLowOk m;
     startRequested := startRequested m; beginAllHighPrinted := beginAllHighPrinted m; beginAllLowPrinted := beginAllLowPrinted m;
     beginSequencePrinted := beginSequencePrinted m; beginFailPrinted := beginFailPrinted m; ledStatus := ledStatus m |}.

Definition set_pinWasHigh (m : Master) v : Master :=
  {| state := state m; stateStartMs := stateStartMs m; lastBlinkMs := lastBlinkMs m;
     lastButtonEdgeMs := lastButtonEdgeMs m; lastButtonState := lastButtonState m; expectedIndex := expectedIndex m;
     pinWasHigh := v; precheckAllHighOk := precheckAllHighOk m; precheckAllLowOk := precheckAllLowOk m;
     startRequested := startRequested m; beginAllHighPrinted := beginAllHighPrinted m; beginAllLowPrinted := beginAllLowPrinted m;
     beginSequencePrinted := beginSequencePrinted m; beginFailPrinted := beginFailPrinted m; ledStatus := ledStatus m |}.

Definition set_precheckAllHighOk (m : Master) v : Master :=
  {| state := state m; stateStartMs := stateStartMs m; lastBlinkMs := lastBlinkMs m;
     lastButtonEdgeMs := lastButtonEdgeMs m; lastButtonState := lastButtonState m; expectedIndex := expectedIndex m;
     pinWasHigh := pinWasHigh m; precheckAllHighOk := v; precheckAllLowOk := precheckAllLowOk m;
     startRequested := startRequested m; beginAllHighPrinted := beginAllHighPrinted m; beginAllLowPrinted := beginAllLowPrinted m;
     beginSequencePrinted := beginSequencePrinted m; beginFailPrinted := beginFailPrinted m; ledStatus := ledStatus m |}.

Definition set_precheckAllLowOk (m : Master) v : Master :=
  {| state := state m; stateStartMs := stateStartMs m; lastBlinkMs := lastBlinkMs m;
     lastButtonEdgeMs := lastButtonEdgeMs m; lastButtonState := lastButtonState m; expectedIndex := expectedIndex m;
     pinWasHigh := pinWasHigh m; precheckAllHighOk := precheckAllHighOk m; precheckAllLowOk := v;
     startRequested := startRequested m; beginAllHighPrinted := beginAllHighPrinted m; beginAllLowPrinted := beginAllLowPrinted m;
     beginSequencePrinted := beginSequencePrinted m; beginFailPrinted := beginFailPrinted m; ledStatus := ledStatus m |}.

Definition set_startRequested (m : Master) v : Master :=
  {| state := state m; stateStartMs := stateStartMs m; lastBlinkMs := lastBlinkMs m;
     lastButtonEdgeMs := lastButtonEdgeMs m; lastButtonState := lastButtonState m; expectedIndex := expectedIndex m;
     pinWasHigh := pinWasHigh m; precheckAllHighOk := precheckAllHighOk m; precheckAllLowOk := precheckAllLowOk m;
     startRequested := v; beginAllHighPrinted := beginAllHighPrinted m; beginAllLowPrinted := beginAllLowPrinted m;
     beginSequencePrinted := beginSequencePrinted m; beginFailPrinted := beginFailPrinted m; ledStatus := ledStatus m |}.

Definition set_beginAllHighPrinted (m : Master) v : Master :=
  {| state := state m; stateStartMs := stateStartMs m; lastBlinkMs := lastBlinkMs m;
     lastButtonEdgeMs := lastButtonEdgeMs m; lastButtonState := lastButtonState m; expectedIndex := expectedIndex m;
     pinWasHigh := pinWasHigh m; precheckAllHighOk := precheckAllHighOk m; precheckAllLowOk := precheckAllLowOk m;
     startRequested := startRequested m; beginAllHighPrinted := v; beginAllLowPrinted := beginAllLowPrinted m;
     beginSequencePrinted := beginSequencePrinted m; beginFailPrinted := beginFailPrinted m; ledStatus := ledStatus m |}.

Definition set_beginAllLowPrinted (m : Master) v : Master :=
  {| state := state m; stateStartMs := stateStartMs m; lastBlinkMs := lastBlinkMs m;
     lastButtonEdgeMs := lastButtonEdgeMs m; lastButtonState := lastButtonState m; expectedIndex := expectedIndex m;
     pinWasHigh := pinWasHigh m; precheckAllHighOk := precheckAllHighOk m; precheckAllLowOk := precheckAllLowOk m;
     startRequested := startRequested m; beginAllHighPrinted := beginAllHighPrinted m; beginAllLowPrinted := v;
     beginSequencePrinted := beginSequencePrinted m; beginFailPrinted := beginFailPrinted m; ledStatus := ledStatus m |}.

Definition set_beginSequencePrinted (m : Master) v : Master :=
  {| state := state m; stateStartMs := stateStartMs m; lastBlinkMs := lastBlinkMs m;
     lastButtonEdgeMs := lastButtonEdgeMs m; lastButtonState := lastButtonState m; expectedIndex := expectedIndex m;
     pinWasHigh := pinWasHigh m; precheckAllHighOk := precheckAllHighOk m; precheckAllLowOk := precheckAllLowOk m;
     startRequested := startRequested m; beginAllHighPrinted := beginAllHighPrinted m; beginAllLowPrinted := beginAllLowPrinted m;
     beginSequencePrinted := v; beginFailPrinted := beginFailPrinted m; ledStatus := ledStatus m |}.

Definition set_beginFailPrinted (m : Master) v : Master :=
  {| state := state m; stateStartMs := stateStartMs m; lastBlinkMs := lastBlinkMs m;
     lastButtonEdgeMs := lastButtonEdgeMs m; lastButtonState := lastButtonState m; expectedIndex := expectedIndex m;
     pinWasHigh := pinWasHigh m; precheckAllHighOk := precheckAllHighOk m; precheckAllLowOk := precheckAllLowOk m;
     startRequested := startRequested m; beginAllHighPrinted := beginAllHighPrinted m; beginAllLowPrinted := beginAllLowPrinted m;
     beginSequencePrinted := beginSequencePrinted m; beginFailPrinted := v; ledStatus := ledStatus m |}.

Definition set_ledStatus (m : Master) v : Master :=
  {| state := state m; stateStartMs := stateStartMs m; lastBlinkMs := lastBlinkMs m;
     lastButtonEdgeMs := lastButtonEdgeMs m; lastButtonState := lastButtonState m; expectedIndex := expectedIndex m;
     pinWasHigh := pinWasHigh m; precheckAllHighOk := precheckAllHighOk m; precheckAllLowOk := precheckAllLowOk m;
     startRequested := startRequested m; beginAllHighPrinted := beginAllHighPrinted m; beginAllLowPrinted := beginAllLowPrinted m;
     beginSequencePrinted := beginSequencePrinted m; beginFailPrinted := beginFailPrinted m; ledStatus := v |}.

(** [toState]: records the new state and the [millis()] value read by the call. *)
Definition toState (m : Master) (s : TestState) (t : Z) : Master :=
  {| state := s; stateStartMs := t; lastBlinkMs := lastBlinkMs m;
     lastButtonEdgeMs := lastButtonEdgeMs m; lastButtonState := lastButtonState m; expectedIndex := expectedIndex m;
     pinWasHigh := pinWasHigh m; precheckAllHighOk := precheckAllHighOk m; precheckAllLowOk := precheckAllLowOk m;
     startRequested := startRequested m; beginAllHighPrinted := beginAllHighPrinted m; beginAllLowPrinted := beginAllLowPrinted m;
     beginSequencePrinted := beginSequencePrinted m; beginFailPrinted := beginFailPrinted m; ledStatus := ledStatus m |}.
(** What one [loop()] call reads from the outside world. *)
Record Poll := mkPoll {
  p_now : Z;                (* [millis()] at the top of [loop()] *)
  p_serial : option string; (* [readStringUntil('\n')] when [Serial.available()] *)
  p_btn : bool;             (* [digitalRead(BUTTON_PIN)] for debouncing *)
  p_levels : list bool;     (* [digitalRead(TEST_PINS[i])], by roster position *)
  p_held : nat;             (* LOW reads made by the block-until-release loop *)
  p_t_state : Z             (* [millis()] read by [toState] *)
}.

(** *** Arduino [String] operations used by the command channel *)

(** [isspace] of the C library. *)
Definition isspace (c : ascii) : bool :=
  let n := nat_of_ascii c in (n =? 32)%nat || ((9 <=? n)%nat && (n <=? 13)%nat).

Definition tolower (c : ascii) : ascii :=
  let n := nat_of_ascii c in
  if ((65 <=? n)%nat && (n <=? 90)%nat) then ascii_of_nat (n + 32) else c.

Fixpoint drop_space (l : list ascii) : list ascii :=
  match l with
  | c :: r => if isspace c then drop_space r else l
  | [] => []
  end.

(** [String::trim()]: removes leading and trailing white space. *)
Definition trim (s : string) : string :=
  string_of_list_ascii
    (rev (drop_space (rev (drop_space (list_ascii_of_string s))))).

(** A word up to letter case: the same length and the same characters after
    [tolower].  This is what "matched case-insensitively" means for a command
    word; the firmware's own test is [equalsIgnoreCase] below. *)
Fixpoint sameIgnoringCase (a b : string) : bool :=
  match a, b with
  | EmptyString, EmptyString => true
  | String c r, String d q => Ascii.eqb (tolower c) (tolower d) && sameIgnoringCase r q
  | _, _ => false
  end.

(** The character loop of [String::equalsIgnoreCase]:
    [while ( *p1) { if (tolower( *p1++) != tolower( *p2++)) return 0; } return 1;]
    It ends at the first NUL byte of the receiver [a]. *)
Fixpoint eic_loop (a b : string) : bool :=
  match a with
  | EmptyString => true
  | String c r =>
      if Ascii.eqb c Ascii.zero then true
      else match b with
           | String d q => Ascii.eqb (tolower c) (tolower d) && eic_loop r q
           | EmptyString => false (* past the end of [b]: not reached, the lengths being equal *)
           end
  end.

(** [String::equalsIgnoreCase]: [if (len != s2.len) return 0;
    if (len == 0) return 1;] then the character loop. *)
Definition equalsIgnoreCase (a b : string) : bool :=
  Nat.eqb (String.length a) (String.length b) && eic_loop a b.

(** [pulseReset()] and [enterFlashMode()]. *)
Definition pulseReset : list event :=
  [Println "Master: SENT RESET"; DigitalWrite RESET_SENDER_PIN LOW; Delay 100;
   DigitalWrite RESET_SENDER_PIN HIGH].

Definition enterFlashMode : list event :=
  [Println "Master: FLASH command received."] ++ pulseReset ++ [Delay 200] ++ pulseReset.

(** The output of the Master's [setup()]; [usb_waits] is the number of
    [delay(10)] iterations of the [USBCON] wait.  Its effect on the globals
    is [setup_state]. *)
Definition setup (usb_waits : nat) : list event :=
  [SerialBegin 115200] ++ repeat (Delay 10) usb_waits ++
  [PinMode LED_STATUS_PIN OUTPUT; PinMode LED_PCB_PIN OUTPUT;
   PinMode BUTTON_PIN INPUT_PULLUP; PinMode RESET_SENDER_PIN OUTPUT;
   DigitalWrite RESET_SENDER_PIN HIGH; DigitalWrite LED_STATUS_PIN LOW;
   DigitalWrite LED_PCB_PIN LOW;
   PinMode VCC_PIN INPUT] ++
  flat_map (fun q => [PinMode q INPUT]) TEST_PINS ++
  [Println "Master: READY"].

(** [while (digitalRead(BUTTON_PIN) == LOW) { delay(10); }] *)
Definition waitRelease (held : nat) : list event := repeat (Delay 10) held.

(** Replace the [n]-th element; out of range the list is unchanged. *)
Fixpoint set_nth {A} (l : list A) (n : nat) (x : A) : list A :=
  match l, n with
  | [], _ => []
  | _ :: r, O => x :: r
  | y :: r, S n' => y :: set_nth r n' x
  end.

Section Firmware.

(** The label roster [TEST_LABELS]; [NUM_TEST_PINS] is its length.  The
    firmware has the 19 labels of [TEST_LABELS_19]. *)
Variable TEST_LABELS : list string.

Definition NUM_TEST_PINS : nat := List.length TEST_LABELS.

Definition label (i : nat) : string := nth i TEST_LABELS EmptyString.

(** [digitalRead(TEST_PINS[i])] in the current poll. *)
Definition read (lv : list bool) (i : nat) : bool := nth i lv LOW.

Definition pins : list nat := seq 0 NUM_TEST_PINS.

(** [printDynamicPinsByLevel(level)] *)
Fixpoint print_pins (lv : list bool) (level : bool) (idx : list nat) (first : bool)
  : list event :=
  match idx with
  | [] => []
  | i :: r =>
      if Bool.eqb (read lv i) level
      then (if first then [] else [Print ", "]) ++ Print (label i) ::
           print_pins lv level r false
      else print_pins lv level r first
  end.

Definition printDynamicPinsByLevel (lv : list bool) (level : bool) : list event :=
  print_pins lv level pins true ++ [Println ""].

(** The labels the diagnostic lists: those of the lines at [level], in roster order. *)
Definition labels_at (lv : list bool) (level : bool) : list string :=
  map label (filter (fun i => Bool.eqb (read lv i) level) pins).

(** Global initialisation and [setup()] of the Master, at [millis() = t]. *)
Definition setup_state (t : Z) : Master :=
  {| state := STATE_WAIT_BUTTON; stateStartMs := t; lastBlinkMs := 0;
     lastButtonEdgeMs := 0; lastButtonState := HIGH; expectedIndex := 0;
     pinWasHigh := repeat false NUM_TEST_PINS; precheckAllHighOk := false;
     precheckAllLowOk := false; startRequested := false;
     beginAllHighPrinted := false; beginAllLowPrinted := false;
     beginSequencePrinted := false; beginFailPrinted := false;
     ledStatus := LOW |}.

(** Serial command handling at the top of [loop()]. *)
Definition serial_commands (m : Master) (cmd : option string) : Master * list event :=
  match cmd with
  | None => (m, [])
  | Some line =>
      let c := trim line in
      if equalsIgnoreCase c "START" then
        (set_startRequested m true, [Println "Master: START command received."])
      else if equalsIgnoreCase c "FLASH" || equalsIgnoreCase c "DFU" then
        (m, enterFlashMode)
      else (m, [])
  end.

(** Button edge tracking. *)
Definition track_button (m : Master) (now : Z) (btn : bool) : Master :=
  if negb (Bool.eqb btn (lastButtonState m))
  then set_lastButtonState (set_lastButtonEdgeMs m now) btn
  else m.

Definition is_pressed (m : Master) (now : Z) (btn : bool) : bool :=
  Bool.eqb btn LOW && (DEBOUNCE_MS <? elapsed now (lastButtonEdgeMs m)).

(** LED blink: [lastBlinkMs = now; digitalWrite(LED, !digitalRead(LED))]. *)
Definition blink (m : Master) (now : Z) : Master * list event :=
  let v := negb (ledStatus m) in
  (set_ledStatus (set_lastBlinkMs m now) v, [DigitalWrite LED_STATUS_PIN v]).

(** [case STATE_WAIT_BUTTON] *)
Definition wait_button (m : Master) (p : Poll) (pressed : bool) : Master * list event :=
  let now := p_now p in
  let '(m, e1) :=
    if 500 <=? elapsed now (lastBlinkMs m) then
      let '(m', e) := blink m now in (m', Println "Master: STAGE — IDLE: OK" :: e)
    else (m, []) in
  if pressed || startRequested m then
    let m := set_startRequested m false in
    let m := set_precheckAllHighOk m false in
    let m := set_precheckAllLowOk m false in
    let m := set_expectedIndex m 0 in
    let m := set_pinWasHigh m
               (fold_left (fun pw i => set_nth pw i false) pins (pinWasHigh m)) in
    let m := set_ledStatus m LOW in
    let m := set_beginAllHighPrinted m false in
    let m := set_beginFailPrinted m false in
    (toState m STATE_WAIT_ALL_HIGH (p_t_state p),
     e1 ++ waitRelease (p_held p) ++ [Println "Master: START"] ++ pulseReset ++
     [DigitalWrite LED_STATUS_PIN LOW])
  else (m, e1).

(** [case STATE_WAIT_ALL_HIGH] *)
Definition wait_all_high (m : Master) (p : Poll) : Master * list event :=
  let lv := p_levels p in
  let '(m, e1) :=
    if negb (beginAllHighPrinted m) then
      (set_beginAllHighPrinted m true, [Println "Master: STAGE — ALL_HIGH: BEGIN"])
    else (m, []) in
  let allHigh := forallb (fun i => Bool.eqb (read lv i) HIGH) pins in
  if allHigh then
    let m := set_precheckAllHighOk m true in
    let m := set_beginAllLowPrinted m false in
    (toState m STATE_WAIT_ALL_LOW (p_t_state p),
     e1 ++ [Println "Master: STAGE — ALL_HIGH: OK"])
  else if PRECHECK_TIMEOUT_MS <? elapsed (p_now p) (stateStartMs m) then
    let m := set_beginAllLowPrinted m false in
    (toState m STATE_WAIT_ALL_LOW (p_t_state p),
     e1 ++ [Print "Master: STAGE — ALL_HIGH: ERROR. LOW_PINS: "] ++
     printDynamicPinsByLevel lv LOW)
  else (m, e1).

(** [case STATE_WAIT_ALL_LOW] *)
Definition wait_all_low (m : Master) (p : Poll) : Master * list event :=
  let lv := p_levels p in
  let '(m, e1) :=
    if negb (beginAllLowPrinted m) then
      (set_beginAllLowPrinted m true, [Println "Master: STAGE — ALL_LOW: BEGIN"])
    else (m, []) in
  let allLow := forallb (fun i => Bool.eqb (read lv i) LOW) pins in
  if allLow then
    let m := set_precheckAllLowOk m true in
    let m := set_beginSequencePrinted m false in
    (toState m STATE_SEQUENCE (p_t_state p),
     e1 ++ [Println "Master: STAGE — ALL_LOW: OK"])
  else if LOW_STAGE_TIMEOUT_MS <? elapsed (p_now p) (stateStartMs m) then
    let m := set_beginSequencePrinted m false in
    (toState m STATE_SEQUENCE (p_t_state p),
     e1 ++ [Print "Master: STAGE — ALL_LOW: ERROR. HIGH_PINS: "] ++
     printDynamicPinsByLevel lv HIGH)
  else (m, e1).

(** The counting loop of [case STATE_SEQUENCE]: [(highCount, highIdx)]. *)
Definition count_high (lv : list bool) : Z * Z :=
  fold_left (fun acc i => if Bool.eqb (read lv i) HIGH then (fst acc + 1, Z.of_nat i) else acc)
            pins (0, -1).

(** [case STATE_SEQUENCE] after the begin marker and before the timeout
    check; the boolean is [true] when the case has executed [break]. *)
Definition sequence_scan (m : Master) (p : Poll) : Master * list event * bool :=
  let lv := p_levels p in
  let t := p_t_state p in
  let '(highCount, highIdx) := count_high lv in
  if 1 <? highCount then
    (toState m STATE_FAIL t,
     [Print "Master: STAGE — SEQUENCE: ERROR. FAIL_PINS: "] ++
     printDynamicPinsByLevel lv HIGH, true)
  else if highCount =? 1 then
    let k := Z.to_nat highIdx in
    if negb (nth k (pinWasHigh m) false) then
      let m := set_pinWasHigh m (set_nth (pinWasHigh m) k true) in
      let e := [Print "Master: STAGE — SEQUENCE: OK — "; Println (label k)] in
      if highIdx =? expectedIndex m then
        let m := set_expectedIndex m (expectedIndex m + 1) in
        if expectedIndex m =? Z.of_nat NUM_TEST_PINS then
          (toState (set_ledStatus m HIGH) STATE_SUCCESS t,
           e ++ [Println "Master: STAGE — SEQUENCE: ALL OK";
                 DigitalWrite LED_STATUS_PIN HIGH], true)
        else (m, e, false)
      else if expectedIndex m <? highIdx then
        (toState m STATE_FAIL t,
         e ++ [Print "Master: STAGE — SEQUENCE: ERROR. THE ORDER OF SEQUENCE IS VIOLATED. EXPECTED: ";
               Print (label (Z.to_nat (expectedIndex m))); Print ", RECIVED ";
               Println (label k)], true)
      else
        (toState m STATE_FAIL t,
         e ++ [Print "Master: STAGE — SEQUENCE: ERROR. REPEATED/EARLIER RAISE ";
               Println (label k)], true)
    else (m, [], false)
  else
    (set_pinWasHigh m
       (fold_left (fun pw i => if Bool.eqb (read lv i) LOW then set_nth pw i false else pw)
                  pins (pinWasHigh m)), [], false).

Definition timeout_label (m : Master) : string :=
  if expectedIndex m <? Z.of_nat NUM_TEST_PINS
  then label (Z.to_nat (expectedIndex m)) else "end".

(** [case STATE_SEQUENCE] *)
Definition sequence (m : Master) (p : Poll) : Master * list event :=
  let '(m, e1) :=
    if negb (beginSequencePrinted m) then
      (set_beginSequencePrinted m true, [Println "Master: STAGE — SEQUENCE: BEGIN"])
    else (m, []) in
  let '(m, e2, brk) := sequence_scan m p in
  if brk then (m, e1 ++ e2)
  else if SEQUENCE_TIMEOUT_MS <? elapsed (p_now p) (stateStartMs m) then
    (toState m STATE_FAIL (p_t_state p),
     e1 ++ e2 ++ [Print "Master: STAGE — SEQUENCE: ERROR. TIMEOUT. EXPECTED: ";
                  Println (timeout_label m)])
  else (m, e1 ++ e2).

(** [case STATE_SUCCESS] *)
Definition success (m : Master) (p : Poll) : Master * list event :=
  (toState m STATE_WAIT_BUTTON (p_t_state p),
   [Print (String.append "Master: STAGE — SUCCESS: OK" NL)]).

(** [case STATE_FAIL] *)
Definition fail (m : Master) (p : Poll) (pressed : bool) : Master * list event :=
  let now := p_now p in
  let '(m, e1) :=
    if negb (beginFailPrinted m) then
      (set_beginFailPrinted m true, [Println "Master: FAIL"])
    else (m, []) in
  let '(m, e2) := if 150 <=? elapsed now (lastBlinkMs m) then blink m now else (m, []) in
  if pressed || startRequested m then
    let e3 := if pressed then waitRelease (p_held p) else [] in
    let m := set_startRequested m false in
    let m := set_expectedIndex m 0 in
    let m := set_pinWasHigh m
               (fold_left (fun pw i => set_nth pw i false) pins (pinWasHigh m)) in
    let m := set_ledStatus m LOW in
    let m := set_precheckAllHighOk m false in
    let m := set_precheckAllLowOk m false in
    let m := set_beginAllHighPrinted m false in
    let m := set_beginAllLowPrinted m false in
    let m := set_beginSequencePrinted m false in
    let m := set_beginFailPrinted m false in
    (toState m STATE_WAIT_ALL_HIGH (p_t_state p),
     e1 ++ e2 ++ e3 ++ [Println "Master: START"] ++ pulseReset ++
     [DigitalWrite LED_STATUS_PIN LOW])
  else (m, e1 ++ e2).

(** The [switch (state)] of [loop()]. *)
Definition dispatch (m : Master) (p : Poll) (pressed : bool) : Master * list event :=
  match state m with
  | STATE_WAIT_BUTTON => wait_button m p pressed
  | STATE_WAIT_ALL_HIGH => wait_all_high m p
  | STATE_WAIT_ALL_LOW => wait_all_low m p
  | STATE_SEQUENCE => sequence m p
  | STATE_SUCCESS => success m p
  | STATE_FAIL => fail m p pressed
  end.

(** [loop()] *)
Definition loop (m : Master) (p : Poll) : Master * list event :=
  let now := p_now p in
  let '(m, e0) := serial_commands m (p_serial p) in
  let m := track_button m now (p_btn p) in
  let pressed := is_pressed m now (p_btn p) in
  let '(m, e) := dispatch m p pressed in
  (m, e0 ++ e).

(** Successive [loop()] calls: final state and the whole output. *)
Fixpoint run (m : Master) (ps : list Poll) : Master * list event :=
  match ps with
  | [] => (m, [])
  | p :: r => let '(m1, e1) := loop m p in
              let '(m2, e2) := run m1 r in (m2, e1 ++ e2)
  end.

(** The state after each call. *)
Fixpoint states (m : Master) (ps : list Poll) : list Master :=
  match ps with
  | [] => []
  | p :: r => let m1 := fst (loop m p) in m1 :: states m1 r
  end.

(** The (state, poll) pair each call starts from. *)
Fixpoint steps (m : Master) (ps : list Poll) : list (Master * Poll) :=
  match ps with
  | [] => []
  | p :: r => (m, p) :: steps (fst (loop m p)) r
  end.

(** States reachable from power-up. *)
Inductive reachable : Master -> Prop :=
| reach_setup t : reachable (setup_state t)
| reach_loop m p : reachable m -> reachable (fst (loop m p)).

End Firmware.

End Master.

(** ** Concrete polls for the 19-line firmware *)
Module Scenarios.
Import Master.

(** Every line at [b]; only line [k] high. *)
Definition lv19 (b : bool) : list bool := repeat b 19.
Definition one_hot19 (k : nat) : list bool := map (fun i => Nat.eqb i k) (seq 0 19).

(** A poll with the button released and no serial line, at [millis() = t]. *)
Definition quiet_poll (t : Z) (lv : list bool) : Poll := mkPoll t None HIGH lv 0 t.

(** A poll delivering the START command. *)
Definition start_poll (t : Z) : Poll := mkPoll t (Some "START") HIGH (lv19 false) 0 t.

(** The 19 single-line pulses, 20 ms apart, each followed by an all-low poll. *)
Definition seq_polls (base : Z) : list Poll :=
  flat_map (fun k => [quiet_poll (base + 20 * Z.of_nat k) (one_hot19 k);
                      quiet_poll (base + 20 * Z.of_nat k + 10) (lv19 false)]) (seq 0 19).

Definition s0 : Master := setup_state TEST_LABELS_19 0.

(** Activation, then both prechecks pass; Sequence is entered at 9000 ms. *)
Definition prechecks_pass : list Poll :=
  [start_poll 1000; quiet_poll 1100 (lv19 true); quiet_poll 9000 (lv19 false)].

(** Activation, then both prechecks time out; Sequence is entered at 9000 ms. *)
Definition prechecks_time_out : list Poll :=
  [start_poll 1000; quiet_poll 5000 (lv19 false); quiet_poll 9000 (lv19 true)].

(** Activation, both prechecks passing at once; Sequence entered at 1200 ms. *)
Definition clean_prefix : list Poll :=
  [start_poll 1000; quiet_poll 1100 (lv19 true); quiet_poll 1200 (lv19 false)].

(** The 19 pulses from [base] as (high polls, low polls) blocks. *)
Definition pulse_blocks (base : Z) : list (list Poll * list Poll) :=
  map (fun k => ([quiet_poll (base + 20 * Z.of_nat k) (one_hot19 k)],
                 [quiet_poll (base + 20 * Z.of_nat k + 10) (lv19 false)])) (seq 0 19).

(** In Sequence: line 0, then line 1 with no low gap in between. *)
Definition zero_then_one : list Poll :=
  clean_prefix ++ [quiet_poll 1300 (one_hot19 0); quiet_poll 1310 (one_hot19 1)].

(** In Sequence: every line high at once, which enters Fail. *)
Definition to_fail : list Poll := clean_prefix ++ [quiet_poll 1300 (lv19 true)].

(** START while the button has been down for 0 ms (not yet a debounced
    press), the release coming after three 10 ms waits. *)
Definition held_start (t : Z) : Poll := mkPoll t (Some "START") LOW (lv19 false) 3 t.

(** A complete passing run, back in AwaitActivation. *)
Definition full_run : list Poll := prechecks_pass ++ seq_polls 9100.

(** In Sequence: lines 0, 1 and 2 pulse, then the cursor stays at 3. *)
Definition cursor_three : list Poll := clean_prefix ++ firstn 6 (seq_polls 1300).

End Scenarios.

(** * Properties *)
Module Props.
Import Master.

Section Proofs.

Variable TEST_LABELS : list string.

Local Abbreviation N := (NUM_TEST_PINS TEST_LABELS).
Local Abbreviation loop := (loop TEST_LABELS).
Local Abbreviation dispatch := (dispatch TEST_LABELS).
Local Abbreviation pins := (pins TEST_LABELS).
Local Abbreviation label := (label TEST_LABELS).

(** The state the [switch] of [loop()] works on. *)
Definition pre (m : Master) (p : Poll) : Master :=
  track_button (fst (serial_commands m (p_serial p))) (p_now p) (p_btn p).

Definition pressed_in (m : Master) (p : Poll) : bool :=
  is_pressed (pre m p) (p_now p) (p_btn p).

(** The command the poll delivers. *)
Definition is_start_cmd (c : option string) : bool :=
  match c with Some l => equalsIgnoreCase (trim l) "START" | None => false end.

Lemma loop_dispatch m p :
  loop m p = (fst (dispatch (pre m p) p (pressed_in m p)),
              snd (serial_commands m (p_serial p)) ++ snd (dispatch (pre m p) p (pressed_in m p))).
Proof.
  unfold loop, pressed_in, pre.
  destruct (serial_commands m (p_serial p)) as [m1 e0]; cbn [fst snd].
  set (d := dispatch _ _ _); clearbody d; destruct d; reflexivity.
Qed.

Lemma pre_fields m p :
  state (pre m p) = state m /\ stateStartMs (pre m p) = stateStartMs m /\
  lastBlinkMs (pre m p) = lastBlinkMs m /\ expectedIndex (pre m p) = expectedIndex m /\
  pinWasHigh (pre m p) = pinWasHigh m /\
  precheckAllHighOk (pre m p) = precheckAllHighOk m /\
  precheckAllLowOk (pre m p) = precheckAllLowOk m /\
  startRequested (pre m p) = startRequested m || is_start_cmd (p_serial p) /\
  beginAllHighPrinted (pre m p) = beginAllHighPrinted m /\
  beginAllLowPrinted (pre m p) = beginAllLowPrinted m /\
  beginSequencePrinted (pre m p) = beginSequencePrinted m /\
  beginFailPrinted (pre m p) = beginFailPrinted m /\
  ledStatus (pre m p) = ledStatus m.
Proof.
  unfold pre, track_button, is_start_cmd, serial_commands.
  destruct m; simpl.
  destruct (p_serial p) as [l|]; simpl;
    [destruct (equalsIgnoreCase (trim l) "START"); simpl;
     [|destruct (_ || _)]|];
    destruct (negb _); simpl; rewrite ?orb_true_r, ?orb_false_r; tauto.
Qed.

(** ** Serial text of the diagnostic lists *)

Lemma append_assoc_s (a b c : string) :
  String.append a (String.append b c) = String.append (String.append a b) c.
Proof. induction a; simpl; congruence. Qed.

Lemma append_empty_r (a : string) : String.append a EmptyString = a.
Proof. induction a; simpl; congruence. Qed.

Lemma serial_text_app a b :
  serial_text (a ++ b) = String.append (serial_text a) (serial_text b).
Proof.
  induction a as [|e a IH]; [reflexivity|].
  destruct e; cbn [serial_text app]; rewrite IH, <- ?append_assoc_s; reflexivity.
Qed.

(** [sep x1 sep x2 ...]: what the non-first items of a list print. *)
Fixpoint sep_all (sep : string) (l : list string) : string :=
  match l with
  | [] => EmptyString
  | x :: r => String.append sep (String.append x (sep_all sep r))
  end.

Lemma join_cons sep x l : join sep (x :: l) = String.append x (sep_all sep l).
Proof.
  revert x; induction l as [|y l IH]; intros x.
  - simpl; now rewrite append_empty_r.
  - change (join sep (x :: y :: l))
      with (String.append x (String.append sep (join sep (y :: l)))).
    now rewrite IH.
Qed.

Lemma print_pins_text lv level idx :
  serial_text (print_pins TEST_LABELS lv level idx false) =
    sep_all ", " (map label (filter (fun i => Bool.eqb (read lv i) level) idx)) /\
  serial_text (print_pins TEST_LABELS lv level idx true) =
    join ", " (map label (filter (fun i => Bool.eqb (read lv i) level) idx)).
Proof.
  induction idx as [|i idx [IHf IHt]]; [split; reflexivity|].
  cbn [print_pins filter]; destruct (Bool.eqb (read lv i) level); [|tauto].
  cbn [map app serial_text sep_all]; rewrite join_cons, IHf; split; reflexivity.
Qed.

(** [printDynamicPinsByLevel] prints the comma-joined labels of the lines at
    [level], in roster order, and ends the line. *)
Lemma printDynamic_text lv level :
  serial_text (printDynamicPinsByLevel TEST_LABELS lv level) =
  String.append (join ", " (labels_at TEST_LABELS lv level)) NL.
Proof.
  unfold printDynamicPinsByLevel, labels_at.
  rewrite serial_text_app, (proj2 (print_pins_text lv level _)).
  simpl; reflexivity.
Qed.

Lemma forallb_eqb_false lv (level : bool) idx :
  existsb (fun i => Bool.eqb (read lv i) (negb level)) idx = true ->
  forallb (fun i => Bool.eqb (read lv i) level) idx = false.
Proof.
  induction idx as [|i idx IH]; simpl; [discriminate|].
  destruct (read lv i), level; simpl; auto.
Qed.

(** ** C4: precheck timeouts *)

(** C4.  When AwaitAllHigh has a line reading low and its 3000 ms precheck
    timeout has passed, the poll ends with the error marker followed by the
    comma-joined labels of the low lines (roster order) and the machine goes
    on to AwaitAllLow; symmetrically AwaitAllLow with a line reading high
    lists the high lines and goes on to Sequence.  No precheck timeout ends
    the run. *)
Theorem precheck_timeout_continues (m : Master) (p : Poll) :
  (state m = STATE_WAIT_ALL_HIGH ->
   existsb (fun i => Bool.eqb (read (p_levels p) i) LOW) pins = true ->
   PRECHECK_TIMEOUT_MS < elapsed (p_now p) (stateStartMs m) ->
   state (fst (loop m p)) = STATE_WAIT_ALL_LOW /\
   exists before,
     snd (loop m p) = before ++ [Print "Master: STAGE — ALL_HIGH: ERROR. LOW_PINS: "] ++
                      printDynamicPinsByLevel TEST_LABELS (p_levels p) LOW /\
     serial_text (printDynamicPinsByLevel TEST_LABELS (p_levels p) LOW) =
       String.append (join ", " (labels_at TEST_LABELS (p_levels p) LOW)) NL) /\
  (state m = STATE_WAIT_ALL_LOW ->
   existsb (fun i => Bool.eqb (read (p_levels p) i) HIGH) pins = true ->
   LOW_STAGE_TIMEOUT_MS < elapsed (p_now p) (stateStartMs m) ->
   state (fst (loop m p)) = STATE_SEQUENCE /\
   exists before,
     snd (loop m p) = before ++ [Print "Master: STAGE — ALL_LOW: ERROR. HIGH_PINS: "] ++
                      printDynamicPinsByLevel TEST_LABELS (p_levels p) HIGH /\
     serial_text (printDynamicPinsByLevel TEST_LABELS (p_levels p) HIGH) =
       String.append (join ", " (labels_at TEST_LABELS (p_levels p) HIGH)) NL).
Proof.
  rewrite loop_dispatch.
  destruct (pre_fields m p) as (Hst & Hss & _).
  unfold dispatch; rewrite Hst.
  set (m0 := pre m p) in *; clearbody m0.
  split; intros Hs Hex Ht; rewrite Hs.
  - unfold wait_all_high; rewrite (forallb_eqb_false _ HIGH) by exact Hex.
    destruct (negb _); cbn [fst snd];
      replace (stateStartMs _) with (stateStartMs m)
        by (destruct m0; simpl in *; congruence);
      rewrite (proj2 (Z.ltb_lt _ _) Ht); cbn [fst snd];
      (split; [reflexivity|]); rewrite <- ?app_assoc;
      eexists; (split; [rewrite app_assoc; reflexivity | apply printDynamic_text]).
  - unfold wait_all_low; rewrite (forallb_eqb_false _ LOW) by exact Hex.
    destruct (negb _); cbn [fst snd];
      replace (stateStartMs _) with (stateStartMs m)
        by (destruct m0; simpl in *; congruence);
      rewrite (proj2 (Z.ltb_lt _ _) Ht); cbn [fst snd];
      (split; [reflexivity|]); rewrite <- ?app_assoc;
      eexists; (split; [rewrite app_assoc; reflexivity | apply printDynamic_text]).
Qed.

(** ** The Sequence scan *)

(** Roster positions reading high in a poll. *)
Definition high_lines (lv : list bool) : list nat :=
  filter (fun i => Bool.eqb (read lv i) HIGH) pins.

Lemma last_cons_default {A} (a : A) l d : last (a :: l) d = last l a.
Proof.
  revert a d; induction l as [|b l IH]; intros a d; [reflexivity|].
  change (last (b :: l) d = last (b :: l) a).
  rewrite (IH b d), (IH b a); reflexivity.
Qed.

Lemma count_high_fold lv idx c h :
  fold_left (fun acc i => if Bool.eqb (read lv i) HIGH then (fst acc + 1, Z.of_nat i) else acc)
            idx (c, h) =
  (c + Z.of_nat (List.length (filter (fun i => Bool.eqb (read lv i) HIGH) idx)),
   last (map Z.of_nat (filter (fun i => Bool.eqb (read lv i) HIGH) idx)) h).
Proof.
  revert c h; induction idx as [|i idx IH]; intros c h; cbn [fold_left filter].
  - simpl; f_equal; lia.
  - destruct (Bool.eqb (read lv i) HIGH); rewrite IH; cbn [map List.length fst].
    + rewrite last_cons_default; f_equal; lia.
    + reflexivity.
Qed.

Lemma count_high_eq lv :
  count_high TEST_LABELS lv =
  (Z.of_nat (List.length (high_lines lv)), last (map Z.of_nat (high_lines lv)) (-1)).
Proof. unfold count_high, high_lines; rewrite count_high_fold; reflexivity. Qed.

Lemma high_lines_lt lv i : In i (high_lines lv) -> (i < N)%nat.
Proof.
  unfold high_lines; rewrite filter_In; intros [Hi _].
  apply in_seq in Hi; lia.
Qed.

Lemma scan_multi m p :
  (1 < List.length (high_lines (p_levels p)))%nat ->
  sequence_scan TEST_LABELS m p =
  (toState m STATE_FAIL (p_t_state p),
   [Print "Master: STAGE — SEQUENCE: ERROR. FAIL_PINS: "] ++
   printDynamicPinsByLevel TEST_LABELS (p_levels p) HIGH, true).
Proof.
  intros H; unfold sequence_scan; rewrite count_high_eq.
  replace (1 <? _) with true by (symmetry; apply Z.ltb_lt; lia); reflexivity.
Qed.

Lemma scan_single m p i :
  high_lines (p_levels p) = [i] ->
  sequence_scan TEST_LABELS m p =
  (if negb (nth i (pinWasHigh m) false) then
     let m1 := set_pinWasHigh m (set_nth (pinWasHigh m) i true) in
     let e := [Print "Master: STAGE — SEQUENCE: OK — "; Println (label i)] in
     if Z.of_nat i =? expectedIndex m1 then
       let m2 := set_expectedIndex m1 (expectedIndex m1 + 1) in
       if expectedIndex m2 =? Z.of_nat N then
         (toState (set_ledStatus m2 HIGH) STATE_SUCCESS (p_t_state p),
          e ++ [Println "Master: STAGE — SEQUENCE: ALL OK";
                DigitalWrite LED_STATUS_PIN HIGH], true)
       else (m2, e, false)
     else if expectedIndex m1 <? Z.of_nat i then
       (toState m1 STATE_FAIL (p_t_state p),
        e ++ [Print "Master: STAGE — SEQUENCE: ERROR. THE ORDER OF SEQUENCE IS VIOLATED. EXPECTED: ";
              Print (label (Z.to_nat (expectedIndex m1))); Print ", RECIVED ";
              Println (label i)], true)
     else
       (toState m1 STATE_FAIL (p_t_state p),
        e ++ [Print "Master: STAGE — SEQUENCE: ERROR. REPEATED/EARLIER RAISE ";
              Println (label i)], true)
   else (m, [], false)).
Proof.
  intros H; unfold sequence_scan; rewrite count_high_eq, H; cbn.
  rewrite Nat2Z.id; reflexivity.
Qed.

Lemma scan_none m p :
  high_lines (p_levels p) = [] ->
  sequence_scan TEST_LABELS m p =
  (set_pinWasHigh m
     (fold_left (fun pw i => if Bool.eqb (read (p_levels p) i) LOW then set_nth pw i false else pw)
                pins (pinWasHigh m)), [], false).
Proof. intros H; unfold sequence_scan; rewrite count_high_eq, H; reflexivity. Qed.

(** The other high-count cases are impossible. *)
Lemma high_lines_cases lv :
  high_lines lv = [] \/ (exists i, high_lines lv = [i]) \/
  (1 < List.length (high_lines lv))%nat.
Proof.
  destruct (high_lines lv) as [|i [|j r]].
  - now left.
  - right; left; now exists i.
  - right; right; simpl; lia.
Qed.

(** Reduce projections of the setters. *)
Ltac fields :=
  cbn [state stateStartMs lastBlinkMs lastButtonEdgeMs lastButtonState expectedIndex
       pinWasHigh precheckAllHighOk precheckAllLowOk startRequested beginAllHighPrinted
       beginAllLowPrinted beginSequencePrinted beginFailPrinted ledStatus
       set_lastBlinkMs set_lastButtonEdgeMs set_lastButtonState set_expectedIndex
       set_pinWasHigh set_precheckAllHighOk set_precheckAllLowOk set_startRequested
       set_beginAllHighPrinted set_beginAllLowPrinted set_beginSequencePrinted
       set_beginFailPrinted set_ledStatus toState fst snd] in *.

Lemma ends_with_app {A} (x y z : list A) :
  (exists b, y = b ++ z) -> exists b, x ++ y = b ++ z.
Proof. intros [b ->]; exists (x ++ b); apply app_assoc. Qed.

Lemma ends_with_cons {A} (a : A) y z :
  (exists b, y = b ++ z) -> exists b, a :: y = b ++ z.
Proof. intros [b ->]; exists (a :: b); reflexivity. Qed.

(** Goals [exists before, out = before ++ tail]. *)
Ltac ends_with :=
  cbn [app];
  repeat first [ exists []; reflexivity | apply ends_with_app | apply ends_with_cons ].

(** ** C2: faults of the Sequence stage *)

(** C2 (as the code has it).  In Sequence: with more than one line high the poll ends with the
    multi-high marker followed by the list of the high lines and the machine
    is in Fail; with exactly one line [i] high whose was-high flag is clear
    (the line has not been seen high alone since the last all-low poll),
    [i] beyond the cursor ends the poll with the ordering-violation marker
    naming the expected and the received labels, and [i] before the cursor
    with the repeated/early-raise marker naming [i]; both go to Fail. *)
Theorem sequence_fault_transitions (m : Master) (p : Poll) :
  state m = STATE_SEQUENCE ->
  ((1 < List.length (high_lines (p_levels p)))%nat ->
   state (fst (loop m p)) = STATE_FAIL /\
   (exists before,
     snd (loop m p) = before ++ [Print "Master: STAGE — SEQUENCE: ERROR. FAIL_PINS: "] ++
                      printDynamicPinsByLevel TEST_LABELS (p_levels p) HIGH) /\
   serial_text (printDynamicPinsByLevel TEST_LABELS (p_levels p) HIGH) =
     String.append (join ", " (map label (high_lines (p_levels p)))) NL) /\
  (forall i, high_lines (p_levels p) = [i] -> nth i (pinWasHigh m) false = false ->
   (expectedIndex m < Z.of_nat i ->
    state (fst (loop m p)) = STATE_FAIL /\
    exists before,
      snd (loop m p) =
      before ++ [Print "Master: STAGE — SEQUENCE: OK — "; Println (label i);
                 Print "Master: STAGE — SEQUENCE: ERROR. THE ORDER OF SEQUENCE IS VIOLATED. EXPECTED: ";
                 Print (label (Z.to_nat (expectedIndex m))); Print ", RECIVED ";
                 Println (label i)]) /\
   (Z.of_nat i < expectedIndex m ->
    state (fst (loop m p)) = STATE_FAIL /\
    exists before,
      snd (loop m p) =
      before ++ [Print "Master: STAGE — SEQUENCE: OK — "; Println (label i);
                 Print "Master: STAGE — SEQUENCE: ERROR. REPEATED/EARLIER RAISE ";
                 Println (label i)])).
Proof.
  intros Hs; rewrite loop_dispatch.
  destruct (pre_fields m p) as (Hst & _ & _ & He & Hpw & _).
  unfold dispatch; rewrite Hst, Hs; unfold sequence.
  set (m0 := pre m p) in *; clearbody m0.
  split; [intros Hmulti | intros i Hone Hnew; split; intros Hlt].
  - destruct (negb _); cbn iota beta;
      rewrite scan_multi by exact Hmulti; fields;
      (split; [reflexivity|]);
      (split; [ends_with | apply printDynamic_text]).
  - destruct (negb _); cbn iota beta;
      rewrite (scan_single _ _ i Hone); fields; rewrite Hpw, Hnew, He; cbn [negb];
      rewrite (proj2 (Z.eqb_neq _ _)) by lia;
      rewrite (proj2 (Z.ltb_lt _ _)) by lia; fields;
      (split; [reflexivity|]); ends_with.
  - destruct (negb _); cbn iota beta;
      rewrite (scan_single _ _ i Hone); fields; rewrite Hpw, Hnew, He; cbn [negb];
      rewrite (proj2 (Z.eqb_neq _ _)) by lia;
      rewrite (proj2 (Z.ltb_ge _ _)) by lia; fields;
      (split; [reflexivity|]); ends_with.
Qed.


(** ** Invariant of the reachable states *)

Definition in_test (s : TestState) : Prop :=
  s = STATE_WAIT_ALL_HIGH \/ s = STATE_WAIT_ALL_LOW \/ s = STATE_SEQUENCE.

Definition Inv (m : Master) : Prop :=
  List.length (pinWasHigh m) = N /\
  0 <= expectedIndex m <= Z.of_nat N /\
  (in_test (state m) -> expectedIndex m < Z.of_nat N \/ expectedIndex m = 0).

Lemma set_nth_length {A} (l : list A) n x : List.length (set_nth l n x) = List.length l.
Proof. revert n; induction l; intros [|n]; simpl; auto. Qed.

Lemma fold_set_nth_length (f : list bool -> nat -> list bool) idx pw :
  (forall pw i, List.length (f pw i) = List.length pw) ->
  List.length (fold_left f idx pw) = List.length pw.
Proof.
  intros Hf; revert pw; induction idx; intros pw; simpl; [reflexivity|].
  rewrite IHidx; apply Hf.
Qed.

Ltac split_ifs :=
  repeat (match goal with |- context [if ?b then _ else _] => destruct b eqn:? end;
          cbn iota beta in *).

Lemma Inv_pre m p : Inv m -> Inv (pre m p).
Proof.
  destruct (pre_fields m p) as (Hst & _ & _ & He & Hpw & _).
  unfold Inv; rewrite Hst, He, Hpw; tauto.
Qed.

Lemma reset_pw_length pw :
  List.length (fold_left (fun pw i => set_nth pw i false) pins pw) = List.length pw.
Proof. apply fold_set_nth_length; intros; apply set_nth_length. Qed.

Lemma clear_pw_length lv pw :
  List.length (fold_left (fun pw i => if Bool.eqb (read lv i) LOW then set_nth pw i false else pw)
                         pins pw) = List.length pw.
Proof.
  apply fold_set_nth_length; intros pw' i; destruct (Bool.eqb _ _); [apply set_nth_length|reflexivity].
Qed.

Ltac inv_close :=
  repeat split; try lia;
  try (intros [?|[?|?]]; discriminate);
  try (intros _; lia); try assumption;
  try (intros _; match goal with H : in_test _ -> _ |- _ => apply H end;
       unfold in_test; auto).

Lemma Inv_dispatch m p pr : Inv m -> Inv (fst (dispatch m p pr)).
Proof.
  intros (Hlen & He & Ht).
  unfold dispatch; destruct (state m) eqn:Hs.
  - unfold wait_button, blink; split_ifs; fields; unfold Inv; fields;
      rewrite ?Hs, ?reset_pw_length; inv_close.
  - unfold wait_all_high; split_ifs; fields; unfold Inv; fields;
      rewrite ?Hs; inv_close.
  - unfold wait_all_low; split_ifs; fields; unfold Inv; fields;
      rewrite ?Hs; inv_close.
  - assert (Hlt : expectedIndex m < Z.of_nat N \/ expectedIndex m = 0)
      by (apply Ht; unfold in_test; auto).
    unfold sequence.
    destruct (negb (beginSequencePrinted m)); cbn iota beta;
    (destruct (high_lines_cases (p_levels p)) as [Hn | [[i Hi] | Hmulti]];
     [ rewrite (scan_none _ _ Hn)
     | rewrite (scan_single _ _ i Hi)
     | rewrite (scan_multi _ _ Hmulti)]);
    fields; split_ifs; fields; unfold Inv; fields;
    rewrite ?Hs, ?clear_pw_length, ?set_nth_length;
    try (assert (Hi' : (i < N)%nat)
           by (apply (high_lines_lt (p_levels p)); rewrite Hi; simpl; auto));
    inv_close.
  - unfold success; fields; unfold Inv; fields; inv_close.
  - unfold fail, blink; split_ifs; fields; unfold Inv; fields;
      rewrite ?Hs, ?reset_pw_length; inv_close.
Qed.

Lemma Inv_loop m p : Inv m -> Inv (fst (loop m p)).
Proof. intros H; rewrite loop_dispatch; apply Inv_dispatch, Inv_pre, H. Qed.

Lemma Inv_setup t : Inv (setup_state TEST_LABELS t).
Proof.
  unfold Inv, setup_state; cbn [pinWasHigh expectedIndex state].
  rewrite repeat_length; repeat split; lia.
Qed.

Lemma reachable_Inv m : reachable TEST_LABELS m -> Inv m.
Proof. induction 1; [apply Inv_setup | apply Inv_loop; assumption]. Qed.

(** ** C3: the Sequence timeout *)

(** The poll does not leave Sequence before the timeout check: not more than
    one line high, and a single high line is either already flagged or is
    the cursor's line without being the last one. *)
Definition reaches_timeout_check (m : Master) (lv : list bool) : bool :=
  match high_lines lv with
  | [] => true
  | [i] => nth i (pinWasHigh m) false ||
           ((Z.of_nat i =? expectedIndex m) && negb (expectedIndex m + 1 =? Z.of_nat N))
  | _ => false
  end.

Lemma label_choice (e : Z) (a b : string) :
  0 <= e <= Z.of_nat N ->
  (if e <? Z.of_nat N then a else b) = (if e =? Z.of_nat N then b else a).
Proof.
  intros H; destruct (Z.ltb_spec e (Z.of_nat N)), (Z.eqb_spec e (Z.of_nat N)); auto; lia.
Qed.

(** C3.  In a reachable Sequence state whose elapsed time exceeds the
    15000 ms timeout, a poll that has not left Sequence before the timeout
    check ends with the timeout marker naming the label at the cursor ("end"
    when the cursor equals N) and moves to Fail; the cursor is the one of
    the poll (unchanged, or advanced by this poll's own edge).  For the
    19-line roster with the cursor stuck at 3, the marker names "P0_02". *)
Theorem sequence_timeout (m : Master) (p : Poll) :
  reachable TEST_LABELS m ->
  state m = STATE_SEQUENCE ->
  SEQUENCE_TIMEOUT_MS < elapsed (p_now p) (stateStartMs m) ->
  reaches_timeout_check m (p_levels p) = true ->
  state (fst (loop m p)) = STATE_FAIL /\
  (exists before,
     snd (loop m p) =
     before ++ [Print "Master: STAGE — SEQUENCE: ERROR. TIMEOUT. EXPECTED: ";
                Println (if expectedIndex (fst (loop m p)) =? Z.of_nat N then "end"
                         else label (Z.to_nat (expectedIndex (fst (loop m p)))))]) /\
  (expectedIndex (fst (loop m p)) = expectedIndex m \/
   expectedIndex (fst (loop m p)) = expectedIndex m + 1) /\
  (TEST_LABELS = TEST_LABELS_19 -> expectedIndex m = 3 ->
   expectedIndex (fst (loop m p)) = 3 ->
   exists before,
     snd (loop m p) =
     before ++ [Print "Master: STAGE — SEQUENCE: ERROR. TIMEOUT. EXPECTED: "; Println "P0_02"]).
Proof.
  intros Hr Hs Ht Hc.
  destruct (reachable_Inv _ Hr) as (Hlen & He & Hin).
  assert (Hlt : expectedIndex m < Z.of_nat N \/ expectedIndex m = 0)
    by (apply Hin; rewrite Hs; unfold in_test; auto).
  rewrite loop_dispatch.
  destruct (pre_fields m p) as (Hst & Hss & _ & He0 & Hpw & _).
  set (m0 := pre m p) in *; clearbody m0.
  unfold reaches_timeout_check in Hc.
  assert (Hmain :
    state (fst (dispatch m0 p (pressed_in m p))) = STATE_FAIL /\
    (exists before,
       snd (dispatch m0 p (pressed_in m p)) =
       before ++ [Print "Master: STAGE — SEQUENCE: ERROR. TIMEOUT. EXPECTED: ";
                  Println (timeout_label TEST_LABELS (fst (dispatch m0 p (pressed_in m p))))]) /\
    (expectedIndex (fst (dispatch m0 p (pressed_in m p))) = expectedIndex m \/
     expectedIndex (fst (dispatch m0 p (pressed_in m p))) = expectedIndex m + 1) /\
    0 <= expectedIndex (fst (dispatch m0 p (pressed_in m p))) <= Z.of_nat N).
  { unfold dispatch; rewrite Hst, Hs; unfold sequence.
    destruct (high_lines_cases (p_levels p)) as [Hn | [[i Hi] | Hmulti]].
    - destruct (negb (beginSequencePrinted m0)); cbn iota beta; rewrite (scan_none _ _ Hn); fields;
        rewrite Hss, (proj2 (Z.ltb_lt _ _) Ht); fields; unfold timeout_label; fields;
        rewrite ?He0; (split; [reflexivity | split; [ends_with | split; lia]]).
    - rewrite Hi in Hc.
      assert (Hi' : (i < N)%nat)
        by (apply (high_lines_lt (p_levels p)); rewrite Hi; simpl; auto).
      destruct (nth i (pinWasHigh m) false) eqn:Hold; cbn [orb] in Hc.
      + destruct (negb (beginSequencePrinted m0)); cbn iota beta; rewrite (scan_single _ _ i Hi); fields;
          rewrite Hpw, Hold; cbn [negb]; cbn iota beta; fields;
          rewrite Hss, (proj2 (Z.ltb_lt _ _) Ht); fields; unfold timeout_label; fields;
          rewrite ?He0; (split; [reflexivity | split; [ends_with | split; lia]]).
      + apply andb_true_iff in Hc; destruct Hc as [Hi_e Hnl].
        apply negb_true_iff in Hnl.
        destruct (negb (beginSequencePrinted m0)); cbn iota beta; rewrite (scan_single _ _ i Hi); fields;
          rewrite Hpw, Hold, He0, Hi_e, Hnl; cbn [negb]; cbn iota beta; fields;
          rewrite Hss, (proj2 (Z.ltb_lt _ _) Ht); fields; unfold timeout_label; fields;
          apply Z.eqb_eq in Hi_e; apply Z.eqb_neq in Hnl;
          (split; [reflexivity | split; [ends_with | split; lia]]).
    - destruct (high_lines (p_levels p)) as [|a [|b r]]; simpl in Hmulti; [lia|lia|discriminate]. }
  destruct Hmain as (Hf & [before Hout] & Hidx & Hrange).
  unfold timeout_label in Hout; rewrite label_choice in Hout by exact Hrange.
  cbn [fst snd].
  split; [exact Hf|].
  split; [exists (snd (serial_commands m (p_serial p)) ++ before); rewrite Hout, app_assoc; reflexivity|].
  split; [exact Hidx|].
  intros H19 H3 H3'; exists (snd (serial_commands m (p_serial p)) ++ before).
  rewrite Hout, app_assoc; cbn [fst] in H3'; rewrite H3'.
  unfold label, NUM_TEST_PINS; rewrite H19; reflexivity.
Qed.

(** ** C8: the FLASH / DFU command *)

(** The same poll without a serial command. *)
Definition no_cmd (p : Poll) : Poll :=
  mkPoll (p_now p) None (p_btn p) (p_levels p) (p_held p) (p_t_state p).

Lemma same_head c r d q :
  sameIgnoringCase (String c r) (String d q) = true -> tolower c = tolower d.
Proof. simpl; intros H; apply andb_true_iff in H; apply Ascii.eqb_eq, H. Qed.

Lemma same_length a b : sameIgnoringCase a b = true -> String.length a = String.length b.
Proof.
  revert b; induction a as [|c r IH]; intros [|d q]; cbn; try discriminate; [reflexivity|].
  intros H; apply andb_true_iff in H; rewrite (IH q (proj2 H)); reflexivity.
Qed.

Lemma same_loop a b : sameIgnoringCase a b = true -> eic_loop a b = true.
Proof.
  revert b; induction a as [|c r IH]; intros [|d q]; cbn; try discriminate; [reflexivity|].
  intros H; apply andb_true_iff in H; destruct H as [Hc Hr].
  destruct (Ascii.eqb c Ascii.zero); [reflexivity|].
  rewrite Hc, (IH q Hr); reflexivity.
Qed.

(** The firmware's matcher accepts every word up to letter case. *)
Lemma same_eic a b : sameIgnoringCase a b = true -> equalsIgnoreCase a b = true.
Proof.
  intros H; unfold equalsIgnoreCase; rewrite (same_length _ _ H), Nat.eqb_refl, (same_loop _ _ H).
  reflexivity.
Qed.

(** A line that is FLASH or DFU up to letter case is not taken for START. *)
Lemma flash_not_start s :
  (sameIgnoringCase s "FLASH" || sameIgnoringCase s "DFU") = true ->
  equalsIgnoreCase s "START" = false.
Proof.
  intros H; destruct s as [|c r]; [discriminate H|].
  apply orb_true_iff in H; destruct H as [H|H].
  - pose proof (same_head _ _ _ _ H) as Hc.
    change (tolower "F"%char) with "f"%char in Hc.
    assert (Hz : Ascii.eqb c Ascii.zero = false).
    { apply Ascii.eqb_neq; intros ->; vm_compute in Hc; discriminate Hc. }
    unfold equalsIgnoreCase; cbn [eic_loop]; rewrite Hz, Hc.
    apply andb_false_iff; right; reflexivity.
  - unfold equalsIgnoreCase; rewrite (same_length _ _ H); reflexivity.
Qed.

(** C8.  A poll whose serial line trims to FLASH or DFU (in any letter case:
    [sameIgnoringCase]; the firmware's matcher accepts such a line and
    rejects START for it) starts its output with the double reset pulse (the reset line LOW for
    100 ms, HIGH, 200 ms, LOW again for 100 ms, HIGH).  The command handler
    returns the state unchanged (stage, cursor, per-line flags, begin flags
    and start latch included), and the poll otherwise behaves exactly as the
    same poll without the command. *)
Theorem flash_command_transparent (m : Master) (p : Poll) (c : string) :
  p_serial p = Some c ->
  (sameIgnoringCase (trim c) "FLASH" || sameIgnoringCase (trim c) "DFU") = true ->
  serial_commands m (Some c) = (m, enterFlashMode) /\
  loop m p = (fst (loop m (no_cmd p)), enterFlashMode ++ snd (loop m (no_cmd p))) /\
  enterFlashMode =
    [Println "Master: FLASH command received.";
     Println "Master: SENT RESET"; DigitalWrite RESET_SENDER_PIN LOW; Delay 100;
     DigitalWrite RESET_SENDER_PIN HIGH; Delay 200;
     Println "Master: SENT RESET"; DigitalWrite RESET_SENDER_PIN LOW; Delay 100;
     DigitalWrite RESET_SENDER_PIN HIGH].
Proof.
  intros Hp Hc.
  assert (Hsc : serial_commands m (Some c) = (m, enterFlashMode)).
  { assert (Hm : (equalsIgnoreCase (trim c) "FLASH" || equalsIgnoreCase (trim c) "DFU") = true).
    { apply orb_true_iff in Hc; apply orb_true_iff.
      destruct Hc as [H|H]; [left|right]; apply same_eic, H. }
    unfold serial_commands; rewrite (flash_not_start _ Hc), Hm; reflexivity. }
  split; [exact Hsc|split; [|reflexivity]].
  unfold loop; rewrite Hp, Hsc; cbn [no_cmd p_serial p_now p_btn serial_commands].
  set (d := Master.dispatch _ _ _ _); clearbody d; destruct d; reflexivity.
Qed.

(** ** Stage transitions and per-line flag updates *)

(** The stage changes one [loop()] call can make. *)
Definition next_stage_ok (s s' : TestState) : bool :=
  match s with
  | STATE_WAIT_BUTTON => TestState_eqb s' STATE_WAIT_BUTTON || TestState_eqb s' STATE_WAIT_ALL_HIGH
  | STATE_WAIT_ALL_HIGH => TestState_eqb s' STATE_WAIT_ALL_HIGH || TestState_eqb s' STATE_WAIT_ALL_LOW
  | STATE_WAIT_ALL_LOW => TestState_eqb s' STATE_WAIT_ALL_LOW || TestState_eqb s' STATE_SEQUENCE
  | STATE_SEQUENCE => TestState_eqb s' STATE_SEQUENCE || TestState_eqb s' STATE_FAIL ||
                      TestState_eqb s' STATE_SUCCESS
  | STATE_SUCCESS => TestState_eqb s' STATE_WAIT_BUTTON
  | STATE_FAIL => TestState_eqb s' STATE_FAIL || TestState_eqb s' STATE_WAIT_ALL_HIGH
  end.

Lemma dispatch_stage m p pr :
  next_stage_ok (state m) (state (fst (dispatch m p pr))) = true.
Proof.
  unfold dispatch; destruct (state m) eqn:Hs.
  - unfold wait_button, blink; split_ifs; fields; rewrite ?Hs; reflexivity.
  - unfold wait_all_high; split_ifs; fields; rewrite ?Hs; reflexivity.
  - unfold wait_all_low; split_ifs; fields; rewrite ?Hs; reflexivity.
  - unfold sequence.
    destruct (negb (beginSequencePrinted m)); cbn iota beta;
    (destruct (high_lines_cases (p_levels p)) as [Hn | [[i Hi] | Hmulti]];
     [ rewrite (scan_none _ _ Hn)
     | rewrite (scan_single _ _ i Hi)
     | rewrite (scan_multi _ _ Hmulti)]);
    fields; split_ifs; fields; rewrite ?Hs; reflexivity.
  - unfold success; fields; reflexivity.
  - unfold fail, blink; split_ifs; fields; rewrite ?Hs; reflexivity.
Qed.

Lemma loop_stage m p : next_stage_ok (state m) (state (fst (loop m p))) = true.
Proof.
  rewrite loop_dispatch; destruct (pre_fields m p) as (Hst & _).
  rewrite <- Hst; apply dispatch_stage.
Qed.

Lemma TestState_eqb_eq a b : TestState_eqb a b = true <-> a = b.
Proof. destruct a, b; simpl; split; congruence. Qed.

Lemma nth_set_nth_neq {A} (l : list A) i j x d :
  i <> j -> nth j (set_nth l i x) d = nth j l d.
Proof.
  revert i j; induction l as [|y l IH]; intros [|i] [|j] H; simpl; auto; congruence.
Qed.

Lemma nth_set_nth_eq {A} (l : list A) i x d :
  (i < List.length l)%nat -> nth i (set_nth l i x) d = x.
Proof.
  revert i; induction l as [|y l IH]; intros [|i] H; simpl in *; try lia; auto.
  apply IH; lia.
Qed.

Lemma nth_set_nth_false l i j :
  nth j l false = false -> nth j (set_nth l i false) false = false.
Proof.
  intros H; destruct (Nat.eq_dec i j) as [->|Hne].
  - revert j H; induction l as [|y l IH]; intros [|j] H; simpl in *; auto.
  - rewrite nth_set_nth_neq by exact Hne; exact H.
Qed.

Lemma fold_keep_false (f : list bool -> nat -> list bool) idx pw j :
  (forall pw i, nth j pw false = false -> nth j (f pw i) false = false) ->
  nth j pw false = false -> nth j (fold_left f idx pw) false = false.
Proof.
  intros Hf; revert pw; induction idx as [|i idx IH]; intros pw H; simpl; auto.
Qed.

Lemma set_nth_false_at l j : nth j (set_nth l j false) false = false.
Proof. revert j; induction l as [|y l IH]; intros [|j]; simpl; auto. Qed.

Lemma reset_all_false idx pw j :
  In j idx -> nth j (fold_left (fun pw i => set_nth pw i false) idx pw) false = false.
Proof.
  revert pw; induction idx as [|i idx IH]; intros pw Hin; [destruct Hin|].
  simpl; destruct (in_dec Nat.eq_dec j idx) as [H|H]; [apply IH, H|].
  destruct Hin as [->|Hin]; [|contradiction].
  apply fold_keep_false; [intros; apply nth_set_nth_false; assumption|apply set_nth_false_at].
Qed.

Lemma reset_pins_false pw j :
  (j < N)%nat -> nth j (fold_left (fun pw i => set_nth pw i false) pins pw) false = false.
Proof. intros H; apply reset_all_false; unfold Master.pins; apply in_seq; lia. Qed.

(** The per-run state a restart clears. *)
Definition run_reset (x : Master) : Prop :=
  expectedIndex x = 0 /\ (forall j, (j < N)%nat -> nth j (pinWasHigh x) false = false) /\
  precheckAllHighOk x = false /\ precheckAllLowOk x = false /\ startRequested x = false /\
  beginAllHighPrinted x = false /\ beginFailPrinted x = false /\ ledStatus x = LOW.

(** ** C5: leaving Fail *)

(** One poll from Fail. *)
Lemma fail_step (m : Master) (p : Poll) :
  state m = STATE_FAIL ->
  (state (fst (loop m p)) = STATE_FAIL \/ state (fst (loop m p)) = STATE_WAIT_ALL_HIGH) /\
  (state (fst (loop m p)) = STATE_WAIT_ALL_HIGH <->
   (pressed_in m p || startRequested (pre m p)) = true) /\
  ((pressed_in m p || startRequested (pre m p)) = true ->
   (exists before,
      snd (loop m p) =
      before ++ (if pressed_in m p then waitRelease (p_held p) else []) ++
      [Println "Master: START"] ++ pulseReset ++ [DigitalWrite LED_STATUS_PIN LOW]) /\
   run_reset (fst (loop m p)) /\
   beginAllLowPrinted (fst (loop m p)) = false /\
   beginSequencePrinted (fst (loop m p)) = false).
Proof.
  intros Hs; rewrite loop_dispatch.
  destruct (pre_fields m p) as (Hst & _).
  cbn [fst snd]; unfold dispatch; rewrite Hst, Hs; unfold fail, blink.
  set (m0 := pre m p) in *; clearbody m0.
  destruct (pressed_in m p || startRequested m0) eqn:Ha.
  - destruct (negb (beginFailPrinted m0)); cbn iota beta;
    destruct (150 <=? _); cbn iota beta; fields; rewrite Ha; fields;
    (split; [right; reflexivity|]); (split; [split; reflexivity|]); intros _;
    (split; [destruct (pressed_in m p); ends_with|]);
    unfold run_reset; fields; repeat split; intros j Hj; apply reset_pins_false, Hj.
  - destruct (negb (beginFailPrinted m0)); cbn iota beta;
    destruct (150 <=? _); cbn iota beta; fields; rewrite Ha; fields; rewrite ?Hst, ?Hs;
    (split; [left; reflexivity|]); (split; [split; discriminate|]); discriminate.
Qed.

(** The whole output of an activation from Fail. *)
Lemma fail_act_output (m : Master) (p : Poll) :
  state m = STATE_FAIL -> (pressed_in m p || startRequested (pre m p)) = true ->
  snd (loop m p) =
    snd (serial_commands m (p_serial p)) ++
    (if beginFailPrinted m then [] else [Println "Master: FAIL"]) ++
    (if 150 <=? elapsed (p_now p) (lastBlinkMs m)
     then [DigitalWrite LED_STATUS_PIN (negb (ledStatus m))] else []) ++
    (if pressed_in m p then waitRelease (p_held p) else []) ++
    [Println "Master: START"] ++ pulseReset ++ [DigitalWrite LED_STATUS_PIN LOW].
Proof.
  intros Hs Ha; rewrite loop_dispatch; cbn [snd]; f_equal.
  destruct (pre_fields m p) as (Hst & _ & Hlb & _ & _ & _ & _ & _ & _ & _ & _ & Hbf & Hled).
  unfold dispatch; rewrite Hst, Hs; unfold fail, blink.
  set (m0 := pre m p) in *; clearbody m0.
  rewrite Hbf; destruct (beginFailPrinted m); cbn [negb]; cbn iota beta; fields;
    rewrite Hlb; destruct (150 <=? elapsed (p_now p) (lastBlinkMs m)); cbn iota beta; fields;
    rewrite Ha; cbn iota beta; fields; rewrite ?Hled; reflexivity.
Qed.

(** One activating poll from AwaitActivation. *)
Lemma wait_button_act (m : Master) (p : Poll) :
  state m = STATE_WAIT_BUTTON -> (pressed_in m p || startRequested (pre m p)) = true ->
  state (fst (loop m p)) = STATE_WAIT_ALL_HIGH /\
  snd (loop m p) =
    snd (serial_commands m (p_serial p)) ++
    (if 500 <=? elapsed (p_now p) (lastBlinkMs m)
     then [Println "Master: STAGE — IDLE: OK"; DigitalWrite LED_STATUS_PIN (negb (ledStatus m))]
     else []) ++
    waitRelease (p_held p) ++
    [Println "Master: START"] ++ pulseReset ++ [DigitalWrite LED_STATUS_PIN LOW] /\
  run_reset (fst (loop m p)) /\
  beginAllLowPrinted (fst (loop m p)) = beginAllLowPrinted m /\
  beginSequencePrinted (fst (loop m p)) = beginSequencePrinted m.
Proof.
  intros Hs Ha; rewrite loop_dispatch; cbn [fst snd].
  destruct (pre_fields m p) as (Hst & _ & Hlb & _ & _ & _ & _ & _ & _ & Hal & Hsq & _ & Hled).
  unfold dispatch; rewrite Hst, Hs; unfold wait_button, blink.
  set (m0 := pre m p) in *; clearbody m0.
  rewrite Hlb; destruct (500 <=? elapsed (p_now p) (lastBlinkMs m)); cbn iota beta; fields;
    rewrite Ha; cbn iota beta; fields; rewrite ?Hled, ?Hal, ?Hsq;
    (split; [reflexivity|]); (split; [reflexivity|]);
    (split; [unfold run_reset; fields; repeat split; intros j Hj; apply reset_pins_false, Hj
            | split; reflexivity]).
Qed.

(** C5 (as the code has it).  From Fail the next stage is Fail or
    AwaitAllHigh, and AwaitAllHigh exactly on a qualifying activation (the
    debounced press, or the start latch after the poll's command).  Both
    activations, from Fail and from AwaitActivation, end the poll's output
    with START, one reset pulse and the status LED driven low, after the
    serial command's output and the stage's own blink output, and both
    clear the per-run state [run_reset].  They differ in two points: the
    block-until-release wait is made from AwaitActivation on every
    activation, from Fail only when the button press is the trigger; and
    Fail clears the ALL_LOW and SEQUENCE begin flags, which AwaitActivation
    keeps. *)
Theorem fail_restart (m : Master) (p : Poll) :
  (state m = STATE_FAIL ->
   (state (fst (loop m p)) = STATE_FAIL \/ state (fst (loop m p)) = STATE_WAIT_ALL_HIGH) /\
   (state (fst (loop m p)) = STATE_WAIT_ALL_HIGH <->
    (pressed_in m p || startRequested (pre m p)) = true) /\
   ((pressed_in m p || startRequested (pre m p)) = true ->
    snd (loop m p) =
      snd (serial_commands m (p_serial p)) ++
      (if beginFailPrinted m then [] else [Println "Master: FAIL"]) ++
      (if 150 <=? elapsed (p_now p) (lastBlinkMs m)
       then [DigitalWrite LED_STATUS_PIN (negb (ledStatus m))] else []) ++
      (if pressed_in m p then waitRelease (p_held p) else []) ++
      [Println "Master: START"] ++ pulseReset ++ [DigitalWrite LED_STATUS_PIN LOW] /\
    run_reset (fst (loop m p)) /\
    beginAllLowPrinted (fst (loop m p)) = false /\
    beginSequencePrinted (fst (loop m p)) = false)) /\
  (state m = STATE_WAIT_BUTTON ->
   (pressed_in m p || startRequested (pre m p)) = true ->
   state (fst (loop m p)) = STATE_WAIT_ALL_HIGH /\
   snd (loop m p) =
     snd (serial_commands m (p_serial p)) ++
     (if 500 <=? elapsed (p_now p) (lastBlinkMs m)
      then [Println "Master: STAGE — IDLE: OK"; DigitalWrite LED_STATUS_PIN (negb (ledStatus m))]
      else []) ++
     waitRelease (p_held p) ++
     [Println "Master: START"] ++ pulseReset ++ [DigitalWrite LED_STATUS_PIN LOW] /\
   run_reset (fst (loop m p)) /\
   beginAllLowPrinted (fst (loop m p)) = beginAllLowPrinted m /\
   beginSequencePrinted (fst (loop m p)) = beginSequencePrinted m).
Proof.
  split; [|apply wait_button_act].
  intros Hs; destruct (fail_step m p Hs) as (H1 & H2 & H3).
  split; [exact H1|]; split; [exact H2|].
  intros Ha; destruct (H3 Ha) as (_ & Hr & Hl & Hq).
  split; [apply fail_act_output; assumption|].
  split; [exact Hr|]; split; assumption.
Qed.


(** ** C6: entering AwaitAllHigh *)

(** C6 (as the code has it).  A poll that enters AwaitAllHigh starts from
    AwaitActivation or from Fail and clears the cursor, the per-line flags,
    the precheck flags, the start latch, the ALL_HIGH and Fail begin flags
    and the LED.  From Fail the ALL_LOW and SEQUENCE begin flags are cleared
    too; from AwaitActivation they keep their values (those two flags are
    cleared when their own stages are entered). *)
Theorem enter_all_high_reset (m : Master) (p : Poll) :
  state m <> STATE_WAIT_ALL_HIGH ->
  state (fst (loop m p)) = STATE_WAIT_ALL_HIGH ->
  (state m = STATE_WAIT_BUTTON \/ state m = STATE_FAIL) /\
  run_reset (fst (loop m p)) /\
  (state m = STATE_FAIL ->
   beginAllLowPrinted (fst (loop m p)) = false /\
   beginSequencePrinted (fst (loop m p)) = false) /\
  (state m = STATE_WAIT_BUTTON ->
   beginAllLowPrinted (fst (loop m p)) = beginAllLowPrinted m /\
   beginSequencePrinted (fst (loop m p)) = beginSequencePrinted m).
Proof.
  intros Hne Hin.
  pose proof (loop_stage m p) as Hn; rewrite Hin in Hn.
  assert (Hs : state m = STATE_WAIT_BUTTON \/ state m = STATE_FAIL)
    by (destruct (state m); try discriminate; auto; contradiction).
  split; [exact Hs|].
  destruct Hs as [Hs|Hs].
  2:{ destruct (fail_step m p Hs) as (_ & Hiff & Hrs).
      destruct (Hrs (proj1 Hiff Hin)) as (_ & Hr & Hl & Hq).
      split; [exact Hr|]. split; [intros _; split; assumption|]. rewrite Hs; discriminate. }
  rewrite loop_dispatch in Hin |- *.
  destruct (pre_fields m p) as (Hst & _ & _ & _ & _ & _ & _ & _ & _ & Hal & Hsq & _).
  cbn [fst] in Hin |- *; unfold dispatch in Hin |- *; rewrite Hst in Hin |- *.
  set (m0 := pre m p) in *; clearbody m0.
  rewrite Hs in Hin |- *.
  unfold wait_button, blink in Hin |- *.
  destruct (500 <=? _); cbn iota beta in Hin |- *; fields;
  (destruct (_ || startRequested _); fields; [|rewrite Hst, Hs in Hin; discriminate]);
  unfold run_reset; fields; rewrite ?Hal, ?Hsq;
  (split; [repeat split; intros j Hj; apply reset_pins_false, Hj|]);
  (split; [discriminate|]); intros _; split; reflexivity.
Qed.

(** ** C7: the begin markers *)

Definition all_stages : list TestState :=
  [STATE_WAIT_BUTTON; STATE_WAIT_ALL_HIGH; STATE_WAIT_ALL_LOW; STATE_SEQUENCE;
   STATE_SUCCESS; STATE_FAIL].

(** The begin marker of a stage and the flag that guards it. *)
Definition stage_marker (s : TestState) : option string :=
  match s with
  | STATE_WAIT_ALL_HIGH => Some "Master: STAGE — ALL_HIGH: BEGIN"
  | STATE_WAIT_ALL_LOW => Some "Master: STAGE — ALL_LOW: BEGIN"
  | STATE_SEQUENCE => Some "Master: STAGE — SEQUENCE: BEGIN"
  | STATE_FAIL => Some "Master: FAIL"
  | _ => None
  end.

Definition begin_flag (s : TestState) (x : Master) : bool :=
  match s with
  | STATE_WAIT_ALL_HIGH => beginAllHighPrinted x
  | STATE_WAIT_ALL_LOW => beginAllLowPrinted x
  | STATE_SEQUENCE => beginSequencePrinted x
  | STATE_FAIL => beginFailPrinted x
  | _ => false
  end.

Definition is_println (t : string) (e : event) : bool :=
  match e with Println u => String.eqb u t | _ => false end.

(** How many times the line [t] is printed. *)
Definition count_println (t : string) (es : list event) : nat :=
  List.length (filter (is_println t) es).

(** No roster label is the text [t]. *)
Definition marker_free (t : string) : bool :=
  forallb (fun l => negb (String.eqb l t)) TEST_LABELS.

Lemma count_app t a b : count_println t (a ++ b) = (count_println t a + count_println t b)%nat.
Proof. unfold count_println; rewrite filter_app, length_app; reflexivity. Qed.

Lemma count_waitRelease t h : count_println t (waitRelease h) = 0%nat.
Proof. unfold count_println, waitRelease; induction h; simpl; auto. Qed.

Lemma count_print_pins t lv level idx first :
  count_println t (print_pins TEST_LABELS lv level idx first) = 0%nat.
Proof.
  revert first; induction idx as [|i idx IH]; intros first; [reflexivity|].
  cbn [print_pins]; destruct (Bool.eqb _ _); [|apply IH].
  rewrite count_app; destruct first; apply IH.
Qed.

Lemma count_printDynamic t lv level :
  t <> EmptyString -> count_println t (printDynamicPinsByLevel TEST_LABELS lv level) = 0%nat.
Proof.
  intros Ht; unfold printDynamicPinsByLevel; rewrite count_app, count_print_pins.
  unfold count_println; simpl; destruct t; [contradiction|reflexivity].
Qed.

Lemma is_println_label t i :
  marker_free t = true -> t <> EmptyString -> is_println t (Println (label i)) = false.
Proof.
  unfold marker_free, Master.label; cbn [is_println]; intros Hf Ht.
  destruct (nth_in_or_default i TEST_LABELS EmptyString) as [Hin|Hd].
  - rewrite forallb_forall in Hf; apply Hf in Hin; apply negb_true_iff, Hin.
  - rewrite Hd; destruct t; [contradiction|reflexivity].
Qed.

Lemma is_println_timeout t x :
  marker_free t = true -> t <> EmptyString -> t <> "end" ->
  is_println t (Println (timeout_label TEST_LABELS x)) = false.
Proof.
  intros Hf Ht He; unfold timeout_label; destruct (_ <? _).
  - apply is_println_label; assumption.
  - cbn [is_println]; apply String.eqb_neq; congruence.
Qed.

Lemma count_serial t S m c :
  stage_marker S = Some t -> count_println t (snd (serial_commands m c)) = 0%nat.
Proof.
  intros Hm; destruct c as [l|]; [|reflexivity].
  unfold serial_commands; destruct (equalsIgnoreCase _ "START"); [|destruct (_ || _)];
    destruct S; inversion Hm; reflexivity.
Qed.

(** The Fail begin flag is clear while a test runs. *)
Definition FailInv (x : Master) : Prop := in_test (state x) -> beginFailPrinted x = false.

Lemma FailInv_dispatch m p pr : FailInv m -> FailInv (fst (dispatch m p pr)).
Proof.
  unfold FailInv; intros H; unfold dispatch; destruct (state m) eqn:Hs.
  - unfold wait_button, blink; split_ifs; fields; rewrite ?Hs;
      first [reflexivity | intros [?|[?|?]]; discriminate].
  - unfold wait_all_high; split_ifs; fields; rewrite ?Hs;
      intros _; apply H; rewrite ?Hs; unfold in_test; auto.
  - unfold wait_all_low; split_ifs; fields; rewrite ?Hs;
      intros _; apply H; rewrite ?Hs; unfold in_test; auto.
  - unfold sequence.
    destruct (negb (beginSequencePrinted m)); cbn iota beta;
    (destruct (high_lines_cases (p_levels p)) as [Hn | [[i Hi] | Hmulti]];
     [ rewrite (scan_none _ _ Hn)
     | rewrite (scan_single _ _ i Hi)
     | rewrite (scan_multi _ _ Hmulti)]);
    fields; split_ifs; fields; rewrite ?Hs;
    first [intros [?|[?|?]]; discriminate | intros _; apply H; rewrite ?Hs; unfold in_test; auto].
  - unfold success; fields; intros [?|[?|?]]; discriminate.
  - unfold fail, blink; split_ifs; fields; rewrite ?Hs;
      first [reflexivity | intros [?|[?|?]]; discriminate].
Qed.

Lemma FailInv_reachable m : reachable TEST_LABELS m -> FailInv m.
Proof.
  induction 1 as [t|m p _ IH].
  - unfold FailInv, setup_state; reflexivity.
  - rewrite loop_dispatch; apply FailInv_dispatch.
    destruct (pre_fields m p) as (Hst & _ & _ & _ & _ & _ & _ & _ & _ & _ & _ & Hbf & _).
    unfold FailInv in *; rewrite Hst, Hbf; exact IH.
Qed.

Ltac entry_close Hs Hne HF :=
  let HS := fresh in
  intros HS; rewrite ?Hs in HS; subst;
  cbn [begin_flag]; first
    [ reflexivity | congruence
    | intros Hm; exfalso; apply Hm; reflexivity
    | intros _; apply HF; rewrite ?Hs; unfold in_test; auto ].

Lemma entry_flag_dispatch S m p pr :
  FailInv m -> state m <> S -> state (fst (dispatch m p pr)) = S ->
  stage_marker S <> None -> begin_flag S (fst (dispatch m p pr)) = false.
Proof.
  intros HF Hne; unfold FailInv in HF; unfold dispatch; destruct (state m) eqn:Hs.
  - unfold wait_button, blink; split_ifs; fields; entry_close Hs Hne HF.
  - unfold wait_all_high; split_ifs; fields; entry_close Hs Hne HF.
  - unfold wait_all_low; split_ifs; fields; entry_close Hs Hne HF.
  - unfold sequence.
    destruct (negb (beginSequencePrinted m)); cbn iota beta;
    (destruct (high_lines_cases (p_levels p)) as [Hn | [[i Hi] | Hmulti]];
     [ rewrite (scan_none _ _ Hn)
     | rewrite (scan_single _ _ i Hi)
     | rewrite (scan_multi _ _ Hmulti)]);
    fields; split_ifs; fields; entry_close Hs Hne HF.
  - unfold success; fields; entry_close Hs Hne HF.
  - unfold fail, blink; split_ifs; fields; entry_close Hs Hne HF.
Qed.

(** Entering a stage with a begin marker finds its flag clear. *)
Lemma entry_flag S m p :
  reachable TEST_LABELS m -> state m <> S -> state (fst (loop m p)) = S ->
  stage_marker S <> None -> begin_flag S (fst (loop m p)) = false.
Proof.
  intros Hr; rewrite loop_dispatch; cbn [fst].
  destruct (pre_fields m p) as (Hst & _ & _ & _ & _ & _ & _ & _ & _ & _ & _ & Hbf & _).
  rewrite <- Hst; apply entry_flag_dispatch.
  pose proof (FailInv_reachable m Hr) as H; unfold FailInv in *; rewrite Hst, Hbf; exact H.
Qed.

Ltac count_close Hf Hb :=
  rewrite ?count_app, ?count_waitRelease, ?count_printDynamic by discriminate;
  unfold count_println; cbn [filter];
  rewrite ?is_println_label, ?is_println_timeout by (exact Hf || discriminate);
  cbn [begin_flag]; rewrite ?Hb;
  split; [reflexivity | let HS := fresh in intros HS; first [discriminate HS | reflexivity]].

Lemma stage_dispatch S t m p pr :
  stage_marker S = Some t -> marker_free t = true -> state m = S ->
  count_println t (snd (dispatch m p pr)) = (if begin_flag S m then 0 else 1)%nat /\
  (state (fst (dispatch m p pr)) = S -> begin_flag S (fst (dispatch m p pr)) = true).
Proof.
  intros Hm Hf Hs; unfold dispatch; rewrite Hs.
  destruct S; inversion Hm; subst t; clear Hm.
  - unfold wait_all_high; cbn [begin_flag].
    destruct (beginAllHighPrinted m) eqn:Hb; cbn [negb]; cbn iota beta;
      split_ifs; fields; rewrite ?Hs; count_close Hf Hb.
  - unfold wait_all_low; cbn [begin_flag].
    destruct (beginAllLowPrinted m) eqn:Hb; cbn [negb]; cbn iota beta;
      split_ifs; fields; rewrite ?Hs; count_close Hf Hb.
  - unfold sequence; cbn [begin_flag].
    destruct (beginSequencePrinted m) eqn:Hb; cbn [negb]; cbn iota beta;
    (destruct (high_lines_cases (p_levels p)) as [Hn | [[i Hi] | Hmulti]];
     [ rewrite (scan_none _ _ Hn)
     | rewrite (scan_single _ _ i Hi)
     | rewrite (scan_multi _ _ Hmulti)]);
    fields; split_ifs; fields; rewrite ?Hs; count_close Hf Hb.
  - unfold fail, blink; cbn [begin_flag].
    destruct (beginFailPrinted m) eqn:Hb; cbn [negb]; cbn iota beta;
      split_ifs; fields; rewrite ?Hs; count_close Hf Hb.
Qed.

Lemma stage_poll S t m p :
  stage_marker S = Some t -> marker_free t = true -> state m = S ->
  count_println t (snd (loop m p)) = (if begin_flag S m then 0 else 1)%nat /\
  (state (fst (loop m p)) = S -> begin_flag S (fst (loop m p)) = true).
Proof.
  intros Hm Hf Hs; rewrite loop_dispatch; cbn [fst snd].
  rewrite count_app, (count_serial t S) by exact Hm; cbn [Nat.add].
  destruct (pre_fields m p) as (Hst & _ & _ & _ & _ & _ & _ & _ & Hbh & Hbl & Hbs & Hbf & _).
  replace (begin_flag S m) with (begin_flag S (pre m p))
    by (destruct S; cbn [begin_flag]; congruence).
  apply stage_dispatch; [exact Hm | exact Hf | congruence].
Qed.

Lemma run_cons_snd m p r :
  snd (run TEST_LABELS m (p :: r)) = snd (loop m p) ++ snd (run TEST_LABELS (fst (loop m p)) r).
Proof.
  cbn [run]; destruct (Master.loop TEST_LABELS m p) as [m1 e1]; cbn [fst snd].
  destruct (run TEST_LABELS m1 r); reflexivity.
Qed.

Lemma run_cons_fst m p r :
  fst (run TEST_LABELS m (p :: r)) = fst (run TEST_LABELS (fst (loop m p)) r).
Proof.
  cbn [run]; destruct (Master.loop TEST_LABELS m p) as [m1 e1]; cbn [fst snd].
  destruct (run TEST_LABELS m1 r); reflexivity.
Qed.

(** The polls of a visit to [S] each print its begin marker once in total. *)
Lemma visit_count S t x ps :
  stage_marker S = Some t -> marker_free t = true -> state x = S ->
  forallb (fun y => TestState_eqb (state y) S) (map fst (steps TEST_LABELS x ps)) = true ->
  count_println t (snd (run TEST_LABELS x ps)) =
  (match ps with [] => 0 | _ => if begin_flag S x then 0 else 1 end)%nat.
Proof.
  intros Hm Hf; revert x; induction ps as [|p r IH]; intros x Hs Hall; [reflexivity|].
  rewrite run_cons_snd, count_app.
  destruct (stage_poll S t x p Hm Hf Hs) as [Hc Hnext].
  rewrite Hc; cbn [steps map forallb] in Hall; apply andb_true_iff in Hall as [_ Hall].
  destruct r as [|q r].
  - cbn; lia.
  - cbn [steps map forallb] in Hall.
    assert (Hs' : state (fst (loop x p)) = S)
      by (apply andb_true_iff in Hall as [H _]; apply TestState_eqb_eq, H).
    rewrite (IH _ Hs'), (Hnext Hs') by (cbn [steps map forallb]; exact Hall); lia.
Qed.

(** C7.  The stage is one value of the enumeration, so exactly one of the six
    stages holds in any state.  For each stage with a begin marker (ALL_HIGH,
    ALL_LOW, SEQUENCE begin markers and the Fail marker), when a reachable
    state enters the stage and the machine then spends any positive number
    of polls in it, those polls print the marker exactly once (the roster
    labels being different from the marker text). *)
Theorem begin_marker_once (S : TestState) (t : string) (m : Master) (p : Poll)
    (ps : list Poll) :
  stage_marker S = Some t -> marker_free t = true ->
  reachable TEST_LABELS m -> state m <> S -> state (fst (loop m p)) = S ->
  ps <> [] ->
  forallb (fun y => TestState_eqb (state y) S) (map fst (steps TEST_LABELS (fst (loop m p)) ps)) = true ->
  (forall x : Master, List.length (filter (TestState_eqb (state x)) all_stages) = 1%nat) /\
  count_println t (snd (run TEST_LABELS (fst (loop m p)) ps)) = 1%nat.
Proof.
  intros Hm Hf Hr Hne Hin Hps Hall; split.
  - intros x; destruct (state x); reflexivity.
  - rewrite (visit_count S t _ ps Hm Hf Hin Hall).
    rewrite (entry_flag S m p Hr Hne Hin) by congruence.
    destruct ps; [contradiction|reflexivity].
Qed.

(** ** C10: the precheck flags are write-only *)

(** The state with both precheck flags forgotten. *)
Definition erase (m : Master) : Master :=
  set_precheckAllHighOk (set_precheckAllLowOk m false) false.

Lemma erase_pre m p : pre (erase m) p = erase (pre m p).
Proof.
  unfold pre, erase, serial_commands, track_button.
  destruct (p_serial p) as [l|]; [destruct (equalsIgnoreCase _ "START"); [|destruct (_ || _)]|];
    fields; destruct (negb _); reflexivity.
Qed.

Lemma erase_pressed m p : pressed_in (erase m) p = pressed_in m p.
Proof. unfold pressed_in; rewrite erase_pre; reflexivity. Qed.

Lemma erase_dispatch m p pr :
  snd (dispatch m p pr) = snd (dispatch (erase m) p pr) /\
  erase (fst (dispatch m p pr)) = erase (fst (dispatch (erase m) p pr)).
Proof.
  destruct m; unfold erase; fields; unfold dispatch; fields.
  destruct state0.
  - unfold wait_button, blink; fields; split_ifs; fields; try congruence; split; reflexivity.
  - unfold wait_all_high; fields; split_ifs; fields; try congruence; split; reflexivity.
  - unfold wait_all_low; fields; split_ifs; fields; try congruence; split; reflexivity.
  - unfold sequence; fields.
    destruct beginSequencePrinted0; cbn [negb]; cbn iota beta;
    (destruct (high_lines_cases (p_levels p)) as [Hn | [[i Hi] | Hmulti]];
     [ rewrite !(scan_none _ _ Hn)
     | rewrite !(scan_single _ _ i Hi)
     | rewrite !(scan_multi _ _ Hmulti)]);
    fields; split_ifs; fields; try congruence; split; reflexivity.
  - unfold success; fields; try congruence; split; reflexivity.
  - unfold fail, blink; fields; split_ifs; fields; try congruence; split; reflexivity.
Qed.

Lemma erase_loop m p :
  snd (loop m p) = snd (loop (erase m) p) /\
  erase (fst (loop m p)) = erase (fst (loop (erase m) p)).
Proof.
  rewrite !loop_dispatch; cbn [fst snd]; rewrite erase_pre, erase_pressed.
  destruct (erase_dispatch (pre m p) p (pressed_in m p)) as [H1 H2].
  split; [|exact H2].
  f_equal; [|exact H1].
  unfold erase, serial_commands; destruct (p_serial p) as [l|]; [|reflexivity].
  destruct (equalsIgnoreCase _ "START"); [|destruct (_ || _)]; reflexivity.
Qed.

Lemma erase_loop2 m1 m2 p :
  erase m1 = erase m2 ->
  snd (loop m1 p) = snd (loop m2 p) /\ erase (fst (loop m1 p)) = erase (fst (loop m2 p)).
Proof.
  intros H; destruct (erase_loop m1 p) as [A1 B1]; destruct (erase_loop m2 p) as [A2 B2].
  rewrite A1, B1, A2, B2, H; split; reflexivity.
Qed.

Lemma erase_run m1 m2 ps :
  erase m1 = erase m2 ->
  snd (run TEST_LABELS m1 ps) = snd (run TEST_LABELS m2 ps) /\
  map erase (states TEST_LABELS m1 ps) = map erase (states TEST_LABELS m2 ps).
Proof.
  revert m1 m2; induction ps as [|p r IH]; intros m1 m2 H; [split; reflexivity|].
  destruct (erase_loop2 m1 m2 p H) as [Ho Hs].
  destruct (IH _ _ Hs) as [Ho' Hs'].
  rewrite !run_cons_snd, Ho, Ho'; cbn [states map]; rewrite Hs, Hs'; split; reflexivity.
Qed.

Lemma map_state_erase l : map state l = map state (map erase l).
Proof. rewrite map_map; reflexivity. Qed.

(** C10.  The two precheck flags are never read: two states that differ at
    most in them give the same output and the same stage sequence, and
    states that again differ at most in them, on every sequence of polls.
    On the 19-line firmware, a run whose two prechecks time out (both flags
    false) and a run whose prechecks pass (both true) reach Sequence in
    states that differ only in the flags; the same sequence polls then give
    identical output, both runs reach Success, and the ALL OK marker is
    printed once. *)
Theorem precheck_flags_write_only (m1 m2 : Master) (ps : list Poll) :
  erase m1 = erase m2 ->
  (snd (run TEST_LABELS m1 ps) = snd (run TEST_LABELS m2 ps) /\
   map state (states TEST_LABELS m1 ps) = map state (states TEST_LABELS m2 ps) /\
   map erase (states TEST_LABELS m1 ps) = map erase (states TEST_LABELS m2 ps)) /\
  (let mto := fst (run TEST_LABELS_19 Scenarios.s0 Scenarios.prechecks_time_out) in
   let mok := fst (run TEST_LABELS_19 Scenarios.s0 Scenarios.prechecks_pass) in
   let out := snd (run TEST_LABELS_19 mto (Scenarios.seq_polls 9100)) in
   precheckAllHighOk mto = false /\ precheckAllLowOk mto = false /\
   precheckAllHighOk mok = true /\ precheckAllLowOk mok = true /\
   erase mto = erase mok /\
   out = snd (run TEST_LABELS_19 mok (Scenarios.seq_polls 9100)) /\
   existsb (fun x => TestState_eqb (state x) STATE_SUCCESS)
           (states TEST_LABELS_19 mto (Scenarios.seq_polls 9100)) = true /\
   existsb (fun x => TestState_eqb (state x) STATE_SUCCESS)
           (states TEST_LABELS_19 mok (Scenarios.seq_polls 9100)) = true /\
   count_println "Master: STAGE — SEQUENCE: ALL OK" out = 1%nat).
Proof.
  intros H; split.
  - destruct (erase_run m1 m2 ps H) as [Ho Hs].
    split; [exact Ho|]; split; [|exact Hs].
    rewrite (map_state_erase (states _ m1 ps)), (map_state_erase (states _ m2 ps)), Hs.
    reflexivity.
  - vm_compute; repeat split; reflexivity.
Qed.

(** ** C1: a clean run *)

(** A poll with the button released and no serial line. *)
Definition quiet (p : Poll) : bool :=
  Bool.eqb (p_btn p) HIGH && match p_serial p with None => true | Some _ => false end.

Definition all_high (p : Poll) : bool := forallb (fun i => Bool.eqb (read (p_levels p) i) HIGH) pins.
Definition all_low (p : Poll) : bool := forallb (fun i => Bool.eqb (read (p_levels p) i) LOW) pins.

(** Line [k] reads high, every other line low. *)
Definition one_hot (k : nat) (p : Poll) : bool :=
  match high_lines (p_levels p) with [j] => Nat.eqb j k | _ => false end.

(** The poll comes before the timeout of the stage the call starts in. *)
Definition no_timeout (x : Master) (p : Poll) : bool :=
  match state x with
  | STATE_WAIT_ALL_HIGH => elapsed (p_now p) (stateStartMs x) <=? PRECHECK_TIMEOUT_MS
  | STATE_WAIT_ALL_LOW => elapsed (p_now p) (stateStartMs x) <=? LOW_STAGE_TIMEOUT_MS
  | STATE_SEQUENCE => elapsed (p_now p) (stateStartMs x) <=? SEQUENCE_TIMEOUT_MS
  | _ => true
  end.

(** The pulse of line [k]: polls with [k] alone high, then all-low polls;
    the blocks follow each other from line [k] on. *)
Fixpoint blocks_ok (k : nat) (bs : list (list Poll * list Poll)) : bool :=
  match bs with
  | [] => true
  | (os, ls) :: r =>
      negb (Nat.eqb (List.length os) 0) && forallb (fun p => quiet p && one_hot k p) os &&
      forallb (fun p => quiet p && all_low p) ls && blocks_ok (S k) r
  end.

Definition script_polls (bs : list (list Poll * list Poll)) : list Poll :=
  List.concat (map (fun b => fst b ++ snd b) bs).

Definition is_success (x : Master) : bool := TestState_eqb (state x) STATE_SUCCESS.

Fixpoint after (x : Master) (ps : list Poll) : Master :=
  match ps with [] => x | p :: r => after (fst (loop x p)) r end.

Lemma states_app x a b :
  states TEST_LABELS x (a ++ b) = states TEST_LABELS x a ++ states TEST_LABELS (after x a) b.
Proof. revert x; induction a as [|p a IH]; intros x; [reflexivity|]; cbn; rewrite IH; reflexivity. Qed.

Lemma steps_app x a b :
  steps TEST_LABELS x (a ++ b) = steps TEST_LABELS x a ++ steps TEST_LABELS (after x a) b.
Proof. revert x; induction a as [|p a IH]; intros x; [reflexivity|]; cbn; rewrite IH; reflexivity. Qed.

Definition nt_all (x : Master) (ps : list Poll) : bool :=
  forallb (fun xp => no_timeout (fst xp) (snd xp)) (steps TEST_LABELS x ps).

Lemma nt_all_app x a b : nt_all x (a ++ b) = nt_all x a && nt_all (after x a) b.
Proof. unfold nt_all; rewrite steps_app, forallb_app; reflexivity. Qed.

Lemma nt_all_cons x p r : nt_all x (p :: r) = no_timeout x p && nt_all (fst (loop x p)) r.
Proof. reflexivity. Qed.

(** A phase: every poll keeps [P], and no state of [P] is Success. *)
Lemma phase (P : Master -> Prop) (good : Poll -> bool) x ps :
  (forall y p, P y -> good p = true -> no_timeout y p = true -> P (fst (loop y p))) ->
  (forall y, P y -> is_success y = false) ->
  P x -> forallb good ps = true -> nt_all x ps = true ->
  P (after x ps) /\ filter is_success (states TEST_LABELS x ps) = [].
Proof.
  intros Hstep Hns; revert x; induction ps as [|p r IH]; intros x Hx Hg Ht; [split; auto|].
  cbn [forallb] in Hg; rewrite nt_all_cons in Ht.
  apply andb_true_iff in Hg as [Hg1 Hg2]; apply andb_true_iff in Ht as [Ht1 Ht2].
  pose proof (Hstep x p Hx Hg1 Ht1) as Hy.
  destruct (IH _ Hy Hg2 Ht2) as [Ha Hf].
  split; [exact Ha|]; cbn [states filter]; rewrite (Hns _ Hy); exact Hf.
Qed.

Lemma filter_nil_forallb (f g : nat -> bool) l :
  (forall i, g i = true -> f i = false) -> forallb g l = true -> filter f l = [].
Proof.
  intros H; induction l as [|i l IH]; simpl; [reflexivity|].
  intros Hg; apply andb_true_iff in Hg as [H1 H2]; rewrite (H i H1); apply IH, H2.
Qed.

Lemma all_low_lines p : all_low p = true -> high_lines (p_levels p) = [].
Proof.
  apply filter_nil_forallb; intros i; unfold HIGH, LOW; destruct (read _ i); simpl; congruence.
Qed.

Lemma one_hot_lines k p : one_hot k p = true -> high_lines (p_levels p) = [k].
Proof.
  unfold one_hot; destruct (high_lines (p_levels p)) as [|j [|]]; try discriminate.
  intros H; apply Nat.eqb_eq in H; subst; reflexivity.
Qed.

Lemma all_high_not_low p : (1 <= N)%nat -> all_high p = true -> all_low p = false.
Proof.
  unfold all_high, all_low, Master.pins; destruct N as [|n]; [lia|]; intros _.
  cbn [seq forallb]; destruct (read (p_levels p) 0); [reflexivity|discriminate].
Qed.

Lemma quiet_pre x p :
  quiet p = true ->
  pressed_in x p = false /\ startRequested (pre x p) = startRequested x.
Proof.
  unfold quiet; intros H; apply andb_true_iff in H as [Hb Hs].
  destruct (pre_fields x p) as (_ & _ & _ & _ & _ & _ & _ & Hsr & _).
  split.
  - unfold pressed_in, is_pressed; apply Bool.eqb_prop in Hb; rewrite Hb; reflexivity.
  - rewrite Hsr; destruct (p_serial p); [discriminate|apply orb_false_r].
Qed.

Lemma latch_dispatch m p pr :
  startRequested m = false -> startRequested (fst (dispatch m p pr)) = false.
Proof.
  intros H; unfold dispatch; destruct (state m).
  - unfold wait_button, blink; split_ifs; fields; rewrite ?H; reflexivity.
  - unfold wait_all_high; split_ifs; fields; rewrite ?H; reflexivity.
  - unfold wait_all_low; split_ifs; fields; rewrite ?H; reflexivity.
  - unfold sequence.
    destruct (negb (beginSequencePrinted m)); cbn iota beta;
    (destruct (high_lines_cases (p_levels p)) as [Hn | [[i Hi] | Hmulti]];
     [ rewrite (scan_none _ _ Hn)
     | rewrite (scan_single _ _ i Hi)
     | rewrite (scan_multi _ _ Hmulti)]);
    fields; split_ifs; fields; rewrite ?H; reflexivity.
  - unfold success; fields; exact H.
  - unfold fail, blink; split_ifs; fields; rewrite ?H; reflexivity.
Qed.

Lemma quiet_latch x p :
  quiet p = true -> startRequested x = false -> startRequested (fst (loop x p)) = false.
Proof.
  intros Hq H; rewrite loop_dispatch; cbn [fst]; apply latch_dispatch.
  rewrite (proj2 (quiet_pre x p Hq)); exact H.
Qed.

Lemma leb_not_ltb a b : (a <=? b) = true -> (b <? a) = false.
Proof. intros H; apply Z.leb_le in H; apply Z.ltb_ge; lia. Qed.

(** A clean per-run state. *)
Definition Clean0 (x : Master) : Prop :=
  startRequested x = false /\ expectedIndex x = 0 /\
  (forall j, (j < N)%nat -> nth j (pinWasHigh x) false = false) /\
  List.length (pinWasHigh x) = N.

Lemma step_act x p :
  Inv x -> state x = STATE_WAIT_BUTTON ->
  (pressed_in x p || startRequested (pre x p)) = true ->
  state (fst (loop x p)) = STATE_WAIT_ALL_HIGH /\ Clean0 (fst (loop x p)).
Proof.
  intros HI Hs Ha.
  destruct (Inv_loop x p HI) as (Hlen & _).
  rewrite loop_dispatch in Hlen |- *; cbn [fst] in Hlen |- *.
  destruct (pre_fields x p) as (Hst & _).
  unfold dispatch in Hlen |- *; rewrite Hst, Hs in Hlen |- *.
  set (m0 := pre x p) in *; clearbody m0.
  unfold wait_button, blink in Hlen |- *.
  destruct (500 <=? _); cbn iota beta in Hlen |- *; fields; rewrite Ha in Hlen |- *; fields;
    (split; [reflexivity|]); unfold Clean0; fields;
    (split; [reflexivity|]); (split; [reflexivity|]);
    (split; [intros j Hj; apply reset_pins_false, Hj | exact Hlen]).
Qed.

Lemma prechecks_frame x p :
  (state x = STATE_WAIT_ALL_HIGH \/ state x = STATE_WAIT_ALL_LOW) ->
  expectedIndex (fst (loop x p)) = expectedIndex x /\
  pinWasHigh (fst (loop x p)) = pinWasHigh x.
Proof.
  intros Hs; rewrite loop_dispatch; cbn [fst].
  destruct (pre_fields x p) as (Hst & _ & _ & He & Hpw & _).
  unfold dispatch; rewrite Hst.
  set (m0 := pre x p) in *; clearbody m0.
  destruct Hs as [Hs|Hs]; rewrite Hs; [unfold wait_all_high | unfold wait_all_low];
    split_ifs; fields; rewrite ?He, ?Hpw; split; reflexivity.
Qed.

Lemma Clean0_frame x p :
  (state x = STATE_WAIT_ALL_HIGH \/ state x = STATE_WAIT_ALL_LOW) ->
  quiet p = true -> Clean0 x -> Clean0 (fst (loop x p)).
Proof.
  intros Hs Hq (H1 & H2 & H3 & H4).
  destruct (prechecks_frame x p Hs) as [He Hpw].
  unfold Clean0; rewrite He, Hpw; split; [apply quiet_latch; assumption|auto].
Qed.

Lemma step_high x p :
  state x = STATE_WAIT_ALL_HIGH -> all_high p = true ->
  state (fst (loop x p)) = STATE_WAIT_ALL_LOW.
Proof.
  intros Hs Hh; rewrite loop_dispatch; cbn [fst].
  destruct (pre_fields x p) as (Hst & _).
  unfold dispatch; rewrite Hst, Hs; unfold wait_all_high.
  unfold all_high in Hh; rewrite Hh.
  destruct (negb _); reflexivity.
Qed.

Lemma step_low_wait x p :
  state x = STATE_WAIT_ALL_LOW -> all_low p = false -> no_timeout x p = true ->
  state (fst (loop x p)) = STATE_WAIT_ALL_LOW.
Proof.
  intros Hs Hl Ht; unfold no_timeout in Ht; rewrite Hs in Ht.
  rewrite loop_dispatch; cbn [fst].
  destruct (pre_fields x p) as (Hst & Hss & _).
  unfold dispatch; rewrite Hst, Hs; unfold wait_all_low.
  unfold all_low in Hl; rewrite Hl.
  set (m0 := pre x p) in *; clearbody m0.
  destruct (negb _); cbn iota beta; fields; rewrite Hss, (leb_not_ltb _ _ Ht);
    fields; rewrite ?Hst; exact Hs.
Qed.

Lemma step_low x p :
  state x = STATE_WAIT_ALL_LOW -> all_low p = true ->
  state (fst (loop x p)) = STATE_SEQUENCE.
Proof.
  intros Hs Hl; rewrite loop_dispatch; cbn [fst].
  destruct (pre_fields x p) as (Hst & _).
  unfold dispatch; rewrite Hst, Hs; unfold wait_all_low.
  unfold all_low in Hl; rewrite Hl.
  destruct (negb _); reflexivity.
Qed.

Lemma step_seq_low x p :
  state x = STATE_SEQUENCE -> all_low p = true -> no_timeout x p = true ->
  state (fst (loop x p)) = STATE_SEQUENCE /\
  expectedIndex (fst (loop x p)) = expectedIndex x /\
  (forall j, nth j (pinWasHigh x) false = false -> nth j (pinWasHigh (fst (loop x p))) false = false) /\
  List.length (pinWasHigh (fst (loop x p))) = List.length (pinWasHigh x).
Proof.
  intros Hs Hl Ht; unfold no_timeout in Ht; rewrite Hs in Ht.
  rewrite loop_dispatch; cbn [fst].
  destruct (pre_fields x p) as (Hst & Hss & _ & He & Hpw & _).
  unfold dispatch; rewrite Hst, Hs; unfold sequence.
  set (m0 := pre x p) in *; clearbody m0.
  destruct (negb _); cbn iota beta; rewrite (scan_none _ _ (all_low_lines p Hl)); fields;
    rewrite Hss, (leb_not_ltb _ _ Ht); fields; rewrite Hst, He, Hpw, clear_pw_length;
    (split; [exact Hs|]); (split; [reflexivity|]); (split; [|reflexivity]);
    intros j Hj; (apply fold_keep_false; [|exact Hj]);
    intros pw i Hpw'; (destruct (Bool.eqb _ _); [apply nth_set_nth_false|]); exact Hpw'.
Qed.

Lemma step_seq_old k x p :
  state x = STATE_SEQUENCE -> one_hot k p = true -> nth k (pinWasHigh x) false = true ->
  no_timeout x p = true ->
  state (fst (loop x p)) = STATE_SEQUENCE /\
  expectedIndex (fst (loop x p)) = expectedIndex x /\
  pinWasHigh (fst (loop x p)) = pinWasHigh x.
Proof.
  intros Hs Hk Hold Ht; unfold no_timeout in Ht; rewrite Hs in Ht.
  rewrite loop_dispatch; cbn [fst].
  destruct (pre_fields x p) as (Hst & Hss & _ & He & Hpw & _).
  unfold dispatch; rewrite Hst, Hs; unfold sequence.
  set (m0 := pre x p) in *; clearbody m0.
  destruct (negb _); cbn iota beta; rewrite (scan_single _ _ k (one_hot_lines k p Hk)); fields;
    rewrite Hpw, Hold; cbn [negb]; cbn iota beta; fields;
    rewrite Hss, (leb_not_ltb _ _ Ht); fields; rewrite Hst, He, Hpw;
    (split; [exact Hs|]); split; reflexivity.
Qed.

Lemma step_seq_new k x p :
  state x = STATE_SEQUENCE -> one_hot k p = true -> nth k (pinWasHigh x) false = false ->
  expectedIndex x = Z.of_nat k -> no_timeout x p = true ->
  pinWasHigh (fst (loop x p)) = set_nth (pinWasHigh x) k true /\
  expectedIndex (fst (loop x p)) = Z.of_nat (S k) /\
  state (fst (loop x p)) = (if Nat.eqb (S k) N then STATE_SUCCESS else STATE_SEQUENCE).
Proof.
  intros Hs Hk Hnew Hek Ht; unfold no_timeout in Ht; rewrite Hs in Ht.
  rewrite loop_dispatch; cbn [fst].
  destruct (pre_fields x p) as (Hst & Hss & _ & He & Hpw & _).
  unfold dispatch; rewrite Hst, Hs; unfold sequence.
  set (m0 := pre x p) in *; clearbody m0.
  assert (Hlast : (Z.of_nat k + 1 =? Z.of_nat N) = Nat.eqb (S k) N).
  { destruct (Nat.eqb_spec (S k) N); [apply Z.eqb_eq | apply Z.eqb_neq]; lia. }
  destruct (negb _); cbn iota beta; rewrite (scan_single _ _ k (one_hot_lines k p Hk)); fields;
    rewrite Hpw, Hnew, He, Hek, Z.eqb_refl; cbn [negb]; cbn iota beta; fields;
    rewrite Hlast; destruct (Nat.eqb (S k) N); cbn iota beta; fields;
    try (rewrite Hss, (leb_not_ltb _ _ Ht); fields; rewrite ?Hst);
    (split; [reflexivity|]); (split; [lia|]); first [reflexivity | exact Hs].
Qed.

Lemma step_success x p :
  state x = STATE_SUCCESS ->
  state (fst (loop x p)) = STATE_WAIT_BUTTON /\ startRequested (fst (loop x p)) = startRequested (pre x p).
Proof.
  intros Hs; rewrite loop_dispatch; cbn [fst].
  destruct (pre_fields x p) as (Hst & _).
  unfold dispatch; rewrite Hst, Hs; unfold success; fields; split; reflexivity.
Qed.

Lemma step_idle x p :
  state x = STATE_WAIT_BUTTON -> quiet p = true -> startRequested x = false ->
  state (fst (loop x p)) = STATE_WAIT_BUTTON.
Proof.
  intros Hs Hq Hsr; destruct (quiet_pre x p Hq) as [Hpr Hsr'].
  rewrite loop_dispatch; cbn [fst].
  destruct (pre_fields x p) as (Hst & _).
  unfold dispatch; rewrite Hst, Hs; unfold wait_button, blink.
  set (m0 := pre x p) in *; clearbody m0.
  destruct (500 <=? _); cbn iota beta; fields; rewrite Hpr, Hsr', Hsr; cbn [orb]; cbn iota beta;
    fields; rewrite ?Hst; exact Hs.
Qed.

(** Sequence at cursor [k] with the flags of lines [k ..] clear. *)
Definition PS (k : nat) (y : Master) : Prop :=
  state y = STATE_SEQUENCE /\ startRequested y = false /\ expectedIndex y = Z.of_nat k /\
  (forall j, (k <= j < N)%nat -> nth j (pinWasHigh y) false = false) /\
  List.length (pinWasHigh y) = N.

Lemma after_app x a b : after x (a ++ b) = after (after x a) b.
Proof. revert x; induction a as [|p a IH]; intros x; [reflexivity|]; apply IH. Qed.

Lemma after_cons x p r : after x (p :: r) = after (fst (loop x p)) r.
Proof. reflexivity. Qed.

Lemma states_cons x p r :
  states TEST_LABELS x (p :: r) = fst (loop x p) :: states TEST_LABELS (fst (loop x p)) r.
Proof. reflexivity. Qed.

Lemma PS_low k : forall y p, PS k y -> quiet p && all_low p = true -> no_timeout y p = true ->
  PS k (fst (loop y p)).
Proof.
  intros y p (Hs & Hsr & He & Hf & Hl) Hg Ht; apply andb_true_iff in Hg as [Hq Hlow].
  destruct (step_seq_low y p Hs Hlow Ht) as (Hs' & He' & Hf' & Hl').
  unfold PS; rewrite Hs', He', Hl'; repeat split; auto.
  apply quiet_latch; assumption.
Qed.

Lemma PS_success k y : PS k y -> is_success y = false.
Proof. intros (Hs & _); unfold is_success; rewrite Hs; reflexivity. Qed.

Lemma phase_H x H :
  state x = STATE_WAIT_ALL_HIGH -> Clean0 x -> (1 <= N)%nat -> H <> [] ->
  forallb (fun p => quiet p && all_high p) H = true -> nt_all x H = true ->
  (state (after x H) = STATE_WAIT_ALL_LOW /\ Clean0 (after x H)) /\
  filter is_success (states TEST_LABELS x H) = [].
Proof.
  intros Hs Hc HN Hne Hg Ht; destruct H as [|h H]; [contradiction|].
  cbn [forallb] in Hg; apply andb_true_iff in Hg as [Hg1 Hg]; apply andb_true_iff in Hg1 as [Hq Hh].
  rewrite nt_all_cons in Ht; apply andb_true_iff in Ht as [_ Ht].
  rewrite after_cons, states_cons; cbn [filter].
  assert (Hy : state (fst (loop x h)) = STATE_WAIT_ALL_LOW /\ Clean0 (fst (loop x h))).
  { split; [apply step_high; assumption | apply Clean0_frame; auto]. }
  unfold is_success at 1; rewrite (proj1 Hy).
  apply (phase (fun y => state y = STATE_WAIT_ALL_LOW /\ Clean0 y) (fun p => quiet p && all_high p));
    [| intros y [Hs' _]; unfold is_success; rewrite Hs'; reflexivity | exact Hy | exact Hg | exact Ht].
  intros y p [Hs' Hc'] Hg' Ht'; apply andb_true_iff in Hg' as [Hq' Hh'].
  split; [apply step_low_wait; [exact Hs' | apply all_high_not_low; assumption | exact Ht'] |].
  apply Clean0_frame; auto.
Qed.

Lemma phase_L x L :
  state x = STATE_WAIT_ALL_LOW -> Clean0 x -> L <> [] ->
  forallb (fun p => quiet p && all_low p) L = true -> nt_all x L = true ->
  PS 0 (after x L) /\ filter is_success (states TEST_LABELS x L) = [].
Proof.
  intros Hs Hc Hne Hg Ht; destruct L as [|l L]; [contradiction|].
  cbn [forallb] in Hg; apply andb_true_iff in Hg as [Hg1 Hg]; apply andb_true_iff in Hg1 as [Hq Hl].
  rewrite nt_all_cons in Ht; apply andb_true_iff in Ht as [_ Ht].
  rewrite after_cons, states_cons; cbn [filter].
  assert (Hy : PS 0 (fst (loop x l))).
  { destruct (Clean0_frame x l (or_intror Hs) Hq Hc) as (H1 & H2 & H3 & H4).
    unfold PS; rewrite H2; repeat split; auto; [apply step_low; assumption|].
    intros j Hj; apply H3; lia. }
  rewrite (PS_success _ _ Hy).
  apply (phase (PS 0) (fun p => quiet p && all_low p));
    [exact (PS_low 0) | exact (PS_success 0) | exact Hy | exact Hg | exact Ht].
Qed.

Lemma block_step k x os ls :
  PS k x -> (S k < N)%nat -> os <> [] ->
  forallb (fun p => quiet p && one_hot k p) os = true ->
  forallb (fun p => quiet p && all_low p) ls = true ->
  nt_all x (os ++ ls) = true ->
  PS (S k) (after x (os ++ ls)) /\ filter is_success (states TEST_LABELS x (os ++ ls)) = [].
Proof.
  intros (Hs & Hsr & He & Hf & Hl) Hk Hne Hgo Hgl Ht; destruct os as [|o os]; [contradiction|].
  cbn [forallb] in Hgo; apply andb_true_iff in Hgo as [Hg1 Hgo]; apply andb_true_iff in Hg1 as [Hq Ho].
  rewrite <- app_comm_cons, nt_all_cons in Ht; apply andb_true_iff in Ht as [Ht1 Ht].
  rewrite <- app_comm_cons, after_cons, states_cons, after_app, states_app; cbn [filter].
  rewrite filter_app.
  rewrite nt_all_app in Ht; apply andb_true_iff in Ht as [Hto Htl].
  assert (Hnew : nth k (pinWasHigh x) false = false) by (apply Hf; lia).
  destruct (step_seq_new k x o Hs Ho Hnew He Ht1) as (Hpw & He' & Hs').
  replace (Nat.eqb (S k) N) with false in Hs' by (symmetry; apply Nat.eqb_neq; lia).
  set (y := fst (loop x o)) in *.
  assert (Hy : PS (S k) y /\ nth k (pinWasHigh y) false = true).
  { unfold PS; rewrite Hs', He', Hpw, set_nth_length.
    split; [repeat split; auto|].
    - apply quiet_latch; assumption.
    - intros j Hj; rewrite nth_set_nth_neq by lia; apply Hf; lia.
    - apply nth_set_nth_eq; lia. }
  assert (Hys : is_success y = false) by (apply (PS_success (S k)), Hy).
  rewrite Hys.
  destruct (phase (fun z => PS (S k) z /\ nth k (pinWasHigh z) false = true)
                  (fun p => quiet p && one_hot k p) y os) as [Hmid Hfm];
    [| intros z [Hz _]; apply (PS_success _ _ Hz) | exact Hy | exact Hgo | exact Hto |].
  { intros z p [(Hzs & Hzr & Hze & Hzf & Hzl) Hzk] Hg Hzt; apply andb_true_iff in Hg as [Hq' Ho'].
    destruct (step_seq_old k z p Hzs Ho' Hzk Hzt) as (Hs2 & He2 & Hpw2).
    unfold PS; rewrite Hs2, He2, Hpw2; repeat split; auto.
    apply quiet_latch; assumption. }
  destruct (phase (PS (S k)) (fun p => quiet p && all_low p) (after y os) ls
              (PS_low (S k)) (PS_success (S k)) (proj1 Hmid) Hgl Htl) as [Hend Hfl].
  split; [exact Hend|]; rewrite Hfm, Hfl; reflexivity.
Qed.

Lemma script_polls_cons b r : script_polls (b :: r) = (fst b ++ snd b) ++ script_polls r.
Proof. reflexivity. Qed.

Lemma blocks_phase bs : forall k x,
  PS k x -> blocks_ok k bs = true -> (k + List.length bs < N)%nat ->
  nt_all x (script_polls bs) = true ->
  PS (k + List.length bs) (after x (script_polls bs)) /\
  filter is_success (states TEST_LABELS x (script_polls bs)) = [].
Proof.
  induction bs as [|[os ls] r IH]; intros k x Hx Hb Hk Ht.
  - cbn; rewrite Nat.add_0_r; split; [exact Hx | reflexivity].
  - rewrite script_polls_cons in Ht |- *; cbn [fst snd] in Ht |- *.
    cbn [blocks_ok] in Hb.
    apply andb_true_iff in Hb as [Hb Hr]; apply andb_true_iff in Hb as [Hb Hgl];
      apply andb_true_iff in Hb as [Hne Hgo].
    rewrite nt_all_app in Ht; apply andb_true_iff in Ht as [Ht1 Ht2].
    cbn [List.length] in Hk.
    assert (Hne' : os <> []) by (destruct os; [discriminate | congruence]).
    destruct (block_step k x os ls Hx ltac:(lia) Hne' Hgo Hgl Ht1) as [Hy Hfy].
    destruct (IH (S k) _ Hy Hr ltac:(lia) Ht2) as [Hend Hfe].
    rewrite after_app, states_app, filter_app, Hfy, Hfe.
    cbn [List.length]; replace (k + S (List.length r))%nat with (S k + List.length r)%nat by lia.
    split; [exact Hend | reflexivity].
Qed.

Lemma last_phase x o rest :
  (1 <= N)%nat -> PS (N - 1) x -> quiet o && one_hot (N - 1) o = true ->
  forallb quiet rest = true -> nt_all x (o :: rest) = true ->
  filter is_success (states TEST_LABELS x (o :: rest)) = [fst (loop x o)] /\
  expectedIndex (fst (loop x o)) = Z.of_nat N.
Proof.
  intros HN (Hs & Hsr & He & Hf & Hl) Hg Hq Ht; apply andb_true_iff in Hg as [Hqo Ho].
  rewrite nt_all_cons in Ht; apply andb_true_iff in Ht as [Ht1 Ht].
  assert (Hnew : nth (N - 1) (pinWasHigh x) false = false) by (apply Hf; lia).
  destruct (step_seq_new (N - 1) x o Hs Ho Hnew He Ht1) as (_ & He' & Hs').
  replace (S (N - 1)) with N in He', Hs' by lia; rewrite Nat.eqb_refl in Hs'.
  rewrite states_cons; cbn [filter]; unfold is_success at 1; rewrite Hs'.
  split; [|exact He'].
  assert (Hr : startRequested (fst (loop x o)) = false) by (apply quiet_latch; assumption).
  set (y := fst (loop x o)) in *.
  destruct rest as [|r0 rest]; [reflexivity|].
  cbn [forallb] in Hq; apply andb_true_iff in Hq as [Hq0 Hq].
  rewrite nt_all_cons in Ht; apply andb_true_iff in Ht as [_ Ht].
  destruct (step_success y r0 Hs') as [Hw Hwr].
  rewrite (proj2 (quiet_pre y r0 Hq0)), Hr in Hwr.
  rewrite states_cons; cbn [filter]; unfold is_success at 1; rewrite Hw.
  destruct (phase (fun z => state z = STATE_WAIT_BUTTON /\ startRequested z = false) quiet
              (fst (loop y r0)) rest) as [_ Hfr]; [| | split; assumption | exact Hq | exact Ht |].
  - intros z p [Hz Hzr] Hqz _; split; [apply step_idle | apply quiet_latch]; assumption.
  - intros z [Hz _]; unfold is_success; rewrite Hz; reflexivity.
  - rewrite Hfr; reflexivity.
Qed.

Lemma blocks_ok_app a b : forall k,
  blocks_ok k (a ++ b) = blocks_ok k a && blocks_ok (k + List.length a) b.
Proof.
  induction a as [|[os ls] a IH]; intros k; cbn [app blocks_ok List.length].
  - rewrite Nat.add_0_r; reflexivity.
  - rewrite IH, <- !andb_assoc; replace (S k + List.length a)%nat with (k + S (List.length a))%nat by lia.
    reflexivity.
Qed.

Lemma script_polls_app a b : script_polls (a ++ b) = script_polls a ++ script_polls b.
Proof. unfold script_polls; rewrite map_app, concat_app; reflexivity. Qed.

(** C1.  Take a reachable AwaitActivation state, a qualifying activation
    poll, and then polls that follow the stimulus script: a non-empty run
    of all-high polls, a non-empty run of all-low polls, and for each line
    [k = 0 .. N-1] in roster order a non-empty run of polls with [k] alone
    high followed by all-low polls, then any further polls.  After the
    activation no poll presses the button or sends a command, and none comes
    after the timeout of its stage.  Then for every roster length [N >= 1]
    exactly one of the states of the run is Success, and in it the cursor
    equals [N]. *)
Theorem clean_run_success (m : Master) (act : Poll) (H L : list Poll)
    (bs : list (list Poll * list Poll)) (tail : list Poll) :
  reachable TEST_LABELS m -> state m = STATE_WAIT_BUTTON -> (1 <= N)%nat ->
  (pressed_in m act || startRequested (pre m act)) = true ->
  H <> [] -> forallb (fun p => quiet p && all_high p) H = true ->
  L <> [] -> forallb (fun p => quiet p && all_low p) L = true ->
  List.length bs = N -> blocks_ok 0 bs = true ->
  forallb quiet tail = true ->
  nt_all m (act :: H ++ L ++ script_polls bs ++ tail) = true ->
  List.length (filter is_success
    (states TEST_LABELS m (act :: H ++ L ++ script_polls bs ++ tail))) = 1%nat /\
  (forall x, In x (states TEST_LABELS m (act :: H ++ L ++ script_polls bs ++ tail)) ->
   state x = STATE_SUCCESS -> expectedIndex x = Z.of_nat N).
Proof.
  intros Hr Hs HN Ha HHne HH HLne HL Hlen Hb Htl Ht.
  (* split the roster blocks into the first N-1 and the last one *)
  destruct (exists_last (l := bs)) as [bs' [[os ls] Hbs]];
    [intros ->; cbn in Hlen; lia|].
  subst bs; rewrite length_app in Hlen; cbn [List.length] in Hlen.
  rewrite blocks_ok_app in Hb; apply andb_true_iff in Hb as [Hb' Hlast].
  cbn [blocks_ok] in Hlast; rewrite andb_true_r in Hlast.
  apply andb_true_iff in Hlast as [Hlast Hgl]; apply andb_true_iff in Hlast as [Hne Hgo].
  destruct os as [|o os]; [discriminate|].
  cbn [forallb] in Hgo; apply andb_true_iff in Hgo as [Ho Hgo].
  replace (0 + List.length bs')%nat with (N - 1)%nat in Ho by lia.
  rewrite script_polls_app in Ht |- *.
  assert (Hpolls : script_polls [(o :: os, ls)] ++ tail = o :: (os ++ ls ++ tail))
    by (cbn; rewrite app_nil_r, <- app_assoc; reflexivity).
  rewrite <- !app_assoc, Hpolls in Ht |- *.
  set (ps := act :: H ++ L ++ script_polls bs' ++ o :: os ++ ls ++ tail) in *.
  enough (Hz : exists z, filter is_success (states TEST_LABELS m ps) = [z] /\
                         expectedIndex z = Z.of_nat N).
  { destruct Hz as [z [Hf Hez]]; split; [rewrite Hf; reflexivity|].
    intros x Hin Hx.
    assert (Hxf : In x (filter is_success (states TEST_LABELS m ps)))
      by (apply filter_In; split; [exact Hin | unfold is_success; rewrite Hx; reflexivity]).
    rewrite Hf in Hxf; destruct Hxf as [<-|[]]; exact Hez. }
  subst ps.
  (* activation *)
  rewrite nt_all_cons in Ht; apply andb_true_iff in Ht as [_ Ht].
  destruct (step_act m act (reachable_Inv m Hr) Hs Ha) as [Hs0 Hc0].
  set (y0 := fst (loop m act)) in *.
  rewrite states_cons; fold y0; cbn [filter].
  assert (Hy0 : is_success y0 = false) by (unfold is_success; rewrite Hs0; reflexivity).
  rewrite Hy0.
  (* the two prechecks *)
  rewrite nt_all_app in Ht; apply andb_true_iff in Ht as [HtH Ht].
  destruct (phase_H y0 H Hs0 Hc0 HN HHne HH HtH) as [[HsH HcH] HfH].
  rewrite nt_all_app in Ht; apply andb_true_iff in Ht as [HtL Ht].
  destruct (phase_L _ L HsH HcH HLne HL HtL) as [HpL HfL].
  (* the first N-1 pulses *)
  rewrite nt_all_app in Ht; apply andb_true_iff in Ht as [Htb Ht].
  destruct (blocks_phase bs' 0 _ HpL Hb' ltac:(lia) Htb) as [Hpb Hfb].
  replace (0 + List.length bs')%nat with (N - 1)%nat in Hpb by lia.
  (* the last pulse and what follows *)
  assert (Hq : forallb quiet (os ++ ls ++ tail) = true).
  { rewrite !forallb_app, Htl, andb_true_r.
    rewrite forallb_forall in Hgo, Hgl.
    apply andb_true_iff; split; apply forallb_forall; intros p Hp;
      [apply Hgo in Hp | apply Hgl in Hp]; apply andb_true_iff in Hp as [Hp _]; exact Hp. }
  destruct (last_phase _ o _ HN Hpb Ho Hq Ht) as [Hfl Hel].
  rewrite !states_app, !filter_app, HfH, HfL, Hfb, Hfl; cbn [app].
  eexists; split; [reflexivity | exact Hel].
Qed.


(** * Further properties of the Master *)

(** ** Bounds of the per-run state *)

(** In every reachable state there is one was-high flag per roster line and
    the cursor is within [0 .. N]; in the three test stages it is below [N]
    (so [TEST_LABELS[expectedIndex]] is in range there). *)
Theorem reachable_cursor_bounds (m : Master) :
  reachable TEST_LABELS m ->
  List.length (pinWasHigh m) = N /\ 0 <= expectedIndex m <= Z.of_nat N /\
  ((1 <= N)%nat ->
   state m = STATE_WAIT_ALL_HIGH \/ state m = STATE_WAIT_ALL_LOW \/ state m = STATE_SEQUENCE ->
   expectedIndex m < Z.of_nat N).
Proof.
  intros H; destruct (reachable_Inv m H) as (H1 & H2 & H3).
  split; [exact H1|]; split; [exact H2|].
  intros HN Hst; destruct (H3 Hst); lia.
Qed.

(** ** Entering and leaving Success *)

Ltac succ_close Hs :=
  intros ?Hx;
  first [ discriminate
        | (rewrite Hs in Hx; discriminate)
        | (split; [reflexivity|]; split;
           [repeat match goal with H : (_ =? _) = true |- _ => apply Z.eqb_eq in H end; lia|];
           split; [reflexivity|ends_with]) ].

Lemma success_dispatch m p pr :
  state (fst (dispatch m p pr)) = STATE_SUCCESS ->
  state m = STATE_SEQUENCE /\ expectedIndex (fst (dispatch m p pr)) = Z.of_nat N /\
  ledStatus (fst (dispatch m p pr)) = HIGH /\
  exists before, snd (dispatch m p pr) =
    before ++ [Println "Master: STAGE — SEQUENCE: ALL OK"; DigitalWrite LED_STATUS_PIN HIGH].
Proof.
  unfold dispatch; destruct (state m) eqn:Hs.
  - unfold wait_button, blink; split_ifs; fields; succ_close Hs.
  - unfold wait_all_high; split_ifs; fields; succ_close Hs.
  - unfold wait_all_low; split_ifs; fields; succ_close Hs.
  - unfold sequence.
    destruct (negb (beginSequencePrinted m)); cbn iota beta;
    (destruct (high_lines_cases (p_levels p)) as [Hn | [[i Hi] | Hmulti]];
     [ rewrite (scan_none _ _ Hn)
     | rewrite (scan_single _ _ i Hi)
     | rewrite (scan_multi _ _ Hmulti)]);
    fields; split_ifs; fields; succ_close Hs.
  - unfold success; fields; succ_close Hs.
  - unfold fail, blink; split_ifs; fields; succ_close Hs.
Qed.

(** A poll ends in Success only from Sequence, by the last line's edge: the
    cursor then equals [N], the status LED is on, and the poll's output ends
    with the ALL OK marker and the LED write. *)
Theorem enter_success (m : Master) (p : Poll) :
  state (fst (loop m p)) = STATE_SUCCESS ->
  state m = STATE_SEQUENCE /\ expectedIndex (fst (loop m p)) = Z.of_nat N /\
  ledStatus (fst (loop m p)) = HIGH /\
  exists before, snd (loop m p) =
    before ++ [Println "Master: STAGE — SEQUENCE: ALL OK"; DigitalWrite LED_STATUS_PIN HIGH].
Proof.
  rewrite loop_dispatch; cbn [fst snd]; intros H.
  destruct (success_dispatch _ _ _ H) as (Hs & He & Hl & [b Hb]).
  destruct (pre_fields m p) as (Hst & _); rewrite Hst in Hs.
  split; [exact Hs|]; split; [exact He|]; split; [exact Hl|].
  exists (snd (serial_commands m (p_serial p)) ++ b); rewrite Hb, app_assoc; reflexivity.
Qed.

(** Success lasts one poll: it prints the SUCCESS marker (after the output of
    the poll's command, if any) and returns to AwaitActivation, keeping the
    LED and the cursor. *)
Theorem success_lasts_one_poll (m : Master) (p : Poll) :
  state m = STATE_SUCCESS ->
  state (fst (loop m p)) = STATE_WAIT_BUTTON /\
  snd (loop m p) =
    snd (serial_commands m (p_serial p)) ++ [Print (String.append "Master: STAGE — SUCCESS: OK" NL)] /\
  ledStatus (fst (loop m p)) = ledStatus m /\ expectedIndex (fst (loop m p)) = expectedIndex m.
Proof.
  intros Hs; rewrite loop_dispatch; cbn [fst snd].
  destruct (pre_fields m p) as (Hst & _ & _ & He & _ & _ & _ & _ & _ & _ & _ & _ & Hl).
  unfold dispatch; rewrite Hst, Hs; unfold success; fields.
  rewrite He, Hl; repeat split.
Qed.

(** ** Button debouncing *)

Lemma serial_button m c :
  lastButtonState (fst (serial_commands m c)) = lastButtonState m /\
  lastButtonEdgeMs (fst (serial_commands m c)) = lastButtonEdgeMs m.
Proof.
  unfold serial_commands; destruct c as [l|]; [split_ifs|]; fields; split; reflexivity.
Qed.

(** A poll sees a press only when the button reads LOW, was already LOW at
    the previous poll, and its last edge is more than [DEBOUNCE_MS] old: the
    poll on which the button goes down never counts as a press. *)
Theorem press_debounced (m : Master) (p : Poll) :
  pressed_in m p = true ->
  p_btn p = LOW /\ lastButtonState m = LOW /\
  DEBOUNCE_MS < elapsed (p_now p) (lastButtonEdgeMs m).
Proof.
  unfold pressed_in, is_pressed, pre, track_button.
  destruct (serial_button m (p_serial p)) as [Hb He].
  set (m1 := fst (serial_commands m (p_serial p))) in *; clearbody m1.
  destruct (negb (Bool.eqb (p_btn p) (lastButtonState m1))) eqn:Hne; fields;
    intros H; apply andb_true_iff in H as [Hlow Hdeb].
  - unfold elapsed in Hdeb; rewrite Z.sub_diag, Z.mod_0_l in Hdeb by lia; discriminate.
  - apply Bool.eqb_prop in Hlow; apply negb_false_iff, Bool.eqb_prop in Hne.
    apply Z.ltb_lt in Hdeb; rewrite <- Hb, <- He, <- Hne; auto.
Qed.


(** ** The command channel *)

(** A serial line that the firmware's matcher ([String::equalsIgnoreCase],
    which ignores letter case and ends its comparison at the first NUL of
    the line) takes, once trimmed, for none of START, FLASH and DFU is
    ignored: the poll behaves exactly as without it. *)
Theorem unknown_command_ignored (m : Master) (p : Poll) (c : string) :
  p_serial p = Some c ->
  equalsIgnoreCase (trim c) "START" = false ->
  (equalsIgnoreCase (trim c) "FLASH" || equalsIgnoreCase (trim c) "DFU") = false ->
  loop m p = loop m (no_cmd p).
Proof.
  intros Hp Hs Hf.
  assert (Hsc : serial_commands m (Some c) = (m, [])).
  { unfold serial_commands; rewrite Hs, Hf; reflexivity. }
  unfold loop; rewrite Hp, Hsc; cbn [no_cmd p_serial p_now p_btn serial_commands].
  set (d := Master.dispatch _ _ _ _); clearbody d; destruct d; reflexivity.
Qed.

Lemma latch_keep_dispatch m p pr :
  state m <> STATE_WAIT_BUTTON -> state m <> STATE_FAIL ->
  startRequested (fst (dispatch m p pr)) = startRequested m.
Proof.
  intros H1 H2; unfold dispatch; destruct (state m); try congruence.
  - unfold wait_all_high; split_ifs; fields; reflexivity.
  - unfold wait_all_low; split_ifs; fields; reflexivity.
  - unfold sequence.
    destruct (negb (beginSequencePrinted m)); cbn iota beta;
    (destruct (high_lines_cases (p_levels p)) as [Hn | [[i Hi] | Hmulti]];
     [ rewrite (scan_none _ _ Hn)
     | rewrite (scan_single _ _ i Hi)
     | rewrite (scan_multi _ _ Hmulti)]);
    fields; split_ifs; fields; reflexivity.
  - unfold success; fields; reflexivity.
Qed.

(** A START received while a run is in AwaitAllHigh, AwaitAllLow, Sequence or
    Success is latched: no poll of those stages clears [startRequested]. *)
Theorem start_latch_kept (m : Master) (p : Poll) :
  state m = STATE_WAIT_ALL_HIGH \/ state m = STATE_WAIT_ALL_LOW \/
  state m = STATE_SEQUENCE \/ state m = STATE_SUCCESS ->
  startRequested (fst (loop m p)) = startRequested m || is_start_cmd (p_serial p).
Proof.
  intros Hs; rewrite loop_dispatch; cbn [fst].
  destruct (pre_fields m p) as (Hst & _ & _ & _ & _ & _ & _ & Hsr & _).
  rewrite latch_keep_dispatch, Hsr; [reflexivity| |]; rewrite Hst;
    destruct Hs as [H|[H|[H|H]]]; rewrite H; discriminate.
Qed.

(** The latch starts a run at the next poll in AwaitActivation or Fail: the
    machine enters AwaitAllHigh with the latch cleared, after printing START,
    sending one reset pulse and switching the status LED off. *)
Theorem latched_start_activates (m : Master) (p : Poll) :
  state m = STATE_WAIT_BUTTON \/ state m = STATE_FAIL ->
  (startRequested m || is_start_cmd (p_serial p)) = true ->
  state (fst (loop m p)) = STATE_WAIT_ALL_HIGH /\
  startRequested (fst (loop m p)) = false /\
  exists before, snd (loop m p) =
    before ++ [Println "Master: START"] ++ pulseReset ++ [DigitalWrite LED_STATUS_PIN LOW].
Proof.
  intros [Hs|Hs] Hl.
  - rewrite loop_dispatch; cbn [fst snd].
    destruct (pre_fields m p) as (Hst & _ & _ & _ & _ & _ & _ & Hsr & _).
    unfold dispatch; rewrite Hst, Hs; unfold wait_button, blink.
    set (m0 := pre m p) in *; clearbody m0.
    destruct (500 <=? _); cbn iota beta; fields; rewrite Hsr, Hl, orb_true_r; cbn iota beta; fields;
      (split; [reflexivity|]); (split; [reflexivity|]); ends_with.
  - destruct (pre_fields m p) as (_ & _ & _ & _ & _ & _ & _ & Hsr & _).
    destruct (fail_step m p Hs) as (_ & Hiff & Hact).
    assert (Ha : (pressed_in m p || startRequested (pre m p)) = true)
      by (rewrite Hsr, Hl; apply orb_true_r).
    destruct (Hact Ha) as ([b Hb] & (_ & _ & _ & _ & Hr & _) & _).
    split; [apply Hiff, Ha|]; split; [exact Hr|].
    exists (b ++ (if pressed_in m p then waitRelease (p_held p) else [])).
    rewrite Hb, <- app_assoc; reflexivity.
Qed.

(** ** Waiting in AwaitActivation and in Fail *)

(** In AwaitActivation, a poll with no press and no START only blinks: when
    500 ms have passed since the last blink it prints the idle marker and
    toggles the status LED; the stage and the per-run state stay. *)
Theorem idle_blink (m : Master) (p : Poll) :
  state m = STATE_WAIT_BUTTON -> pressed_in m p = false ->
  (startRequested m || is_start_cmd (p_serial p)) = false ->
  state (fst (loop m p)) = STATE_WAIT_BUTTON /\
  expectedIndex (fst (loop m p)) = expectedIndex m /\
  pinWasHigh (fst (loop m p)) = pinWasHigh m /\
  ledStatus (fst (loop m p)) =
    (if 500 <=? elapsed (p_now p) (lastBlinkMs m) then negb (ledStatus m) else ledStatus m) /\
  snd (loop m p) = snd (serial_commands m (p_serial p)) ++
    (if 500 <=? elapsed (p_now p) (lastBlinkMs m)
     then [Println "Master: STAGE — IDLE: OK"; DigitalWrite LED_STATUS_PIN (negb (ledStatus m))]
     else []).
Proof.
  intros Hs Hp Hl; rewrite loop_dispatch; cbn [fst snd].
  destruct (pre_fields m p) as (Hst & _ & Hlb & He & Hpw & _ & _ & Hsr & _ & _ & _ & _ & Hled).
  unfold dispatch; rewrite Hst, Hs; unfold wait_button, blink; rewrite Hp.
  set (m0 := pre m p) in *; clearbody m0.
  rewrite Hlb; destruct (500 <=? _); cbn iota beta; fields; rewrite Hsr, Hl; cbn [orb]; cbn iota beta;
    fields; rewrite ?Hst, ?Hs, ?He, ?Hpw, ?Hled; repeat split.
Qed.

(** In Fail, a poll with no press and no START keeps the machine in Fail with
    the cursor and the was-high flags as they are: it prints the Fail marker
    if not yet printed, and toggles the status LED when 150 ms have passed
    since the last blink. *)
Theorem fail_waits (m : Master) (p : Poll) :
  state m = STATE_FAIL -> pressed_in m p = false ->
  (startRequested m || is_start_cmd (p_serial p)) = false ->
  state (fst (loop m p)) = STATE_FAIL /\
  beginFailPrinted (fst (loop m p)) = true /\
  expectedIndex (fst (loop m p)) = expectedIndex m /\
  pinWasHigh (fst (loop m p)) = pinWasHigh m /\
  ledStatus (fst (loop m p)) =
    (if 150 <=? elapsed (p_now p) (lastBlinkMs m) then negb (ledStatus m) else ledStatus m) /\
  snd (loop m p) = snd (serial_commands m (p_serial p)) ++
    (if beginFailPrinted m then [] else [Println "Master: FAIL"]) ++
    (if 150 <=? elapsed (p_now p) (lastBlinkMs m)
     then [DigitalWrite LED_STATUS_PIN (negb (ledStatus m))] else []).
Proof.
  intros Hs Hp Hl; rewrite loop_dispatch; cbn [fst snd].
  destruct (pre_fields m p) as (Hst & _ & Hlb & He & Hpw & _ & _ & Hsr & _ & _ & _ & Hbf & Hled).
  unfold dispatch; rewrite Hst, Hs; unfold fail, blink; rewrite Hp.
  set (m0 := pre m p) in *; clearbody m0.
  rewrite Hbf; destruct (beginFailPrinted m); cbn [negb]; cbn iota beta; fields; rewrite Hlb;
    destruct (150 <=? _); cbn iota beta; fields; rewrite Hsr, Hl; cbn [orb]; cbn iota beta;
    fields; rewrite ?Hst, ?Hs, ?He, ?Hpw, ?Hled, ?Hbf; repeat split.
Qed.


(** ** Single polls of Sequence *)

(** In Sequence, line [i] alone high for the first time since the last
    all-low poll, at the cursor and before the timeout: the poll prints the
    OK marker with the label of [i], sets the flag of [i] and advances the
    cursor; at the last line it enters Success, prints ALL OK and switches
    the status LED on, otherwise it stays in Sequence. *)
Theorem sequence_advance (m : Master) (p : Poll) (i : nat) :
  state m = STATE_SEQUENCE -> high_lines (p_levels p) = [i] ->
  nth i (pinWasHigh m) false = false -> expectedIndex m = Z.of_nat i ->
  elapsed (p_now p) (stateStartMs m) <= SEQUENCE_TIMEOUT_MS ->
  pinWasHigh (fst (loop m p)) = set_nth (pinWasHigh m) i true /\
  expectedIndex (fst (loop m p)) = Z.of_nat (S i) /\
  (if Nat.eqb (S i) N
   then state (fst (loop m p)) = STATE_SUCCESS /\ ledStatus (fst (loop m p)) = HIGH /\
        exists before, snd (loop m p) =
          before ++ [Print "Master: STAGE — SEQUENCE: OK — "; Println (label i);
                     Println "Master: STAGE — SEQUENCE: ALL OK"; DigitalWrite LED_STATUS_PIN HIGH]
   else state (fst (loop m p)) = STATE_SEQUENCE /\
        exists before, snd (loop m p) =
          before ++ [Print "Master: STAGE — SEQUENCE: OK — "; Println (label i)]).
Proof.
  intros Hs Hk Hnew Hek Ht; apply Z.leb_le in Ht.
  rewrite loop_dispatch; cbn [fst snd].
  destruct (pre_fields m p) as (Hst & Hss & _ & He & Hpw & _).
  unfold dispatch; rewrite Hst, Hs; unfold sequence.
  set (m0 := pre m p) in *; clearbody m0.
  assert (Hlast : (Z.of_nat i + 1 =? Z.of_nat N) = Nat.eqb (S i) N).
  { destruct (Nat.eqb_spec (S i) N); [apply Z.eqb_eq | apply Z.eqb_neq]; lia. }
  destruct (negb _); cbn iota beta; rewrite (scan_single _ _ i Hk); fields;
    rewrite Hpw, Hnew, He, Hek, Z.eqb_refl; cbn [negb]; cbn iota beta; fields;
    rewrite Hlast; destruct (Nat.eqb (S i) N); cbn iota beta; fields;
    try (rewrite Hss, (leb_not_ltb _ _ Ht); fields; rewrite ?Hst);
    (split; [reflexivity|]); (split; [lia|]);
    first [ (split; [reflexivity|]; split; [reflexivity|]; ends_with)
          | (split; [exact Hs|]; ends_with) ].
Qed.

(** In Sequence, a line that is alone high again while its flag is still
    set (no all-low poll since it was seen) is ignored: before the timeout
    the poll prints nothing but the stage's begin marker if due, and leaves
    the stage, the cursor and the flags as they are. *)
Theorem sequence_held_line (m : Master) (p : Poll) (i : nat) :
  state m = STATE_SEQUENCE -> high_lines (p_levels p) = [i] ->
  nth i (pinWasHigh m) false = true ->
  elapsed (p_now p) (stateStartMs m) <= SEQUENCE_TIMEOUT_MS ->
  state (fst (loop m p)) = STATE_SEQUENCE /\
  expectedIndex (fst (loop m p)) = expectedIndex m /\
  pinWasHigh (fst (loop m p)) = pinWasHigh m /\
  snd (loop m p) = snd (serial_commands m (p_serial p)) ++
    (if beginSequencePrinted m then [] else [Println "Master: STAGE — SEQUENCE: BEGIN"]).
Proof.
  intros Hs Hk Hold Ht; apply Z.leb_le in Ht.
  rewrite loop_dispatch; cbn [fst snd].
  destruct (pre_fields m p) as (Hst & Hss & _ & He & Hpw & _ & _ & _ & _ & _ & Hbs & _).
  unfold dispatch; rewrite Hst, Hs; unfold sequence.
  set (m0 := pre m p) in *; clearbody m0.
  rewrite Hbs; destruct (beginSequencePrinted m); cbn [negb]; cbn iota beta;
    rewrite (scan_single _ _ i Hk); fields;
    rewrite Hpw, Hold; cbn [negb]; cbn iota beta; fields;
    rewrite Hss, (leb_not_ltb _ _ Ht); fields; rewrite Hst, He, Hpw;
    (split; [exact Hs|]); (split; [reflexivity|]); split; reflexivity.
Qed.

Lemma clear_all_false lv idx pw j :
  In j idx -> read lv j = LOW ->
  nth j (fold_left (fun pw i => if Bool.eqb (read lv i) LOW then set_nth pw i false else pw)
                   idx pw) false = false.
Proof.
  revert pw; induction idx as [|i idx IH]; intros pw Hin Hj; [destruct Hin|].
  cbn [fold_left]; destruct (in_dec Nat.eq_dec j idx) as [H|H]; [apply IH; assumption|].
  destruct Hin as [->|Hin]; [|contradiction].
  apply fold_keep_false.
  - intros pw' i' Hp; destruct (Bool.eqb _ _); [apply nth_set_nth_false, Hp | exact Hp].
  - replace (Bool.eqb (read lv j) LOW) with true by (rewrite Hj; reflexivity).
    apply set_nth_false_at.
Qed.

Lemma no_high_low lv j : high_lines lv = [] -> (j < N)%nat -> read lv j = LOW.
Proof.
  unfold high_lines; intros H Hj.
  destruct (read lv j) eqn:Hr; [|reflexivity]; exfalso.
  assert (Hin : In j (filter (fun i => Bool.eqb (read lv i) HIGH) pins)).
  { apply filter_In; split; [unfold Master.pins; apply in_seq; lia | rewrite Hr; reflexivity]. }
  rewrite H in Hin; destruct Hin.
Qed.

(** In Sequence, a poll with no line high clears the flag of every line, so
    each line can rise again; before the timeout it keeps the stage and the
    cursor and prints nothing but the stage's begin marker if due. *)
Theorem sequence_all_low_clears (m : Master) (p : Poll) :
  state m = STATE_SEQUENCE -> high_lines (p_levels p) = [] ->
  elapsed (p_now p) (stateStartMs m) <= SEQUENCE_TIMEOUT_MS ->
  state (fst (loop m p)) = STATE_SEQUENCE /\
  expectedIndex (fst (loop m p)) = expectedIndex m /\
  (forall j, (j < N)%nat -> nth j (pinWasHigh (fst (loop m p))) false = false) /\
  snd (loop m p) = snd (serial_commands m (p_serial p)) ++
    (if beginSequencePrinted m then [] else [Println "Master: STAGE — SEQUENCE: BEGIN"]).
Proof.
  intros Hs Hn Ht; apply Z.leb_le in Ht.
  rewrite loop_dispatch; cbn [fst snd].
  destruct (pre_fields m p) as (Hst & Hss & _ & He & Hpw & _ & _ & _ & _ & _ & Hbs & _).
  unfold dispatch; rewrite Hst, Hs; unfold sequence.
  set (m0 := pre m p) in *; clearbody m0.
  rewrite Hbs; destruct (beginSequencePrinted m); cbn [negb]; cbn iota beta;
    rewrite (scan_none _ _ Hn); fields;
    rewrite Hss, (leb_not_ltb _ _ Ht); fields; rewrite Hst, He;
    (split; [exact Hs|]); (split; [reflexivity|]);
    (split; [|reflexivity]);
    (intros j Hj; apply clear_all_false;
      [unfold Master.pins; apply in_seq; lia | apply no_high_low; assumption]).
Qed.


(** ** What one [loop()] call drives *)

(** The effects the Master's [loop()] may have: serial output, delays and
    writes to the status LED or the reset line. *)
Definition master_effect (e : event) : bool :=
  match e with
  | Print _ | Println _ | Delay _ => true
  | DigitalWrite q _ => Z.eqb q LED_STATUS_PIN || Z.eqb q RESET_SENDER_PIN
  | SerialBegin _ | PinMode _ _ => false
  end.

(** The level last written to pin [q] in a trace, if any. *)
Fixpoint last_write (q : Z) (es : list event) : option bool :=
  match es with
  | [] => None
  | e :: r =>
      match last_write q r with
      | Some v => Some v
      | None => match e with
                | DigitalWrite q' v => if Z.eqb q q' then Some v else None
                | _ => None
                end
      end
  end.

Lemma last_write_app q a b :
  last_write q (a ++ b) =
  match last_write q b with Some v => Some v | None => last_write q a end.
Proof.
  induction a as [|e a IH]; cbn [app last_write].
  - destruct (last_write q b); reflexivity.
  - rewrite IH; destruct (last_write q b); reflexivity.
Qed.

Lemma lw_print_pins q lv level idx first :
  last_write q (print_pins TEST_LABELS lv level idx first) = None.
Proof.
  revert first; induction idx as [|i idx IH]; intros first; cbn [print_pins]; [reflexivity|].
  destruct (Bool.eqb _ _); [|apply IH].
  rewrite last_write_app; cbn [last_write]; rewrite IH.
  destruct first; reflexivity.
Qed.

Lemma lw_printDynamic q lv level :
  last_write q (printDynamicPinsByLevel TEST_LABELS lv level) = None.
Proof.
  unfold printDynamicPinsByLevel; rewrite last_write_app, lw_print_pins; reflexivity.
Qed.

Lemma lw_waitRelease q h : last_write q (waitRelease h) = None.
Proof. unfold waitRelease; induction h as [|h IH]; cbn; [|rewrite IH]; reflexivity. Qed.

Lemma eff_print_pins lv level idx first :
  forallb master_effect (print_pins TEST_LABELS lv level idx first) = true.
Proof.
  revert first; induction idx as [|i idx IH]; intros first; cbn [print_pins]; [reflexivity|].
  destruct (Bool.eqb _ _); [|apply IH].
  rewrite forallb_app; destruct first; cbn; apply IH.
Qed.

Lemma eff_printDynamic lv level :
  forallb master_effect (printDynamicPinsByLevel TEST_LABELS lv level) = true.
Proof.
  unfold printDynamicPinsByLevel; rewrite forallb_app, eff_print_pins; reflexivity.
Qed.

Lemma eff_waitRelease h : forallb master_effect (waitRelease h) = true.
Proof. unfold waitRelease; induction h as [|h IH]; cbn; [reflexivity|exact IH]. Qed.

Ltac dispatch_cases :=
  unfold dispatch, wait_button, wait_all_high, wait_all_low, sequence, sequence_scan,
    success, fail, blink;
  match goal with |- context [state ?x] => destruct (state x) end;
  try (destruct (count_high _ _));
  split_ifs; fields.

Lemma eff_dispatch x p pr : forallb master_effect (snd (dispatch x p pr)) = true.
Proof.
  dispatch_cases;
    rewrite ?forallb_app, ?eff_printDynamic, ?eff_waitRelease; reflexivity.
Qed.

Lemma eff_serial m c : forallb master_effect (snd (serial_commands m c)) = true.
Proof. unfold serial_commands; destruct c; [split_ifs|]; reflexivity. Qed.

Lemma eff_loop m p : forallb master_effect (snd (loop m p)) = true.
Proof. rewrite loop_dispatch; cbn [snd]; rewrite forallb_app, eff_serial, eff_dispatch; reflexivity. Qed.

Lemma led_dispatch x p pr :
  ledStatus (fst (dispatch x p pr)) =
  match last_write LED_STATUS_PIN (snd (dispatch x p pr)) with
  | Some v => v | None => ledStatus x end.
Proof.
  dispatch_cases;
    rewrite ?last_write_app, ?lw_printDynamic, ?lw_waitRelease; reflexivity.
Qed.

Lemma lw_serial q m c : last_write q (snd (serial_commands m c)) = None \/
  (last_write q (snd (serial_commands m c)) = Some HIGH /\ q = RESET_SENDER_PIN).
Proof.
  unfold serial_commands; destruct c; [split_ifs|]; cbn; try (left; reflexivity).
  destruct (Z.eqb_spec q RESET_SENDER_PIN) as [->|Hq]; [right; split; reflexivity|left].
  assert (Hq' : (q =? 33) = false) by (apply Z.eqb_neq; exact Hq).
  unfold enterFlashMode, pulseReset; cbn; rewrite Hq'; reflexivity.
Qed.

Lemma led_loop m p :
  ledStatus (fst (loop m p)) =
  match last_write LED_STATUS_PIN (snd (loop m p)) with
  | Some v => v | None => ledStatus m end.
Proof.
  rewrite loop_dispatch; cbn [fst snd]; rewrite last_write_app, led_dispatch.
  destruct (pre_fields m p) as (_ & _ & _ & _ & _ & _ & _ & _ & _ & _ & _ & _ & Hled).
  destruct (last_write _ (snd (dispatch _ _ _))); [reflexivity|].
  destruct (lw_serial LED_STATUS_PIN m (p_serial p)) as [-> | [_ Hq]];
    [exact Hled | discriminate Hq].
Qed.

Lemma reset_dispatch x p pr :
  last_write RESET_SENDER_PIN (snd (dispatch x p pr)) = None \/
  last_write RESET_SENDER_PIN (snd (dispatch x p pr)) = Some HIGH.
Proof.
  dispatch_cases;
    rewrite ?last_write_app, ?lw_printDynamic, ?lw_waitRelease; cbn;
    first [left; reflexivity | right; reflexivity].
Qed.

Lemma reset_loop m p :
  last_write RESET_SENDER_PIN (snd (loop m p)) = None \/
  last_write RESET_SENDER_PIN (snd (loop m p)) = Some HIGH.
Proof.
  rewrite loop_dispatch; cbn [snd]; rewrite last_write_app.
  destruct (reset_dispatch (pre m p) p (pressed_in m p)) as [-> | ->]; [|right; reflexivity].
  destruct (lw_serial RESET_SENDER_PIN m (p_serial p)) as [-> | [-> _]];
    [left | right]; reflexivity.
Qed.

Lemma run_last_write q (f : Master -> option bool) m ps es :
  (forall m p, last_write q (snd (loop m p)) = None -> f (fst (loop m p)) = f m) ->
  (forall m p, last_write q (snd (loop m p)) <> None ->
     last_write q (snd (loop m p)) = f (fst (loop m p))) ->
  last_write q es = f m ->
  last_write q (es ++ snd (run TEST_LABELS m ps)) = f (fst (run TEST_LABELS m ps)).
Proof.
  intros Hnone Hsome; revert m es; induction ps as [|p ps IH]; intros m es Hes.
  - cbn [run fst snd]; rewrite app_nil_r; exact Hes.
  - rewrite run_cons_snd, run_cons_fst, app_assoc; apply IH.
    rewrite last_write_app.
    destruct (last_write q (snd (loop m p))) eqn:Hl.
    + rewrite <- Hl; apply Hsome; rewrite Hl; discriminate.
    + rewrite Hes; symmetry; apply Hnone, Hl.
Qed.

Lemma lw_setup_led w : last_write LED_STATUS_PIN (Master.setup w) = Some LOW.
Proof. unfold Master.setup; rewrite !last_write_app; reflexivity. Qed.

Lemma lw_setup_reset w : last_write RESET_SENDER_PIN (Master.setup w) = Some HIGH.
Proof. unfold Master.setup; rewrite !last_write_app; reflexivity. Qed.

(** Every event of one [loop()] call is serial output, a delay, or a write
    to the status LED or to the reset line: [loop()] never calls
    [pinMode] or [Serial.begin], and never drives a test line, the
    PCB LED or the button pin. *)
Theorem master_loop_effects (m : Master) (p : Poll) :
  forallb master_effect (snd (loop m p)) = true /\
  forall q v, In (DigitalWrite q v) (snd (loop m p)) ->
    ~ In q TEST_PINS /\ q <> LED_PCB_PIN /\ q <> BUTTON_PIN.
Proof.
  split; [apply eff_loop|].
  intros q v Hin.
  pose proof (proj1 (forallb_forall _ _) (eff_loop m p) _ Hin) as He; cbn [master_effect] in He.
  apply orb_true_iff in He; destruct He as [He|He]; apply Z.eqb_eq in He; subst q;
    (vm_compute; split; [intuition discriminate | split; discriminate]).
Qed.

(** The status LED shows the firmware's [ledStatus]: after [setup()] and
    any number of [loop()] calls from power-up, the level last written to
    the status LED pin is the value of [ledStatus] (so each
    [!digitalRead(LED_STATUS_PIN)] toggle is a toggle of [ledStatus]). *)
Theorem led_mirrors_status (w : nat) (t : Z) (ps : list Poll) :
  last_write LED_STATUS_PIN
    (Master.setup w ++ snd (run TEST_LABELS (setup_state TEST_LABELS t) ps)) =
  Some (ledStatus (fst (run TEST_LABELS (setup_state TEST_LABELS t) ps))).
Proof.
  apply (run_last_write LED_STATUS_PIN (fun m => Some (ledStatus m))).
  - intros m p Hl; rewrite led_loop, Hl; reflexivity.
  - intros m p Hl; rewrite led_loop; destruct (last_write _ _); [reflexivity|].
    exfalso; apply Hl; reflexivity.
  - apply lw_setup_led.
Qed.

(** The reset line of the Target is never left asserted between two
    [loop()] calls: after [setup()] and any number of [loop()] calls from any
    state, the level last written to [RESET_SENDER_PIN] is HIGH; every LOW
    write to it is the start of a pulse completed within the same call. *)
Theorem reset_released (w : nat) (m : Master) (ps : list Poll) :
  last_write RESET_SENDER_PIN (Master.setup w ++ snd (run TEST_LABELS m ps)) = Some HIGH.
Proof.
  apply (run_last_write RESET_SENDER_PIN (fun _ => Some HIGH)).
  - reflexivity.
  - intros m' p Hl; destruct (reset_loop m' p) as [H|H]; [contradiction | exact H].
  - apply lw_setup_reset.
Qed.


(** ** Output pins *)

(** The pins configured as outputs so far, or [None] once a pin has been
    written that is not configured as an output. *)
Definition cfg_step (st : option (list Z)) (e : event) : option (list Z) :=
  match st with
  | None => None
  | Some outs =>
      match e with
      | PinMode q OUTPUT => Some (q :: outs)
      | PinMode q _ => Some (remove Z.eq_dec q outs)
      | DigitalWrite q _ => if existsb (Z.eqb q) outs then Some outs else None
      | _ => Some outs
      end
  end.

Lemma cfg_delays st n : fold_left cfg_step (repeat (Delay 10) n) st = st.
Proof.
  revert st; induction n as [|n IH]; intros st; [reflexivity|].
  cbn [repeat fold_left]; rewrite IH; destruct st; reflexivity.
Qed.




End Proofs.

(** ** C9: the Target's stimulus script *)

(** The events on pins other than the Target's status LED. *)
Definition not_led (e : event) : bool :=
  match e with
  | PinMode p _ | DigitalWrite p _ => negb (Z.eqb p Target.LED_STATUS_PIN)
  | _ => true
  end.

(** The script as the Stimulus Driver contract describes it. *)
Definition contract_config (lines : list Z) : list event :=
  flat_map (fun p => [PinMode p OUTPUT; DigitalWrite p LOW]) lines.

Definition contract_stimulus (lines : list Z) : list event :=
  [Println "Target: STAGE — ALL_HIGH: BEGIN"] ++ map (fun p => DigitalWrite p HIGH) lines ++
  [Delay 1000; Println "Target: STAGE — ALL_HIGH: OK"] ++
  [Println "Target: STAGE — ALL_LOW: BEGIN"] ++ map (fun p => DigitalWrite p LOW) lines ++
  [Delay 1000; Println "Target: STAGE — ALL_LOW: OK"] ++
  [Println "Target: STAGE — SEQUENCE: BEGIN"] ++
  flat_map (fun p => [DigitalWrite p HIGH; Delay 150; DigitalWrite p LOW; Delay 150]) lines ++
  [Println "Target: STAGE — SEQUENCE: ALL OK"].

Definition contract_idle (k : nat) : list event :=
  repeat (Println "Target: STAGE — IDLE: OK") k.

Lemma filter_repeat {A} (f : A -> bool) (x : A) n :
  f x = true -> filter f (repeat x n) = repeat x n.
Proof. intros H; induction n as [|n IH]; simpl; [reflexivity|]; rewrite H, IH; reflexivity. Qed.

Lemma target_idle k :
  List.concat (repeat Target.loop k) = contract_idle k.
Proof. induction k as [|k IH]; simpl; [reflexivity|]; rewrite IH; reflexivity. Qed.

(** C9.  Up to its status LED (a pin outside the roster), the Target's
    trace after [w] waits for the USB port and [k] calls of [loop()] is: the
    readiness marker; every roster line set as an output at LOW (the VCC
    line first); the three stages once, in order, with their markers, all
    lines HIGH for 1000 ms, all LOW for 1000 ms, and each line in roster
    order HIGH for 150 ms then LOW for 150 ms; then one idle marker per
    [loop()] call, which has no other effect.  Nothing in it depends on an
    input. *)
Theorem target_script (w k : nat) :
  filter not_led (Target.run w k) =
  [SerialBegin 115200] ++ repeat (Delay 10) w ++ [Println "Target: READY"] ++
  contract_config (Target.VCC_CTRL_PIN :: Target.TEST_PINS) ++
  contract_stimulus Target.TEST_PINS ++ contract_idle k /\
  ~ In Target.LED_STATUS_PIN Target.TEST_PINS /\
  List.concat (repeat Target.loop k) = contract_idle k /\
  Target.loop = [Println "Target: STAGE — IDLE: OK"].
Proof.
  split; [|split; [|split; [apply target_idle|reflexivity]]].
  - unfold Target.run, Target.setup.
    rewrite target_idle; unfold contract_idle.
    rewrite !filter_app, !filter_repeat by reflexivity.
    rewrite <- !app_assoc; reflexivity.
  - vm_compute; intuition discriminate.
Qed.


(** ** Target trace invariants *)

Lemma target_run_split w k :
  Target.run w k =
  ([SerialBegin 115200] ++ repeat (Delay 10) w) ++ tl (Target.setup 0) ++
  List.concat (repeat Target.loop k).
Proof.
  unfold Target.run, Target.setup; cbn [tl]; rewrite <- !app_assoc; reflexivity.
Qed.

(** The Target only writes pins it has configured as outputs: every
    [digitalWrite] of its trace comes after a [pinMode(..., OUTPUT)] of that
    pin, and the outputs are the status LED, the VCC control line and the
    roster lines. *)
Theorem target_writes_configured (w k : nat) :
  fold_left cfg_step (Target.run w k) (Some []) =
  Some (rev Target.TEST_PINS ++ [Target.VCC_CTRL_PIN; Target.LED_STATUS_PIN]).
Proof.
  rewrite target_run_split, !fold_left_app, cfg_delays, target_idle.
  unfold contract_idle; generalize k; intros n.
  replace (fold_left cfg_step (tl (Target.setup 0)) (Some []))
    with (Some (rev Target.TEST_PINS ++ [Target.VCC_CTRL_PIN; Target.LED_STATUS_PIN]))
    by (vm_compute; reflexivity).
  induction n as [|n IH]; [reflexivity|exact IH].
Qed.

Definition is_seq_begin (e : event) : bool :=
  match e with
  | Println s => String.eqb s "Target: STAGE — SEQUENCE: BEGIN"
  | _ => false
  end.

(** Whether the trace leaves pin [q] driven HIGH. *)
Definition is_high (es : list event) (q : Z) : bool :=
  match last_write q es with Some true => true | _ => false end.

(** How many roster lines the trace leaves driven HIGH. *)
Definition target_high_count (es : list event) : nat :=
  List.length (filter (is_high es) Target.TEST_PINS).

Definition quiet_event (e : event) : bool :=
  negb (is_seq_begin e) && match e with DigitalWrite _ _ => false | _ => true end.

Definition one_high_after_begin (es : list event) : bool :=
  implb (existsb is_seq_begin es) (Nat.leb (target_high_count es) 1).

Lemma lw_quiet q a : forallb quiet_event a = true -> last_write q a = None.
Proof.
  induction a as [|e a IH]; intros H; [reflexivity|].
  cbn [forallb] in H; apply andb_true_iff in H; destruct H as [He H].
  cbn [last_write]; rewrite IH by exact H.
  destruct e; try reflexivity; unfold quiet_event in He; rewrite andb_false_r in He;
    discriminate He.
Qed.

Lemma marker_quiet a : forallb quiet_event a = true -> existsb is_seq_begin a = false.
Proof.
  induction a as [|e a IH]; intros H; [reflexivity|].
  cbn [forallb] in H; apply andb_true_iff in H; destruct H as [He H].
  cbn [existsb]; rewrite IH by exact H.
  unfold quiet_event in He; destruct (is_seq_begin e); [discriminate He|reflexivity].
Qed.

Lemma good_quiet_l a b :
  forallb quiet_event a = true -> one_high_after_begin (a ++ b) = one_high_after_begin b.
Proof.
  intros Ha; unfold one_high_after_begin, target_high_count.
  rewrite existsb_app, marker_quiet by exact Ha; cbn [orb].
  rewrite (filter_ext (is_high (a ++ b)) (is_high b)); [reflexivity|].
  intros q; unfold is_high; rewrite last_write_app, (lw_quiet q a Ha).
  destruct (last_write q b); reflexivity.
Qed.

Lemma good_quiet_r a b :
  forallb quiet_event b = true -> one_high_after_begin (a ++ b) = one_high_after_begin a.
Proof.
  intros Hb; unfold one_high_after_begin, target_high_count.
  rewrite existsb_app, (marker_quiet b Hb), orb_false_r.
  rewrite (filter_ext (is_high (a ++ b)) (is_high a)); [reflexivity|].
  intros q; unfold is_high; rewrite last_write_app, (lw_quiet q b Hb); reflexivity.
Qed.

Lemma quiet_firstn n a : forallb quiet_event a = true -> forallb quiet_event (firstn n a) = true.
Proof.
  revert n; induction a as [|e a IH]; intros n H; destruct n; try reflexivity.
  cbn [firstn forallb] in *; apply andb_true_iff in H; destruct H as [He H].
  rewrite He, IH by exact H; reflexivity.
Qed.

Lemma quiet_repeat e n : quiet_event e = true -> forallb quiet_event (repeat e n) = true.
Proof. intros H; induction n as [|n IH]; cbn; [reflexivity|]; rewrite H, IH; reflexivity. Qed.

Lemma good_setup_prefixes m : one_high_after_begin (firstn m (tl (Target.setup 0))) = true.
Proof.
  assert (Hall : forallb (fun m => one_high_after_begin (firstn m (tl (Target.setup 0))))
                         (seq 0 (S (List.length (tl (Target.setup 0))))) = true)
    by (vm_compute; reflexivity).
  rewrite forallb_forall in Hall.
  destruct (Nat.le_gt_cases m (List.length (tl (Target.setup 0)))) as [Hm|Hm].
  - apply Hall, in_seq; lia.
  - rewrite firstn_all2 by lia.
    rewrite <- (firstn_all (tl (Target.setup 0))) at 1.
    apply Hall, in_seq; lia.
Qed.

(** Once the Target has printed the Sequence begin marker, it never drives
    more than one roster line HIGH at a time: in every prefix of its trace
    that contains the marker, at most one roster line was last written
    HIGH; this holds through the whole per-line sequence and the idle
    loop. *)
Theorem target_one_line_high (w k n : nat) :
  In (Println "Target: STAGE — SEQUENCE: BEGIN") (firstn n (Target.run w k)) ->
  (target_high_count (firstn n (Target.run w k)) <= 1)%nat.
Proof.
  intros Hin.
  assert (Hg : one_high_after_begin (firstn n (Target.run w k)) = true).
  { rewrite target_run_split, firstn_app, (firstn_app _ (tl (Target.setup 0))),
      good_quiet_l, good_quiet_r;
      [apply good_setup_prefixes | | ].
    - apply quiet_firstn; rewrite target_idle; apply quiet_repeat; reflexivity.
    - apply quiet_firstn; rewrite forallb_app; apply andb_true_iff; split;
        [reflexivity | apply quiet_repeat; reflexivity]. }
  unfold one_high_after_begin in Hg.
  replace (existsb is_seq_begin (firstn n (Target.run w k))) with true in Hg.
  - apply Nat.leb_le; exact Hg.
  - symmetry; apply existsb_exists; eexists; split; [exact Hin | reflexivity].
Qed.

(** The two boards agree on the roster: both [TEST_PINS] tables have one
    entry per label of [TEST_LABELS_19], without repetition, and list the
    same pins after the first entry (the Target's VCC control line, the
    Master's VCC monitor); no special pin of either board is a roster
    line of that board. *)
Theorem pin_tables_agree :
  List.length Target.TEST_PINS = List.length TEST_LABELS_19 /\
  List.length Master.TEST_PINS = List.length TEST_LABELS_19 /\
  NoDup Target.TEST_PINS /\ NoDup Master.TEST_PINS /\
  tl Target.TEST_PINS = tl Master.TEST_PINS /\
  hd 0 Target.TEST_PINS = Target.VCC_CTRL_PIN /\ hd 0 Master.TEST_PINS = Master.VCC_PIN /\
  ~ In Target.LED_STATUS_PIN Target.TEST_PINS /\
  Forall (fun q => ~ In q Master.TEST_PINS)
    [Master.LED_STATUS_PIN; Master.LED_PCB_PIN; Master.BUTTON_PIN; Master.RESET_SENDER_PIN].
Proof.
  assert (Hnd : forall l : list Z, forallb (fun q => Nat.eqb (count_occ Z.eq_dec l q) 1) l = true ->
                  NoDup l).
  { intros l H; apply (NoDup_count_occ' Z.eq_dec); intros x Hx.
    rewrite forallb_forall in H; apply Nat.eqb_eq, H, Hx. }
  split; [reflexivity|]; split; [reflexivity|].
  split; [apply Hnd; vm_compute; reflexivity|].
  split; [apply Hnd; vm_compute; reflexivity|].
  split; [reflexivity|]; split; [reflexivity|]; split; [reflexivity|].
  split.
  - vm_compute; intuition discriminate.
  - repeat constructor; vm_compute; intuition discriminate.
Qed.

(** ** Concrete instances on the 19-line roster *)

Import Scenarios.

Lemma reachable_run (t : list string) (m : Master) (ps : list Poll) :
  reachable t m -> reachable t (fst (run t m ps)).
Proof.
  revert m; induction ps as [|p ps IH]; intros m Hm; [exact Hm|].
  rewrite run_cons_fst; apply IH; constructor; exact Hm.
Qed.

(** Closes the side conditions of a theorem applied to concrete polls. *)
Ltac concrete :=
  first [ apply reach_setup
        | (apply reachable_run; apply reach_setup)
        | discriminate
        | (vm_compute; reflexivity)
        | (vm_compute; lia)
        | (vm_compute; intros ?; discriminate) ].

(** C1 on the 19-line roster: the scripted run from power-up at 1000 ms. *)
Lemma clean_run_success_witness :
  let ps := start_poll 1000 :: [quiet_poll 1100 (lv19 true)] ++ [quiet_poll 1200 (lv19 false)] ++
            script_polls (pulse_blocks 1300) ++ [] in
  List.length (filter is_success (states TEST_LABELS_19 s0 ps)) = 1%nat /\
  (forall x, In x (states TEST_LABELS_19 s0 ps) -> state x = STATE_SUCCESS ->
   expectedIndex x = Z.of_nat (NUM_TEST_PINS TEST_LABELS_19)).
Proof.
  apply (clean_run_success TEST_LABELS_19 s0 (start_poll 1000) [quiet_poll 1100 (lv19 true)]
           [quiet_poll 1200 (lv19 false)] (pulse_blocks 1300) []); concrete.
Defined.

(** C2 on the 19-line roster: at cursor 0, line 5 alone rising is an
    ordering violation. *)
Lemma sequence_fault_transitions_witness :
  let m := fst (run TEST_LABELS_19 s0 clean_prefix) in
  let p := quiet_poll 1300 (one_hot19 5) in
  state (fst (Master.loop TEST_LABELS_19 m p)) = STATE_FAIL.
Proof.
  destruct (sequence_fault_transitions TEST_LABELS_19 (fst (run TEST_LABELS_19 s0 clean_prefix))
              (quiet_poll 1300 (one_hot19 5)) ltac:(concrete)) as [_ Hone].
  destruct (Hone 5%nat ltac:(concrete) ltac:(concrete)) as [Hgt _].
  apply Hgt; concrete.
Defined.

(** The code misses a rise of a line: line 0 was low on the previous poll
    (line 1 alone was high) and is below the cursor (2), yet its rise is
    ignored, with no output and no stage change, because [pinWasHigh]
    remembers a line seen high until a poll with no line high, not the
    level of the previous poll. *)
Lemma sequence_repeat_ignored :
  let x := fst (run TEST_LABELS_19 s0 zero_then_one) in
  let prev := quiet_poll 1310 (one_hot19 1) in
  let p := quiet_poll 1320 (one_hot19 0) in
  state x = STATE_SEQUENCE /\ expectedIndex x = 2 /\
  read (p_levels prev) 0 = LOW /\ high_lines TEST_LABELS_19 (p_levels p) = [0%nat] /\
  state (fst (Master.loop TEST_LABELS_19 x p)) = STATE_SEQUENCE /\
  snd (Master.loop TEST_LABELS_19 x p) = [].
Proof. vm_compute; repeat split; reflexivity. Qed.

(** C3 on the 19-line roster: stuck at cursor 3 at 17000 ms, the timeout
    marker names "P0_02". *)
Lemma sequence_timeout_witness :
  let m := fst (run TEST_LABELS_19 s0 cursor_three) in
  let p := quiet_poll 17000 (lv19 false) in
  exists before,
    snd (Master.loop TEST_LABELS_19 m p) =
    before ++ [Print "Master: STAGE — SEQUENCE: ERROR. TIMEOUT. EXPECTED: "; Println "P0_02"].
Proof.
  destruct (sequence_timeout TEST_LABELS_19 (fst (run TEST_LABELS_19 s0 cursor_three))
              (quiet_poll 17000 (lv19 false)) ltac:(concrete) ltac:(concrete) ltac:(concrete)
              ltac:(concrete)) as (_ & _ & _ & H3).
  apply H3; concrete.
Defined.

(** C4 on the 19-line roster: AwaitAllHigh timing out at 5000 ms with every
    line low moves on to AwaitAllLow. *)
Lemma precheck_timeout_continues_witness :
  let m := fst (run TEST_LABELS_19 s0 [start_poll 1000]) in
  let p := quiet_poll 5000 (lv19 false) in
  state (fst (Master.loop TEST_LABELS_19 m p)) = STATE_WAIT_ALL_LOW.
Proof.
  destruct (precheck_timeout_continues TEST_LABELS_19 (fst (run TEST_LABELS_19 s0 [start_poll 1000]))
              (quiet_poll 5000 (lv19 false))) as [Hhigh _].
  apply Hhigh; concrete.
Defined.

(** C5 on the 19-line roster: START with the button held for three 10 ms
    waits restarts the run from Fail; from AwaitActivation the same poll
    blinks, waits for the release, pulses the reset line and keeps the
    SEQUENCE begin flag. *)
Lemma fail_restart_witness :
  let xf := fst (run TEST_LABELS_19 s0 to_fail) in
  let p := held_start 1400 in
  state (fst (Master.loop TEST_LABELS_19 xf p)) = STATE_WAIT_ALL_HIGH /\
  snd (Master.loop TEST_LABELS_19 s0 p) =
    snd (serial_commands s0 (p_serial p)) ++
    [Println "Master: STAGE — IDLE: OK"; DigitalWrite LED_STATUS_PIN HIGH] ++
    waitRelease 3 ++ [Println "Master: START"] ++ pulseReset ++ [DigitalWrite LED_STATUS_PIN LOW] /\
  beginSequencePrinted (fst (Master.loop TEST_LABELS_19 s0 p)) = beginSequencePrinted s0.
Proof.
  destruct (fail_restart TEST_LABELS_19 (fst (run TEST_LABELS_19 s0 to_fail)) (held_start 1400))
    as [Hf _].
  destruct (Hf ltac:(concrete)) as (_ & Hiff & _).
  destruct (fail_restart TEST_LABELS_19 s0 (held_start 1400)) as [_ Hw].
  destruct (Hw ltac:(concrete) ltac:(concrete)) as (_ & Hout & _ & _ & Hq).
  split; [apply Hiff; concrete|]; split; [exact Hout | exact Hq].
Defined.

(** C5 as stated does not hold: on the same poll (START latched, the button
    down but not yet a debounced press, held for three 10 ms waits), the
    activation from AwaitActivation blocks until release and the one from
    Fail does not. *)
Lemma fail_restart_skips_release_wait :
  let xf := fst (run TEST_LABELS_19 s0 to_fail) in
  let p := held_start 1400 in
  reachable TEST_LABELS_19 xf /\ state xf = STATE_FAIL /\ state s0 = STATE_WAIT_BUTTON /\
  pressed_in xf p = false /\ pressed_in s0 p = false /\
  state (fst (Master.loop TEST_LABELS_19 xf p)) = STATE_WAIT_ALL_HIGH /\
  state (fst (Master.loop TEST_LABELS_19 s0 p)) = STATE_WAIT_ALL_HIGH /\
  In (Delay 10) (snd (Master.loop TEST_LABELS_19 s0 p)) /\
  ~ In (Delay 10) (snd (Master.loop TEST_LABELS_19 xf p)).
Proof.
  split; [apply reachable_run; apply reach_setup|].
  vm_compute; do 6 (split; [reflexivity|]); split.
  - repeat (first [left; reflexivity | right]).
  - intuition discriminate.
Qed.

(** C6 on the 19-line roster: START in AwaitActivation at power-up enters
    AwaitAllHigh with the per-run state reset. *)
Lemma enter_all_high_reset_witness :
  run_reset TEST_LABELS_19 (fst (Master.loop TEST_LABELS_19 s0 (start_poll 1000))).
Proof.
  destruct (enter_all_high_reset TEST_LABELS_19 s0 (start_poll 1000) ltac:(concrete)
              ltac:(concrete)) as (_ & Hr & _).
  exact Hr.
Defined.

(** C6 as stated does not hold: after a complete passing run, back in
    AwaitActivation, START enters AwaitAllHigh with the ALL_LOW and
    SEQUENCE begin flags still set. *)
Lemma all_high_keeps_begin_flags :
  let xw := fst (run TEST_LABELS_19 s0 full_run) in
  let y := fst (Master.loop TEST_LABELS_19 xw (start_poll 9600)) in
  reachable TEST_LABELS_19 xw /\ state xw = STATE_WAIT_BUTTON /\
  state y = STATE_WAIT_ALL_HIGH /\
  beginAllLowPrinted y = true /\ beginSequencePrinted y = true.
Proof.
  split; [apply reachable_run; apply reach_setup|].
  vm_compute; repeat split; reflexivity.
Qed.

(** C7 on the 19-line roster: entering AwaitAllHigh and staying there for
    three polls prints its begin marker once. *)
Lemma begin_marker_once_witness :
  count_println "Master: STAGE — ALL_HIGH: BEGIN"
    (snd (run TEST_LABELS_19 (fst (Master.loop TEST_LABELS_19 s0 (start_poll 1000)))
         [quiet_poll 1100 (lv19 false); quiet_poll 1200 (lv19 false);
          quiet_poll 1300 (lv19 false)])) = 1%nat.
Proof.
  destruct (begin_marker_once TEST_LABELS_19 STATE_WAIT_ALL_HIGH "Master: STAGE — ALL_HIGH: BEGIN"
              s0 (start_poll 1000)
              [quiet_poll 1100 (lv19 false); quiet_poll 1200 (lv19 false);
               quiet_poll 1300 (lv19 false)]
              ltac:(concrete) ltac:(concrete) ltac:(concrete) ltac:(concrete) ltac:(concrete)
              ltac:(concrete) ltac:(concrete)) as [_ Hc].
  exact Hc.
Defined.

(** C8 on the 19-line roster: " dfu " in AwaitActivation. *)
Lemma flash_command_transparent_witness :
  let p := mkPoll 1000 (Some " dfu ") HIGH (lv19 false) 0 1000 in
  Master.loop TEST_LABELS_19 s0 p =
  (fst (Master.loop TEST_LABELS_19 s0 (no_cmd p)),
   enterFlashMode ++ snd (Master.loop TEST_LABELS_19 s0 (no_cmd p))).
Proof.
  destruct (flash_command_transparent TEST_LABELS_19 s0
              (mkPoll 1000 (Some " dfu ") HIGH (lv19 false) 0 1000) " dfu "
              ltac:(concrete) ltac:(concrete)) as (_ & Hl & _).
  exact Hl.
Defined.

(** C10 on the 19-line roster: the run whose prechecks timed out and the one
    whose prechecks passed print the same from Sequence on. *)
Lemma precheck_flags_write_only_witness :
  snd (run TEST_LABELS_19 (fst (run TEST_LABELS_19 s0 prechecks_time_out)) (seq_polls 9100)) =
  snd (run TEST_LABELS_19 (fst (run TEST_LABELS_19 s0 prechecks_pass)) (seq_polls 9100)).
Proof.
  destruct (precheck_flags_write_only TEST_LABELS_19 (fst (run TEST_LABELS_19 s0 prechecks_time_out))
              (fst (run TEST_LABELS_19 s0 prechecks_pass)) (seq_polls 9100) ltac:(concrete))
    as [[Hout _] _].
  exact Hout.
Defined.


(** ** Instances of the further properties *)

(** A state of Sequence reached from power-up. *)
Lemma reachable_cursor_bounds_witness :
  let m := fst (run TEST_LABELS_19 s0 cursor_three) in
  List.length (pinWasHigh m) = NUM_TEST_PINS TEST_LABELS_19 /\
  0 <= expectedIndex m <= Z.of_nat (NUM_TEST_PINS TEST_LABELS_19) /\
  ((1 <= NUM_TEST_PINS TEST_LABELS_19)%nat ->
   state m = STATE_WAIT_ALL_HIGH \/ state m = STATE_WAIT_ALL_LOW \/ state m = STATE_SEQUENCE ->
   expectedIndex m < Z.of_nat (NUM_TEST_PINS TEST_LABELS_19)).
Proof.
  intros m; apply (reachable_cursor_bounds TEST_LABELS_19 m); concrete.
Defined.

Lemma enter_success_witness :
  let m := fst (run TEST_LABELS_19 s0 (prechecks_pass ++ firstn 36 (seq_polls 9100))) in
  let p := quiet_poll (9100 + 20 * 18) (one_hot19 18) in
  state m = STATE_SEQUENCE /\
  expectedIndex (fst (Master.loop TEST_LABELS_19 m p)) = Z.of_nat (NUM_TEST_PINS TEST_LABELS_19) /\
  ledStatus (fst (Master.loop TEST_LABELS_19 m p)) = HIGH /\
  exists before, snd (Master.loop TEST_LABELS_19 m p) =
    before ++ [Println "Master: STAGE — SEQUENCE: ALL OK"; DigitalWrite LED_STATUS_PIN HIGH].
Proof.
  intros m p; apply (enter_success TEST_LABELS_19 m p); concrete.
Defined.

Lemma success_lasts_one_poll_witness :
  let m := fst (run TEST_LABELS_19 s0 (prechecks_pass ++ firstn 37 (seq_polls 9100))) in
  let p := quiet_poll 9480 (lv19 false) in
  state (fst (Master.loop TEST_LABELS_19 m p)) = STATE_WAIT_BUTTON /\
  snd (Master.loop TEST_LABELS_19 m p) =
    snd (serial_commands m (p_serial p)) ++ [Print (String.append "Master: STAGE — SUCCESS: OK" NL)] /\
  ledStatus (fst (Master.loop TEST_LABELS_19 m p)) = ledStatus m /\
  expectedIndex (fst (Master.loop TEST_LABELS_19 m p)) = expectedIndex m.
Proof.
  intros m p; apply (success_lasts_one_poll TEST_LABELS_19 m p); concrete.
Defined.

Lemma press_debounced_witness :
  let m := set_lastButtonState s0 LOW in
  let p := mkPoll 1000 None LOW (lv19 false) 0 1000 in
  p_btn p = LOW /\ lastButtonState m = LOW /\
  DEBOUNCE_MS < elapsed (p_now p) (lastButtonEdgeMs m).
Proof.
  intros m p; apply (press_debounced m p); concrete.
Defined.

Lemma unknown_command_ignored_witness :
  let p := mkPoll 1000 (Some " hello ") HIGH (lv19 false) 0 1000 in
  Master.loop TEST_LABELS_19 s0 p = Master.loop TEST_LABELS_19 s0 (no_cmd p).
Proof.
  intros p; apply (unknown_command_ignored TEST_LABELS_19 s0 p " hello "); concrete.
Defined.

Lemma start_latch_kept_witness :
  let m := fst (run TEST_LABELS_19 s0 clean_prefix) in
  let p := start_poll 1300 in
  startRequested (fst (Master.loop TEST_LABELS_19 m p)) =
    startRequested m || is_start_cmd (p_serial p).
Proof.
  intros m p; apply (start_latch_kept TEST_LABELS_19 m p).
  right; right; left; concrete.
Defined.

Lemma latched_start_activates_witness :
  let m := fst (run TEST_LABELS_19 s0 to_fail) in
  let p := start_poll 1400 in
  state (fst (Master.loop TEST_LABELS_19 m p)) = STATE_WAIT_ALL_HIGH /\
  startRequested (fst (Master.loop TEST_LABELS_19 m p)) = false /\
  exists before, snd (Master.loop TEST_LABELS_19 m p) =
    before ++ [Println "Master: START"] ++ pulseReset ++ [DigitalWrite LED_STATUS_PIN LOW].
Proof.
  intros m p; apply (latched_start_activates TEST_LABELS_19 m p); [right; concrete | concrete].
Defined.

Lemma idle_blink_witness :
  let p := quiet_poll 1000 (lv19 false) in
  state (fst (Master.loop TEST_LABELS_19 s0 p)) = STATE_WAIT_BUTTON /\
  expectedIndex (fst (Master.loop TEST_LABELS_19 s0 p)) = expectedIndex s0 /\
  pinWasHigh (fst (Master.loop TEST_LABELS_19 s0 p)) = pinWasHigh s0 /\
  ledStatus (fst (Master.loop TEST_LABELS_19 s0 p)) =
    (if 500 <=? elapsed (p_now p) (lastBlinkMs s0) then negb (ledStatus s0) else ledStatus s0) /\
  snd (Master.loop TEST_LABELS_19 s0 p) = snd (serial_commands s0 (p_serial p)) ++
    (if 500 <=? elapsed (p_now p) (lastBlinkMs s0)
     then [Println "Master: STAGE — IDLE: OK"; DigitalWrite LED_STATUS_PIN (negb (ledStatus s0))]
     else []).
Proof.
  intros p; apply (idle_blink TEST_LABELS_19 s0 p); concrete.
Defined.

Lemma fail_waits_witness :
  let m := fst (run TEST_LABELS_19 s0 to_fail) in
  let p := quiet_poll 1500 (lv19 false) in
  state (fst (Master.loop TEST_LABELS_19 m p)) = STATE_FAIL /\
  beginFailPrinted (fst (Master.loop TEST_LABELS_19 m p)) = true /\
  expectedIndex (fst (Master.loop TEST_LABELS_19 m p)) = expectedIndex m /\
  pinWasHigh (fst (Master.loop TEST_LABELS_19 m p)) = pinWasHigh m /\
  ledStatus (fst (Master.loop TEST_LABELS_19 m p)) =
    (if 150 <=? elapsed (p_now p) (lastBlinkMs m) then negb (ledStatus m) else ledStatus m) /\
  snd (Master.loop TEST_LABELS_19 m p) = snd (serial_commands m (p_serial p)) ++
    (if beginFailPrinted m then [] else [Println "Master: FAIL"]) ++
    (if 150 <=? elapsed (p_now p) (lastBlinkMs m)
     then [DigitalWrite LED_STATUS_PIN (negb (ledStatus m))] else []).
Proof.
  intros m p; apply (fail_waits TEST_LABELS_19 m p); concrete.
Defined.

Lemma sequence_advance_witness :
  let m := fst (run TEST_LABELS_19 s0 clean_prefix) in
  let p := quiet_poll 1300 (one_hot19 0) in
  pinWasHigh (fst (Master.loop TEST_LABELS_19 m p)) = set_nth (pinWasHigh m) 0 true /\
  expectedIndex (fst (Master.loop TEST_LABELS_19 m p)) = Z.of_nat 1 /\
  state (fst (Master.loop TEST_LABELS_19 m p)) = STATE_SEQUENCE /\
  exists before, snd (Master.loop TEST_LABELS_19 m p) =
    before ++ [Print "Master: STAGE — SEQUENCE: OK — "; Println (Master.label TEST_LABELS_19 0)].
Proof.
  intros m p; apply (sequence_advance TEST_LABELS_19 m p 0); concrete.
Defined.

Lemma sequence_held_line_witness :
  let m := fst (run TEST_LABELS_19 s0 (clean_prefix ++ [quiet_poll 1300 (one_hot19 0)])) in
  let p := quiet_poll 1310 (one_hot19 0) in
  state (fst (Master.loop TEST_LABELS_19 m p)) = STATE_SEQUENCE /\
  expectedIndex (fst (Master.loop TEST_LABELS_19 m p)) = expectedIndex m /\
  pinWasHigh (fst (Master.loop TEST_LABELS_19 m p)) = pinWasHigh m /\
  snd (Master.loop TEST_LABELS_19 m p) = snd (serial_commands m (p_serial p)) ++
    (if beginSequencePrinted m then [] else [Println "Master: STAGE — SEQUENCE: BEGIN"]).
Proof.
  intros m p; apply (sequence_held_line TEST_LABELS_19 m p 0); concrete.
Defined.

Lemma sequence_all_low_clears_witness :
  let m := fst (run TEST_LABELS_19 s0 (clean_prefix ++ [quiet_poll 1300 (one_hot19 0)])) in
  let p := quiet_poll 1310 (lv19 false) in
  state (fst (Master.loop TEST_LABELS_19 m p)) = STATE_SEQUENCE /\
  expectedIndex (fst (Master.loop TEST_LABELS_19 m p)) = expectedIndex m /\
  (forall j, (j < NUM_TEST_PINS TEST_LABELS_19)%nat ->
     nth j (pinWasHigh (fst (Master.loop TEST_LABELS_19 m p))) false = false) /\
  snd (Master.loop TEST_LABELS_19 m p) = snd (serial_commands m (p_serial p)) ++
    (if beginSequencePrinted m then [] else [Println "Master: STAGE — SEQUENCE: BEGIN"]).
Proof.
  intros m p; apply (sequence_all_low_clears TEST_LABELS_19 m p); concrete.
Defined.

Lemma target_one_line_high_witness :
  (target_high_count (firstn 120 (Target.run 0 1)) <= 1)%nat.
Proof.
  apply (target_one_line_high 0 1 120).
  vm_compute; repeat (first [left; reflexivity | right]).
Defined.

End Props.
